(** * Multi-wallet session manager of the XDC GOAT MCP server

    A shallow embedding of the wallet manager, the GOAT tool
    synchroniser and the wallet-gated tool handlers of
    [src/evm-mcp-server/src/server/xdcmcpserveradvRef3.ts]
    (the same code is repeated in [xdcmcpserveradvRef2.ts] and
    [core/tools-xdc-goat.ts]), followed by the properties proved of it.

    Conventions.
    - A JavaScript [Map] is an association list in insertion order;
      [Array.from(map.values())] is the list of its values.
    - [null]/[undefined] is [None].
    - Third-party code (viem, the GOAT SDK, the MCP SDK, the chain) is a
      collaborator: a field of the class [Collaborators].  A collaborator
      that throws returns [Throw].
    - Handlers run in a state monad over the process-wide state whose
      outcome is either a value or a thrown exception; assignments made
      before a [throw] survive it, as they do in JavaScript. *)

From Stdlib Require Import String Ascii List Bool Arith Lia.
Import ListNotations.
Open Scope string_scope.
Open Scope list_scope.

Set Implicit Arguments.
Set Warnings "-register-all".

Infix "+++" := String.append (at level 60, right associativity).

(* ================================================================== *)
(** * Values shared by the whole server *)

(** [interface Wallet]. *)
Record Wallet : Type := mkWallet {
  id : string;
  name : string;
  role : string;
  provider : string;
  privateKey : string;
  publicAddress : string;
  isActive : bool;
  description : string
}.

(** The result of a call that may throw. *)
Inductive Outcome (A : Type) : Type :=
| Return (a : A)
| Throw (message : string).
Arguments Throw {A} message.

(** The JSON values the handlers build before [JSON.stringify]. *)
Inductive Json : Type :=
| JNull
| JBool (b : bool)
| JNum (n : nat)
| JStr (s : string)
| JArr (items : list Json)
| JObj (fields : list (string * Json)).

(** [content: [{ type: "text", text }]]: the text is either a
    serialised object or a plain string. *)
Inductive ToolResponse : Type :=
| TextJson (payload : Json)
| TextPlain (text : string).

(* ================================================================== *)
(** * JavaScript [Map<string, V>] *)

Module JsMap.
Section Defs.
Variable V : Type.

Definition t := list (string * V).

Definition empty : t := [].

Fixpoint get (k : string) (m : t) : option V :=
  match m with
  | [] => None
  | (k', v) :: m' => if String.eqb k' k then Some v else get k m'
  end.

Definition has (k : string) (m : t) : bool :=
  match get k m with Some _ => true | None => false end.

(** [set] keeps the position of a key that is already present. *)
Fixpoint set (k : string) (v : V) (m : t) : t :=
  match m with
  | [] => [(k, v)]
  | (k', v') :: m' =>
      if String.eqb k' k then (k, v) :: m' else (k', v') :: set k v m'
  end.

Definition keys (m : t) : list string := map fst m.
Definition values (m : t) : list V := map snd m.
End Defs.
Arguments empty {V}.
End JsMap.

(* ================================================================== *)
(** * Credential validation *)

(** The character class [[a-fA-F0-9]]. *)
Definition isHexDigit (c : ascii) : bool :=
  let n := nat_of_ascii c in
  (((48 <=? n) && (n <=? 57))
   || ((65 <=? n) && (n <=? 70))
   || ((97 <=? n) && (n <=? 102)))%nat.

Fixpoint allHex (s : string) : bool :=
  match s with
  | EmptyString => true
  | String c s' => isHexDigit c && allHex s'
  end.

(** [/^0x[a-fA-F0-9]{64}$/.test(pk)] *)
Definition matchesKeyPattern (pk : string) : bool :=
  match pk with
  | String "0" (String "x" rest) => (String.length rest =? 64)%nat && allHex rest
  | _ => false
  end.

(** [pk && pk !== '0x' && /^0x[a-fA-F0-9]{64}$/.test(pk)], where [pk] is
    [process.env[...]]: [undefined] and the empty string are falsy. *)
Definition passesValidation (pk : option string) : bool :=
  match pk with
  | None => false
  | Some s =>
      negb (String.eqb s "") && negb (String.eqb s "0x") && matchesKeyPattern s
  end.

Arguments passesValidation : simpl never.

(** [process.env]. *)
Definition Env := string -> option string.

(* ================================================================== *)
(** * The fixed slot list of [loadWallets] *)

Module Config.
Record t : Type := mk {
  env : string;
  id : string;
  name : string;
  role : string;
  provider : string
}.
End Config.

Definition configs : list Config.t := [
  Config.mk "CAT_MM_SELLER_WALLET_PRIVATE_KEY" "catmm_seller" "MetaMask Seller" "seller" "metamask";
  Config.mk "CAT_MM_BUYER_WALLET_PRIVATE_KEY" "catmm_buyer" "MetaMask Buyer" "buyer" "metamask";
  Config.mk "CAT_MM_FINANCIER_WALLET_PRIVATE_KEY" "catmm_financier" "MetaMask Financier" "financier" "metamask";
  Config.mk "CM_SELLER_WALLET_PRIVATE_KEY" "cm_seller" "Crossmint Seller" "seller" "crossmint";
  Config.mk "CM_BUYER_WALLET_PRIVATE_KEY" "cm_buyer" "Crossmint Buyer" "buyer" "crossmint";
  Config.mk "CVC_SELLER_WALLET_PRIVATE_KEY" "cvc_seller" "Civic Seller" "seller" "civic";
  Config.mk "CVC_BUYER_WALLET_PRIVATE_KEY" "cvc_buyer" "Civic Buyer" "buyer" "civic";
  Config.mk "WALLET_PRIVATE_KEY" "legacy_main" "Legacy Main Wallet" "legacy" "legacy"
].

(** What [loadWallets] writes to the console, with the level it uses. *)
Inductive Level : Type := LOG | WARN.

Inductive ConsoleEvent : Type :=
| Checking (envName : string) (found : bool)
| Loaded (walletName address walletRole : string)
| InvalidKey (walletName : string)
| NoPrivateKeyFound (walletName envName : string)
| CurrentSetToPriority (walletName : string)
| CurrentSetToFallback (walletName : string)
| WalletsLoaded (count : nat)
| NoValidKeys.

Definition level (e : ConsoleEvent) : Level :=
  match e with
  | InvalidKey _ | NoValidKeys => WARN
  | _ => LOG
  end.

(* ================================================================== *)
(** * The GOAT tool set and the server state *)

(** What [createWalletClientForWallet] hands to the GOAT SDK: an account
    derived from a private key. *)
Record WalletClient : Type := mkClient {
  accountKey : string;
  accountAddress : string
}.

(** The bundle returned by [getOnChainTools]: [listOfTools()] gives the
    names of the tools the bundle can run. *)
Record ToolSet : Type := mkToolSet {
  listOfTools : list string
}.

(** [class WalletConfigManager]. *)
Record WalletConfigManager : Type := mkManager {
  wallets : JsMap.t Wallet;
  currentWallet : option Wallet;
  lastActiveWalletId : option string
}.

(** The module-level variables [walletManager], [goatTools] and
    [goatToolsLastWalletId].  [onChainCalls] is the history of the calls
    made to [getOnChainTools], oldest first: the program does not hold
    it, the model does, so that a rebuild can be counted. *)
Record Server : Type := mkServer {
  walletManager : WalletConfigManager;
  goatTools : option ToolSet;
  goatToolsLastWalletId : option string;
  onChainCalls : list WalletClient
}.

(** The wallet-gated tools registered on the server. *)
Inductive Operation : Type :=
| get_current_wallet
| get_wallet_info
| mint_nft_advanced
| mint_erc6960_batch
| transfer_erc6960
| mint_nft_with_active_wallet
| send_eth.

(** The third-party code the server calls.
    - [privateKeyToAccount] (viem) derives the address of a key, or
      throws ([None]).
    - [getOnChainTools] (GOAT SDK) builds a tool set for a client; its
      answer may depend on the calls made before.
    - [registerGoatTools] stands for the [server.tool] registrations that
      follow a build; [false] when one of them throws.
    - [getBalance] and [chainCall] are the chain client: the balance of an
      address, and the body of a transaction tool run for a wallet. *)
Class Collaborators : Type := {
  privateKeyToAccount : string -> option string;
  getOnChainTools : list WalletClient -> WalletClient -> Outcome ToolSet;
  registerGoatTools : list WalletClient -> ToolSet -> bool;
  getBalance : string -> Outcome string;
  chainCall : Operation -> Json -> Wallet -> Outcome Json
}.

(* ================================================================== *)
(** * [class WalletConfigManager] *)

Section Manager.
Context {collab : Collaborators}.

(** The locals of [loadWallets] while [configs.forEach] runs. *)
Record LoadState : Type := mkLoad {
  ld_wallets : JsMap.t Wallet;
  loadedWallets : list Wallet;
  walletsLoaded : nat;
  console : list ConsoleEvent
}.

Definition isSome {A : Type} (o : option A) : bool :=
  match o with Some _ => true | None => false end.

(** [pk ? 'Found' : 'Not found'] *)
Definition truthy (pk : option string) : bool :=
  match pk with
  | Some s => negb (String.eqb s "")
  | None => false
  end.

(** The body of the [forEach] callback. *)
Definition loadSlot (env : Env) (st : LoadState) (config : Config.t) : LoadState :=
  let pk := env (Config.env config) in
  let out := console st ++ [Checking (Config.env config) (truthy pk)] in
  match pk with
  | Some key =>
      if passesValidation pk then
        match privateKeyToAccount key with
        | Some address =>
            let wallet :=
              mkWallet (Config.id config) (Config.name config)
                       (Config.role config) (Config.provider config)
                       key address false (Config.name config +++ " wallet") in
            mkLoad (JsMap.set (Config.id config) wallet (ld_wallets st))
                   (loadedWallets st ++ [wallet])
                   (S (walletsLoaded st))
                   (out ++ [Loaded (Config.name config) address (Config.role config)])
        | None =>
            mkLoad (ld_wallets st) (loadedWallets st) (walletsLoaded st)
                   (out ++ [InvalidKey (Config.name config)])
        end
      else
        mkLoad (ld_wallets st) (loadedWallets st) (walletsLoaded st)
               (out ++ [NoPrivateKeyFound (Config.name config) (Config.env config)])
  | None =>
      mkLoad (ld_wallets st) (loadedWallets st) (walletsLoaded st)
             (out ++ [NoPrivateKeyFound (Config.name config) (Config.env config)])
  end.

Definition loadSlots (env : Env) (cs : list Config.t) (st : LoadState) : LoadState :=
  fold_left (loadSlot env) cs st.

(** The second half of [loadWallets]: the choice of the wallet that is
    current at start-up, from the locals the loop left. *)
Definition selectDefault (st : LoadState) : WalletConfigManager * list ConsoleEvent :=
  let priorityWallet :=
    find (fun w => String.eqb (id w) "catmm_seller") (loadedWallets st) in
  match priorityWallet with
  | Some w =>
      (mkManager (ld_wallets st) (Some w) (Some (id w)),
       console st ++ [CurrentSetToPriority (name w)])
  | None =>
      if (0 <? walletsLoaded st)%nat then
        let sellers :=
          filter (fun w => String.eqb (role w) "seller") (loadedWallets st) in
        let fallbackWallet :=
          match sellers with
          | w :: _ => Some w
          | [] => hd_error (loadedWallets st)
          end in
        match fallbackWallet with
        | Some w =>
            (mkManager (ld_wallets st) (Some w) (Some (id w)),
             console st ++ [CurrentSetToFallback (name w)])
        | None => (mkManager (ld_wallets st) None None, console st)
        end
      else (mkManager (ld_wallets st) None None, console st)
  end.

(** [loadWallets], run by the constructor on a manager whose map is
    empty and whose two fields are [null]; returns the manager and the
    console output. *)
Definition loadWallets (env : Env) : WalletConfigManager * list ConsoleEvent :=
  let st := loadSlots env configs (mkLoad JsMap.empty [] 0 []) in
  let '(m, out) := selectDefault st in
  let out := out ++ [WalletsLoaded (walletsLoaded st)] in
  (m, if (walletsLoaded st =? 0)%nat then out ++ [NoValidKeys] else out).

(** [WalletConfigManager.getInstance()] on first use. *)
Definition getInstance (env : Env) : WalletConfigManager := fst (loadWallets env).

Definition switchWallet (walletId : string) (m : WalletConfigManager)
  : bool * WalletConfigManager :=
  match JsMap.get walletId (wallets m) with
  | None => (false, m)
  | Some wallet => (true, mkManager (wallets m) (Some wallet) (Some walletId))
  end.

Definition getCurrentWallet (m : WalletConfigManager) : option Wallet :=
  currentWallet m.

Definition getAllWallets (m : WalletConfigManager) : list Wallet :=
  JsMap.values (wallets m).

Definition getWalletsByRole (r : string) (m : WalletConfigManager) : list Wallet :=
  filter (fun w => String.eqb (role w) r) (getAllWallets m).

Definition getWalletsByProvider (p : string) (m : WalletConfigManager) : list Wallet :=
  filter (fun w => String.eqb (provider w) p) (getAllWallets m).

Definition getWalletByRoleAndProvider (r p : string) (m : WalletConfigManager)
  : option Wallet :=
  find (fun w => String.eqb (role w) r && String.eqb (provider w) p)
       (getAllWallets m).

(** [this.lastActiveWalletId && this.wallets.has(...)]: an empty
    identifier is falsy. *)
Definition restoreLastActiveWallet (m : WalletConfigManager)
  : bool * WalletConfigManager :=
  match lastActiveWalletId m with
  | Some last =>
      if negb (String.eqb last "") && JsMap.has last (wallets m) then
        match JsMap.get last (wallets m) with
        | Some wallet => (true, mkManager (wallets m) (Some wallet) (lastActiveWalletId m))
        | None => (false, m)
        end
      else (false, m)
  | None => (false, m)
  end.

(** The states the manager can be in: what the constructor builds, and
    what [switchWallet] and [restoreLastActiveWallet] make of such a
    state.  Nothing else writes the three fields. *)
Inductive reachable : WalletConfigManager -> Prop :=
| reach_load : forall env, reachable (getInstance env)
| reach_switch : forall walletId m,
    reachable m -> reachable (snd (switchWallet walletId m))
| reach_restore : forall m,
    reachable m -> reachable (snd (restoreLastActiveWallet m)).

End Manager.

(* ================================================================== *)
(** * The handler monad *)

(** A computation reads and writes the module-level state and either
    returns or throws. *)
Definition M (A : Type) : Type := Server -> Outcome A * Server.

Definition ret {A : Type} (a : A) : M A := fun s => (Return a, s).

Definition throw {A : Type} (message : string) : M A := fun s => (Throw message, s).

Definition bind {A B : Type} (c : M A) (k : A -> M B) : M B :=
  fun s =>
    match c s with
    | (Return a, s') => k a s'
    | (Throw e, s') => (Throw e, s')
    end.

(** [try { c } catch (e) { handler e }] *)
Definition tryCatch {A : Type} (c : M A) (handler : string -> M A) : M A :=
  fun s =>
    match c s with
    | (Return a, s') => (Return a, s')
    | (Throw e, s') => handler e s'
    end.

Definition gets {A : Type} (f : Server -> A) : M A := fun s => (Return (f s), s).

Definition modify (f : Server -> Server) : M unit := fun s => (Return tt, f s).

Definition liftOutcome {A : Type} (o : Outcome A) : M A := fun s => (o, s).

Declare Scope handler_scope.
Delimit Scope handler_scope with handler.
Notation "x <- c ;; k" := (bind c (fun x => k))
  (at level 61, c at next level, right associativity) : handler_scope.
Notation "c ;; k" := (bind c (fun _ => k))
  (at level 61, right associativity) : handler_scope.
Open Scope handler_scope.

(** Assignments to the module-level variables. *)
Definition setGoatTools (t : option ToolSet) : M unit :=
  modify (fun s => mkServer (walletManager s) t (goatToolsLastWalletId s) (onChainCalls s)).

Definition setGoatToolsLastWalletId (w : option string) : M unit :=
  modify (fun s => mkServer (walletManager s) (goatTools s) w (onChainCalls s)).

Definition setWalletManager (m : WalletConfigManager) : M unit :=
  modify (fun s => mkServer m (goatTools s) (goatToolsLastWalletId s) (onChainCalls s)).

(** A method of [walletManager] that returns a value and updates the
    manager. *)
Definition callManager {A : Type}
  (method : WalletConfigManager -> A * WalletConfigManager) : M A :=
  fun s =>
    let '(a, m) := method (walletManager s) in
    (Return a, mkServer m (goatTools s) (goatToolsLastWalletId s) (onChainCalls s)).

(** [a === b] where [a] may be [null]. *)
Definition sameId (a : option string) (b : string) : bool :=
  match a with
  | Some x => String.eqb x b
  | None => false
  end.

(* ================================================================== *)
(** * The GOAT tool synchroniser *)

Section Synchroniser.
Context {collab : Collaborators}.

Definition createWalletClientForWallet (wallet : Wallet) : M WalletClient :=
  match privateKeyToAccount (privateKey wallet) with
  | Some address => ret (mkClient (privateKey wallet) address)
  | None => throw "invalid private key"
  end.

(** [await getOnChainTools({ wallet: viem(walletClient), ... })]; the
    call is entered in the history whether or not it throws. *)
Definition awaitOnChainTools (walletClient : WalletClient) : M ToolSet :=
  fun s =>
    (getOnChainTools (onChainCalls s) walletClient,
     mkServer (walletManager s) (goatTools s) (goatToolsLastWalletId s)
              (onChainCalls s ++ [walletClient])).

(** [availableTools.forEach(tool => server.tool(...))] *)
Definition registerAvailableTools (tools : ToolSet) : M unit :=
  fun s =>
    if registerGoatTools (onChainCalls s) tools then (Return tt, s)
    else (Throw "tool registration failed", s).

Definition initializeGoatTools (forceReinit : bool) : M bool :=
  current <- gets (fun s => getCurrentWallet (walletManager s)) ;;
  match current with
  | None =>
      setGoatTools None ;;
      setGoatToolsLastWalletId None ;;
      ret false
  | Some wallet =>
      tools <- gets goatTools ;;
      lastId <- gets goatToolsLastWalletId ;;
      if negb forceReinit && isSome tools && sameId lastId (id wallet) then
        ret true
      else
        tryCatch
          (walletClient <- createWalletClientForWallet wallet ;;
           built <- awaitOnChainTools walletClient ;;
           setGoatTools (Some built) ;;
           setGoatToolsLastWalletId (Some (id wallet)) ;;
           registerAvailableTools built ;;
           ret true)
          (fun _ =>
             setGoatTools None ;;
             setGoatToolsLastWalletId None ;;
             ret false)
  end.

Definition ensureGoatToolsForCurrentWallet : M bool :=
  current <- gets (fun s => getCurrentWallet (walletManager s)) ;;
  match current with
  | None => ret false
  | Some wallet =>
      tools <- gets goatTools ;;
      lastId <- gets goatToolsLastWalletId ;;
      if negb (isSome tools) || negb (sameId lastId (id wallet)) then
        initializeGoatTools true
      else ret true
  end.

End Synchroniser.

(* ================================================================== *)
(** * Tool handlers *)

(** [z.enum(['metamask', 'crossmint', 'civic'])] *)
Inductive ProviderChoice : Type := metamask | crossmint | civic.

Definition providerName (p : ProviderChoice) : string :=
  match p with
  | metamask => "metamask"
  | crossmint => "crossmint"
  | civic => "civic"
  end.

(** [z.enum(["mainnet", "testnet"])] and the fields of [ChainConfig] the
    handlers print. *)
Inductive Network : Type := mainnet | testnet.

Record ChainConfig : Type := mkChain {
  chainId : nat;
  chainName : string;
  currencySymbol : string
}.

Definition XDC_MAINNET : ChainConfig := mkChain 50 "XDC Network" "XDC".
Definition XDC_TESTNET : ChainConfig := mkChain 51 "XDC Apothem Testnet" "TXDC".

Definition getChainConfig (network : Network) : ChainConfig :=
  match network with
  | testnet => XDC_TESTNET
  | mainnet => XDC_MAINNET
  end.

Definition ensureAddress (address : string) : Outcome string :=
  if String.prefix "0x" address then Return address
  else Throw ("Invalid address format: " +++ address +++ ". Address must start with 0x").

Fixpoint lookupField (k : string) (fields : list (string * Json)) : option Json :=
  match fields with
  | [] => None
  | (k', v) :: rest => if String.eqb k' k then Some v else lookupField k rest
  end.

(** A field of a JSON object. *)
Definition field (k : string) (j : Json) : option Json :=
  match j with
  | JObj fields => lookupField k fields
  | _ => None
  end.

(** [network = "testnet"] in a handler's parameter list. *)
Definition networkOf (args : Json) : Network :=
  match args with
  | JObj fields =>
      match lookupField "network" fields with
      | Some (JStr "mainnet") => mainnet
      | _ => testnet
      end
  | _ => testnet
  end.

(** [haystack.includes(needle)] *)
Fixpoint includes (needle haystack : string) : bool :=
  String.prefix needle haystack
  || match haystack with
     | EmptyString => false
     | String _ rest => includes needle rest
     end.

(** Whether some string of a payload includes [needle]. *)
Fixpoint mentions (needle : string) (j : Json) : bool :=
  match j with
  | JStr s => includes needle s
  | JArr items => existsb (mentions needle) items
  | JObj fields =>
      (fix inFields (l : list (string * Json)) : bool :=
         match l with
         | [] => false
         | (_, v) :: l' => mentions needle v || inFields l'
         end) fields
  | _ => false
  end.

Section Handlers.
Context {collab : Collaborators}.

(** The entries of [availableWallets] in the error payload of a switch. *)
Definition walletSummary (w : Wallet) : Json :=
  JObj [("name", JStr (name w)); ("role", JStr (role w));
        ("provider", JStr (provider w)); ("address", JStr (publicAddress w))].

(** The [message] of a successful switch. *)
Definition switchMessage (roleName : string) (requested : string) (target : Wallet)
  : string :=
  "Switched to " +++ roleName +++ " wallet"
  +++ (if negb (String.eqb (provider target) requested)
       then " (" +++ requested +++ " not available, using " +++ provider target +++ ")"
       else "").

Definition switchSuccessPayload (roleName requested : string) (target : Wallet)
  (goatInitSuccess : bool) : Json :=
  JObj [("success", JBool true);
        ("message", JStr (switchMessage roleName requested target));
        ("wallet", JObj [("name", JStr (name target));
                         ("address", JStr (publicAddress target));
                         ("role", JStr (role target));
                         ("provider", JStr (provider target))]);
        ("goatToolsReinitialized", JBool goatInitSuccess);
        ("readyForOperations", JBool goatInitSuccess)].

Definition switchErrorPayload (roleName instruction : string)
  (m : WalletConfigManager) : Json :=
  JObj [("error", JStr ("No " +++ roleName +++ " wallet found"));
        ("availableWallets", JArr (map walletSummary (getAllWallets m)));
        ("instruction", JStr instruction)].

(** The wallet a switch settles on: the wallet of the requested
    provider, else [getWalletsByRole(role)[0]]. *)
Definition switchTarget (roleName : string) (provider : ProviderChoice)
  (m : WalletConfigManager) : option Wallet :=
  let target :=
    match provider with
    | metamask => getWalletByRoleAndProvider roleName "metamask" m
    | crossmint => getWalletByRoleAndProvider roleName "crossmint" m
    | civic => getWalletByRoleAndProvider roleName "civic" m
    end in
  match target with
  | Some w => Some w
  | None => hd_error (getWalletsByRole roleName m)
  end.

(** The handler shared by [switch_to_seller] and [switch_to_buyer]: the
    two differ in the role literal and in the instruction text only. *)
Definition switch_to (roleName instruction : string)
  (providerArg : option ProviderChoice) : M ToolResponse :=
  tryCatch
    (let provider := match providerArg with Some p => p | None => metamask end in
     m <- gets walletManager ;;
     match switchTarget roleName provider m with
     | None => ret (TextJson (switchErrorPayload roleName instruction m))
     | Some target =>
         switchSuccess <- callManager (switchWallet (id target)) ;;
         if negb switchSuccess then
           throw ("Failed to switch to wallet " +++ id target)
         else
           goatInitSuccess <- initializeGoatTools true ;;
           ret (TextJson (switchSuccessPayload roleName (providerName provider)
                                               target goatInitSuccess))
     end)
    (fun e => ret (TextPlain ("Error switching to " +++ roleName +++ ": " +++ e))).

Definition switch_to_seller : option ProviderChoice -> M ToolResponse :=
  switch_to "seller"
    "Set seller wallet environment variables (CAT_MM_SELLER_WALLET_PRIVATE_KEY, CM_SELLER_WALLET_PRIVATE_KEY, or CVC_SELLER_WALLET_PRIVATE_KEY)".

Definition switch_to_buyer : option ProviderChoice -> M ToolResponse :=
  switch_to "buyer"
    "Set buyer wallet environment variables (CAT_MM_BUYER_WALLET_PRIVATE_KEY, CM_BUYER_WALLET_PRIVATE_KEY, or CVC_BUYER_WALLET_PRIVATE_KEY)".

(** [if (!walletManager.getCurrentWallet()) walletManager.restoreLastActiveWallet();] *)
Definition restoreIfNoCurrent : M unit :=
  current <- gets (fun s => getCurrentWallet (walletManager s)) ;;
  match current with
  | None => callManager restoreLastActiveWallet ;; ret tt
  | Some _ => ret tt
  end.

Definition createDynamicWalletClient : M WalletClient :=
  current <- gets (fun s => getCurrentWallet (walletManager s)) ;;
  match current with
  | None =>
      throw "No active wallet. Use switch_to_seller or switch_to_buyer to activate a wallet."
  | Some w =>
      match privateKeyToAccount (privateKey w) with
      | Some address => ret (mkClient (privateKey w) address)
      | None => throw "invalid private key"
      end
  end.

(** What a handler answers when no wallet is current after the attempt
    to restore one. *)
Definition noWalletInstruction (op : Operation) : string :=
  match op with
  | mint_nft_advanced =>
      "Use switch_to_seller (for minting) to activate the appropriate wallet"
  | mint_erc6960_batch => "Use switch_to_seller to activate a wallet"
  | mint_nft_with_active_wallet =>
      "Use switch_to_seller (for minting) or switch_to_buyer (for purchasing) to activate the appropriate wallet"
  | _ => "Use switch_to_seller or switch_to_buyer to activate a wallet"
  end.

Definition noWalletPayload (op : Operation) : Json :=
  match op with
  | get_wallet_info =>
      JObj [("message", JStr "No wallet configured");
            ("instructions",
             JArr [JStr "Set role-based wallet environment variables:";
                   JStr "- CAT_MM_SELLER_WALLET_PRIVATE_KEY for MetaMask seller operations";
                   JStr "- CAT_MM_BUYER_WALLET_PRIVATE_KEY for MetaMask buyer operations";
                   JStr "- CM_SELLER_WALLET_PRIVATE_KEY for Crossmint seller operations";
                   JStr "- CVC_BUYER_WALLET_PRIVATE_KEY for Civic buyer operations";
                   JStr "Then use switch_to_seller/switch_to_buyer to activate the appropriate wallet"])]
  | _ =>
      JObj [("error", JStr "No active wallet");
            ("instruction", JStr (noWalletInstruction op))]
  end.

(** The [catch] clause that closes each handler. *)
Definition errorResponse (op : Operation) (e : string) : ToolResponse :=
  match op with
  | get_current_wallet => TextPlain ("Error getting current wallet: " +++ e)
  | get_wallet_info => TextPlain ("Error getting wallet info: " +++ e)
  | mint_nft_advanced => TextPlain ("Error minting NFT: " +++ e)
  | mint_erc6960_batch => TextPlain ("Error batch minting ERC-6960 tokens: " +++ e)
  | transfer_erc6960 => TextPlain ("Error transferring ERC-6960 token: " +++ e)
  | mint_nft_with_active_wallet => TextJson (JObj [("error", JStr e)])
  | send_eth => TextPlain ("Error sending ETH: " +++ e)
  end.

(** Only [mint_nft_advanced] awaits [ensureGoatToolsForCurrentWallet]
    before it builds its wallet client. *)
Definition ensuresGoatTools (op : Operation) : bool :=
  match op with
  | mint_nft_advanced => true
  | _ => false
  end.

Definition currentWalletPayload (w : Wallet) (goatReady : bool)
  (lastId : option string) : Json :=
  JObj [("name", JStr (name w)); ("address", JStr (publicAddress w));
        ("role", JStr (role w)); ("provider", JStr (provider w));
        ("id", JStr (id w)); ("goatIntegration", JBool goatReady);
        ("goatToolsWalletMatch", JBool (sameId lastId (id w)));
        ("readyForOperations", JBool goatReady)].

Definition walletInfoPayload (w : Wallet) (chain : ChainConfig)
  (balance : Outcome string) (goatReady : bool) (lastId : option string) : Json :=
  let head :=
    [("source", JStr "Managed Wallet"); ("name", JStr (name w));
     ("address", JStr (publicAddress w)); ("role", JStr (role w));
     ("provider", JStr (provider w)); ("network", JStr (chainName chain));
     ("chainId", JNum (chainId chain))] in
  let tail :=
    [("isConnected", JBool true); ("goatIntegration", JBool goatReady);
     ("goatToolsWalletMatch", JBool (sameId lastId (id w)));
     ("readyForOperations", JBool goatReady)] in
  match balance with
  | Return b =>
      JObj (head ++ [("balance", JStr (b +++ " " +++ currencySymbol chain))] ++ tail)
  | Throw _ =>
      JObj (head ++ tail
            ++ [("note", JStr "Could not fetch balance - network might be unavailable")])
  end.

(** The body of a handler once a wallet is current. *)
Definition withWallet (op : Operation) (args : Json) (w : Wallet) : M ToolResponse :=
  match op with
  | get_current_wallet =>
      goatReady <- ensureGoatToolsForCurrentWallet ;;
      lastId <- gets goatToolsLastWalletId ;;
      ret (TextJson (currentWalletPayload w goatReady lastId))
  | get_wallet_info =>
      let chain := getChainConfig (networkOf args) in
      goatReady <- ensureGoatToolsForCurrentWallet ;;
      lastId <- gets goatToolsLastWalletId ;;
      let balance :=
        match ensureAddress (publicAddress w) with
        | Return a => getBalance a
        | Throw e => Throw e
        end in
      ret (TextJson (walletInfoPayload w chain balance goatReady lastId))
  | _ =>
      (if ensuresGoatTools op
       then ensureGoatToolsForCurrentWallet ;; ret tt
       else ret tt) ;;
      walletClient <- createDynamicWalletClient ;;
      result <- liftOutcome (chainCall op args w) ;;
      ret (TextJson result)
  end.

(** The handler registered for [op]. *)
Definition handle (op : Operation) (args : Json) : M ToolResponse :=
  tryCatch
    (restoreIfNoCurrent ;;
     current <- gets (fun s => getCurrentWallet (walletManager s)) ;;
     match current with
     | None => ret (TextJson (noWalletPayload op))
     | Some w => withWallet op args w
     end)
    (fun e => ret (errorResponse op e)).

End Handlers.

(* ================================================================== *)
(** * Concrete collaborators and configurations

    Stand-ins for the third-party code, used to run the model on
    concrete configurations. *)

Definition zeroKey : string :=
  "0x0000000000000000000000000000000000000000000000000000000000000000".

Definition sellerKey : string :=
  "0x1111111111111111111111111111111111111111111111111111111111111111".

Definition buyerKey : string :=
  "0x2222222222222222222222222222222222222222222222222222222222222222".

Definition crossmintKey : string :=
  "0xabcdefABCDEF0123456789abcdefABCDEF0123456789abcdefABCDEF01234567".

(** secp256k1 has no zero scalar: viem's [privateKeyToAccount] throws on
    the zero key.  For any other key the stand-in takes the last forty
    characters of the key as the address. *)
Definition deriveAddress (pk : string) : option string :=
  if String.eqb pk zeroKey then None
  else Some ("0x" +++ String.substring 26 40 pk).

Definition demoTools : ToolSet :=
  mkToolSet ["get_address"; "get_chain"; "get_balance"].

(** A GOAT SDK that always builds, an MCP server that registers, a chain
    that answers. *)
Definition online : Collaborators := {|
  privateKeyToAccount := deriveAddress;
  getOnChainTools := fun _ _ => Return demoTools;
  registerGoatTools := fun _ _ => true;
  getBalance := fun _ => Return "12.5";
  chainCall := fun _ _ _ => Return (JObj [("success", JBool true)])
|}.

(** The same, with a GOAT SDK that cannot be reached. *)
Definition offline : Collaborators := {|
  privateKeyToAccount := deriveAddress;
  getOnChainTools := fun _ _ => Throw "fetch failed";
  registerGoatTools := fun _ _ => true;
  getBalance := fun _ => Throw "fetch failed";
  chainCall := fun _ _ _ => Throw "fetch failed"
|}.

Definition noEnv : Env := fun _ => None.

(** Only the MetaMask seller is configured. *)
Definition sellerEnv : Env := fun k =>
  if String.eqb k "CAT_MM_SELLER_WALLET_PRIVATE_KEY" then Some sellerKey else None.

(** Only the MetaMask buyer is configured. *)
Definition buyerEnv : Env := fun k =>
  if String.eqb k "CAT_MM_BUYER_WALLET_PRIVATE_KEY" then Some buyerKey else None.

(** A MetaMask buyer and a Crossmint seller; the two seller slots of the
    other providers hold a placeholder and a truncated key. *)
Definition mixedEnv : Env := fun k =>
  if String.eqb k "CAT_MM_BUYER_WALLET_PRIVATE_KEY" then Some buyerKey
  else if String.eqb k "CM_SELLER_WALLET_PRIVATE_KEY" then Some crossmintKey
  else if String.eqb k "CAT_MM_SELLER_WALLET_PRIVATE_KEY" then Some "0x"
  else if String.eqb k "CVC_SELLER_WALLET_PRIVATE_KEY" then Some "0x1234"
  else None.

(** The MetaMask seller slot holds the zero key. *)
Definition zeroKeyEnv : Env := fun k =>
  if String.eqb k "CAT_MM_SELLER_WALLET_PRIVATE_KEY" then Some zeroKey else None.

(** The wallets these configurations load. *)
Definition metamaskSeller : Wallet :=
  mkWallet "catmm_seller" "MetaMask Seller" "seller" "metamask" sellerKey
           "0x1111111111111111111111111111111111111111" false
           "MetaMask Seller wallet".

Definition metamaskBuyer : Wallet :=
  mkWallet "catmm_buyer" "MetaMask Buyer" "buyer" "metamask" buyerKey
           "0x2222222222222222222222222222222222222222" false
           "MetaMask Buyer wallet".

Definition crossmintSeller : Wallet :=
  mkWallet "cm_seller" "Crossmint Seller" "seller" "crossmint" crossmintKey
           "0xcdefABCDEF0123456789abcdefABCDEF01234567" false
           "Crossmint Seller wallet".


(** The server as the module initialiser leaves it, before [runServer]. *)
Definition startServer {collab : Collaborators} (env : Env) : Server :=
  mkServer (getInstance env) None None [].

(* ================================================================== *)
(** * Notions used in the statements *)

Section Notions.
Context {collab : Collaborators}.

(** Whether viem derives an address from the secret of a slot. *)
Definition derivable (pk : option string) : bool :=
  match pk with
  | Some key => isSome (privateKeyToAccount key)
  | None => false
  end.

(** A slot is accepted when its secret passes validation and the
    address derivation does not throw. *)
Definition slotAccepted (env : Env) (c : Config.t) : bool :=
  passesValidation (env (Config.env c)) && derivable (env (Config.env c)).

Definition slotRejected (env : Env) (c : Config.t) : bool :=
  negb (passesValidation (env (Config.env c))).

Definition slotUnderivable (env : Env) (c : Config.t) : bool :=
  passesValidation (env (Config.env c)) && negb (derivable (env (Config.env c))).

(** The wallet [loadWallets] builds for a slot, if it accepts it. *)
Definition walletOfSlot (env : Env) (c : Config.t) : option Wallet :=
  match env (Config.env c) with
  | Some key =>
      if passesValidation (Some key) then
        match privateKeyToAccount key with
        | Some address =>
            Some (mkWallet (Config.id c) (Config.name c) (Config.role c)
                           (Config.provider c) key address false
                           (Config.name c +++ " wallet"))
        | None => None
        end
      else None
  | None => None
  end.

Definition acceptedWallets (env : Env) (cs : list Config.t) : list Wallet :=
  flat_map (fun c => match walletOfSlot env c with Some w => [w] | None => [] end) cs.

Definition isWarning (e : ConsoleEvent) : bool :=
  match level e with WARN => true | LOG => false end.

Definition isNoPrivateKeyFound (e : ConsoleEvent) : bool :=
  match e with NoPrivateKeyFound _ _ => true | _ => false end.

(** The line logged for a slot whose secret fails validation, and the
    warning for a slot whose key viem rejects. *)
Definition noKeyLine (c : Config.t) : ConsoleEvent :=
  NoPrivateKeyFound (Config.name c) (Config.env c).

Definition invalidKeyLine (c : Config.t) : ConsoleEvent :=
  InvalidKey (Config.name c).

(** The registry as a map from the wallet's own id. *)
Definition entry (w : Wallet) : string * Wallet := (id w, w).

(** The invariant of the manager. *)
Record wellFormed (m : WalletConfigManager) : Prop := mkWellFormed {
  wf_keys : NoDup (JsMap.keys (wallets m));
  wf_entries : forall k w, In (k, w) (wallets m) ->
    id w = k /\ k <> "" /\ privateKeyToAccount (privateKey w) = Some (publicAddress w);
  wf_current : forall w, currentWallet m = Some w ->
    JsMap.get (id w) (wallets m) = Some w /\ lastActiveWalletId m = Some (id w);
  wf_unset : currentWallet m = None -> lastActiveWalletId m = None
}.

(** The state a handler starts from when no wallet is current: the
    state after the attempt to restore one. *)
Definition afterRestore (s : Server) : Server :=
  match getCurrentWallet (walletManager s) with
  | Some _ => s
  | None =>
      mkServer (snd (restoreLastActiveWallet (walletManager s)))
               (goatTools s) (goatToolsLastWalletId s) (onChainCalls s)
  end.

(** The client [createWalletClientForWallet] builds for a wallet of the
    registry. *)
Definition clientOf (w : Wallet) : WalletClient :=
  mkClient (privateKey w) (publicAddress w).

(** The state a rebuild for [w] leaves, and its answer: the tool set is
    bound to [w] when the GOAT SDK builds and the registrations go
    through, and unbound otherwise. *)
Definition rebuildFor (w : Wallet) (s : Server) : Outcome bool * Server :=
  let calls := onChainCalls s ++ [clientOf w] in
  match getOnChainTools (onChainCalls s) (clientOf w) with
  | Return built =>
      if registerGoatTools calls built
      then (Return true, mkServer (walletManager s) (Some built) (Some (id w)) calls)
      else (Return false, mkServer (walletManager s) None None calls)
  | Throw _ => (Return false, mkServer (walletManager s) None None calls)
  end.

(** The test that lets [initializeGoatTools] return early. *)
Definition alreadyBound (forceReinit : bool) (w : Wallet) (s : Server) : bool :=
  negb forceReinit && isSome (goatTools s)
  && sameId (goatToolsLastWalletId s) (id w).

(** [provider = 'metamask'] in the parameter list of a switch. *)
Definition requestedProvider (providerArg : option ProviderChoice)
  : ProviderChoice :=
  match providerArg with Some p => p | None => metamask end.

(** The manager once [switchWallet] has committed [target]. *)
Definition committed (target : Wallet) (s : Server) : Server :=
  mkServer (mkManager (wallets (walletManager s)) (Some target) (Some (id target)))
           (goatTools s) (goatToolsLastWalletId s) (onChainCalls s).

End Notions.

(** A server with no wallet whose tool set is still bound. *)
Definition orphanedTools : Server :=
  mkServer (mkManager [] None None) (Some demoTools) (Some "catmm_seller")
           [clientOf metamaskSeller].


(* ================================================================== *)
(** * Further code of the server files

    The helpers and handlers of [xdcmcpserveradvRef3.ts] that the
    sections above do not use. *)

(** [ensurePrivateKey]: the key with the prefix [0x] put in front when
    it is missing. *)
Definition ensurePrivateKey (privateKey : string) : string :=
  if String.prefix "0x" privateKey then privateKey else "0x" +++ privateKey.

(** [w.id === current?.id] *)
Definition activeFlag (current : option Wallet) (w : Wallet) : bool :=
  sameId (option_map id current) (id w).

(** [current?.id || null] *)
Definition currentIdOrNull (current : option Wallet) : Json :=
  match current with
  | Some c => if String.eqb (id c) "" then JNull else JStr (id c)
  | None => JNull
  end.

(** [wallets.filter((w) => w.provider === p).length] *)
Definition providerCount (p : string) (ws : list Wallet) : nat :=
  length (filter (fun w => String.eqb (provider w) p) ws).

(** An entry of [wallets] in the answer of [list_wallets]. *)
Definition listedWallet (current : option Wallet) (w : Wallet) : Json :=
  JObj [("id", JStr (id w)); ("name", JStr (name w)); ("role", JStr (role w));
        ("provider", JStr (provider w)); ("address", JStr (publicAddress w));
        ("isActive", JBool (activeFlag current w))].

Definition listWalletsPayload (m : WalletConfigManager) : Json :=
  let ws := getAllWallets m in
  let current := getCurrentWallet m in
  JObj [("total", JNum (length ws));
        ("currentWallet", currentIdOrNull current);
        ("wallets", JArr (map (listedWallet current) ws));
        ("byProvider",
         JObj [("metamask", JNum (providerCount "metamask" ws));
               ("crossmint", JNum (providerCount "crossmint" ws));
               ("civic", JNum (providerCount "civic" ws))])].

(** The handler of [list_wallets]. *)
Definition list_wallets : M ToolResponse :=
  tryCatch
    (m <- gets walletManager ;;
     ret (TextJson (listWalletsPayload m)))
    (fun e => ret (TextPlain ("Error listing wallets: " +++ e))).

(** [runServer] up to [server.connect]: the unforced
    [initializeGoatTools()] on the state the module initialiser left. *)
Definition runServerInit {collab : Collaborators} (env : Env) : Outcome bool * Server :=
  initializeGoatTools false (startServer env).

(** The requests a client can make of a running server. *)
Inductive Request : Type :=
| SwitchToSeller (provider : option ProviderChoice)
| SwitchToBuyer (provider : option ProviderChoice)
| ListWallets
| Call (op : Operation) (args : Json).

Definition serve {collab : Collaborators} (r : Request) : M ToolResponse :=
  match r with
  | SwitchToSeller p => switch_to_seller p
  | SwitchToBuyer p => switch_to_buyer p
  | ListWallets => list_wallets
  | Call op args => handle op args
  end.

(** The states of a running server: the state [runServer] leaves, and
    the state after any request served from such a state. *)
Inductive running {collab : Collaborators} : Server -> Prop :=
| running_start : forall env, running (snd (runServerInit env))
| running_serve : forall r s, running s -> running (snd (serve r s)).

(** The tool set, when there is one, is bound to the current wallet;
    when there is none, no wallet id is recorded for it. *)
Definition bindingConsistent (s : Server) : Prop :=
  match goatTools s with
  | Some _ =>
      exists w, getCurrentWallet (walletManager s) = Some w
                /\ goatToolsLastWalletId s = Some (id w)
  | None => goatToolsLastWalletId s = None
  end.

(** Every call made to the GOAT SDK was made for a wallet of the
    registry. *)
Definition callsForRegistry (s : Server) : Prop :=
  forall c, In c (onChainCalls s) ->
    exists w, In w (getAllWallets (walletManager s)) /\ c = clientOf w.

(** The pair a switch looks a wallet up by. *)
Definition roleAndProvider (w : Wallet) : string * string := (role w, provider w).

(** The three facts that hold of a running server. *)
Definition healthy {collab : Collaborators} (s : Server) : Prop :=
  reachable (walletManager s) /\ bindingConsistent s /\ callsForRegistry s.

(* ================================================================== *)
(** * The transaction tools

    The bodies of [mint_nft_advanced], [mint_erc6960_batch],
    [transfer_erc6960], [mint_nft_with_active_wallet] and [send_eth],
    which the section on handlers leaves to [chainCall]. *)

From Stdlib Require Import ZArith.

Inductive Abi : Type := ERC721_ABI | ERC721A_ABI | ERC6960_ABI.

(** An argument of a contract call. *)
Inductive AbiArg : Type :=
| ArgAddress (address : string)
| ArgUint (n : Z)
| ArgUints (ns : list Z)
| ArgString (s : string)
| ArgBytes (hex : string).

(** What a handler asks the wallet client to send: the parameters of
    [writeContract] or of [sendTransaction]. *)
Inductive ChainRequest : Type :=
| WriteContract (address : string) (abi : Abi) (functionName : string)
                (args : list AbiArg) (gas : option Z)
| SendTransaction (to : string) (value : Z) (gas : option Z).

(** A request handed to the wallet client, with the account that signs
    it and the chain it goes to. *)
Record Submission : Type := mkSubmission {
  signer : WalletClient;
  onNetwork : Network;
  request : ChainRequest
}.

(** The fields of a receipt the handlers print; [blockNumber] and
    [gasUsed] as [toString()] gives them. *)
Record Receipt : Type := mkReceipt {
  blockNumber : string;
  gasUsed : string;
  status : string;
  receiptFrom : string;
  receiptTo : option string
}.

(** The chain side of the server.
    - [bigInt] is [BigInt(s)], [trim] is [s.trim()], [parseEther] is
      viem's.
    - [submit] is [walletClient.writeContract] or
      [walletClient.sendTransaction]: a transaction hash, or an
      exception.
    - [waitForTransactionReceipt] and [estimateGas] are the public
      client's. *)
Class ChainClient : Type := {
  bigInt : string -> Outcome Z;
  trim : string -> string;
  parseEther : string -> Outcome Z;
  submit : Submission -> Outcome string;
  waitForTransactionReceipt : Network -> string -> Outcome Receipt;
  estimateGas : Network -> string -> Outcome string
}.

(** The module state together with the requests handed to the wallet
    client so far, oldest first.  As with [onChainCalls], the program
    does not hold the second component. *)
Record World : Type := mkWorld {
  server : Server;
  submitted : list Submission
}.

Definition W (A : Type) : Type := World -> Outcome A * World.

Definition retW {A : Type} (a : A) : W A := fun w => (Return a, w).

Definition throwW {A : Type} (message : string) : W A := fun w => (Throw message, w).

Definition bindW {A B : Type} (c : W A) (k : A -> W B) : W B :=
  fun w =>
    match c w with
    | (Return a, w') => k a w'
    | (Throw e, w') => (Throw e, w')
    end.

Definition tryCatchW {A : Type} (c : W A) (handler : string -> W A) : W A :=
  fun w =>
    match c w with
    | (Return a, w') => (Return a, w')
    | (Throw e, w') => handler e w'
    end.

(** A computation on the module state, run in the world. *)
Definition liftM {A : Type} (c : M A) : W A :=
  fun w => let '(o, s) := c (server w) in (o, mkWorld s (submitted w)).

Definition liftOutcomeW {A : Type} (o : Outcome A) : W A := fun w => (o, w).

(** [String.prototype.split] with a one-character separator. *)
Fixpoint split (sep : ascii) (s : string) : list string :=
  match s with
  | EmptyString => [EmptyString]
  | String c rest =>
      if Ascii.eqb c sep then EmptyString :: split sep rest
      else match split sep rest with
           | piece :: pieces => String c piece :: pieces
           | [] => [String c EmptyString]
           end
  end.

(** [Array.prototype.join] with a one-character separator. *)
Fixpoint join (sep : ascii) (pieces : list string) : string :=
  match pieces with
  | [] => EmptyString
  | [piece] => piece
  | piece :: rest => piece +++ String sep (join sep rest)
  end.

Fixpoint occurrences (c : ascii) (s : string) : nat :=
  match s with
  | EmptyString => 0
  | String c' rest => (if Ascii.eqb c' c then 1 else 0) + occurrences c rest
  end.

(** [list.map(f)] where [f] may throw: the first exception ends the
    map. *)
Fixpoint mapOutcome {A B : Type} (f : A -> Outcome B) (l : list A) : Outcome (list B) :=
  match l with
  | [] => Return []
  | a :: rest =>
      match f a with
      | Throw e => Throw e
      | Return b =>
          match mapOutcome f rest with
          | Throw e => Throw e
          | Return bs => Return (b :: bs)
          end
      end
  end.

(** [x || fallback] for an optional string. *)
Definition orElse (x : option string) (fallback : string) : string :=
  match x with
  | Some s => if String.eqb s "" then fallback else s
  | None => fallback
  end.

(** The text of an optional string inside a template literal or as an
    argument of [BigInt], once it is known to be truthy. *)
Definition textOf (x : option string) : string :=
  match x with Some s => s | None => "" end.

(** [chain.blockExplorers.default.url] *)
Definition explorerUrl (network : Network) : string :=
  match network with
  | testnet => "https://testnet.xdcscan.com/"
  | mainnet => "https://xdc.network"
  end.

(** [z.enum(["erc721", "erc721a", "erc6960"])] *)
Inductive Standard : Type := erc721 | erc721a | erc6960.

Definition standardName (st : Standard) : string :=
  match st with
  | erc721 => "erc721"
  | erc721a => "erc721a"
  | erc6960 => "erc6960"
  end.

(** The parameters of [mint_nft_advanced]. *)
Record MintArgs : Type := mkMintArgs {
  mint_contractAddress : string;
  mint_to : string;
  mint_tokenId : option string;
  mint_tokenURI : option string;
  mint_quantity : option string;
  mint_mainId : option string;
  mint_subId : option string;
  mint_amount : option string;
  mint_standard : option Standard;
  mint_network : option Network;
  mint_gasLimit : option string
}.

(** The parameters of [mint_erc6960_batch]. *)
Record BatchArgs : Type := mkBatchArgs {
  batch_contractAddress : string;
  batch_to : string;
  batch_mainIds : string;
  batch_subIds : string;
  batch_amounts : string;
  batch_network : option Network;
  batch_gasLimit : option string
}.

(** The parameters of [transfer_erc6960]. *)
Record TransferArgs : Type := mkTransferArgs {
  transfer_contractAddress : string;
  transfer_to : string;
  transfer_mainId : string;
  transfer_subId : string;
  transfer_amount : string;
  transfer_network : option Network;
  transfer_gasLimit : option string
}.

(** The parameters of [mint_nft_with_active_wallet]. *)
Record SimpleMintArgs : Type := mkSimpleMintArgs {
  simple_contractAddress : string;
  simple_to : string;
  simple_tokenURI : option string;
  simple_tokenId : option string;
  simple_network : option Network
}.

(** The parameters of [send_eth]. *)
Record SendArgs : Type := mkSendArgs {
  send_to : string;
  send_amount : string;
  send_network : option Network;
  send_gasLimit : option string
}.

(** [network = "testnet"] *)
Definition networkOr (n : option Network) : Network :=
  match n with Some x => x | None => testnet end.

(** [standard = "erc721"] *)
Definition standardOr (st : option Standard) : Standard :=
  match st with Some x => x | None => erc721 end.

(** Sequencing of calls that may throw, outside any state. *)
Definition andThen {A B : Type} (o : Outcome A) (k : A -> Outcome B) : Outcome B :=
  match o with
  | Return a => k a
  | Throw e => Throw e
  end.

Section TransactionTools.
Context {collab : Collaborators} {chain : ChainClient}.

(** [gasLimit ? BigInt(gasLimit) : undefined] *)
Definition gasOf (gasLimit : option string) : Outcome (option Z) :=
  if truthy gasLimit
  then andThen (bigInt (textOf gasLimit)) (fun g => Return (Some g))
  else Return None.

(** The [writeParams] of [mint_nft_advanced] and the text of
    [operation], or the exception thrown on the way to them.  The fields
    of the object literal are evaluated in the order they are written:
    [address], [args], [gas]. *)
Definition mintPlan (a : MintArgs) : Outcome (ChainRequest * string) :=
  match standardOr (mint_standard a) with
  | erc721a =>
      if truthy (mint_quantity a) then
        andThen (ensureAddress (mint_contractAddress a)) (fun address =>
        andThen (ensureAddress (mint_to a)) (fun to =>
        andThen (bigInt (textOf (mint_quantity a))) (fun quantity =>
        andThen (gasOf (mint_gasLimit a)) (fun gas =>
        Return (WriteContract address ERC721A_ABI "mint"
                              [ArgAddress to; ArgUint quantity] gas,
                "Batch mint " +++ textOf (mint_quantity a) +++ " ERC-721A NFTs")))))
      else if truthy (mint_tokenURI a) then
        andThen (ensureAddress (mint_contractAddress a)) (fun address =>
        andThen (ensureAddress (mint_to a)) (fun to =>
        andThen (gasOf (mint_gasLimit a)) (fun gas =>
        Return (WriteContract address ERC721A_ABI "safeMint"
                              [ArgAddress to; ArgString (textOf (mint_tokenURI a))] gas,
                "Mint ERC-721A NFT with URI"))))
      else
        Throw "ERC-721A requires either quantity for batch mint or tokenURI for single mint"
  | erc6960 =>
      if negb (truthy (mint_mainId a)) || negb (truthy (mint_subId a))
         || negb (truthy (mint_amount a))
      then Throw "ERC-6960 requires mainId, subId, and amount"
      else
        andThen (ensureAddress (mint_contractAddress a)) (fun address =>
        andThen (ensureAddress (mint_to a)) (fun to =>
        andThen (bigInt (textOf (mint_mainId a))) (fun mainId =>
        andThen (bigInt (textOf (mint_subId a))) (fun subId =>
        andThen (bigInt (textOf (mint_amount a))) (fun amount =>
        andThen (gasOf (mint_gasLimit a)) (fun gas =>
        Return (WriteContract address ERC6960_ABI "mint"
                              [ArgAddress to; ArgUint mainId; ArgUint subId;
                               ArgUint amount; ArgBytes "0x"] gas,
                "Mint ERC-6960 token (Main: " +++ textOf (mint_mainId a)
                +++ ", Sub: " +++ textOf (mint_subId a)
                +++ ", Amount: " +++ textOf (mint_amount a) +++ ")")))))))
  | erc721 =>
      if truthy (mint_tokenURI a) then
        andThen (ensureAddress (mint_contractAddress a)) (fun address =>
        andThen (ensureAddress (mint_to a)) (fun to =>
        andThen (gasOf (mint_gasLimit a)) (fun gas =>
        Return (WriteContract address ERC721_ABI "safeMint"
                              [ArgAddress to; ArgString (textOf (mint_tokenURI a))] gas,
                "Mint ERC-721 NFT with URI"))))
      else if truthy (mint_tokenId a) then
        andThen (ensureAddress (mint_contractAddress a)) (fun address =>
        andThen (ensureAddress (mint_to a)) (fun to =>
        andThen (bigInt (textOf (mint_tokenId a))) (fun tokenId =>
        andThen (gasOf (mint_gasLimit a)) (fun gas =>
        Return (WriteContract address ERC721_ABI "mint"
                              [ArgAddress to; ArgUint tokenId] gas,
                "Mint ERC-721 NFT with token ID " +++ textOf (mint_tokenId a))))))
      else Throw "ERC-721 requires either tokenId or tokenURI"
  end.

(** [receipt.status === "success" ? "Success" : "Failed"] *)
Definition statusText (r : Receipt) : string :=
  if String.eqb (status r) "success" then "Success" else "Failed".

Definition receiptToJson (r : Receipt) : Json :=
  match receiptTo r with Some a => JStr a | None => JNull end.

Definition mintPayload (a : MintArgs) (w : Wallet) (operation hash : string)
  (r : Receipt) : Json :=
  let network := networkOr (mint_network a) in
  JObj [("success", JBool true);
        ("operation", JStr operation);
        ("standard", JStr (standardName (standardOr (mint_standard a))));
        ("transactionHash", JStr hash);
        ("blockNumber", JStr (blockNumber r));
        ("gasUsed", JStr (gasUsed r));
        ("status", JStr (statusText r));
        ("from", JStr (receiptFrom r));
        ("contractAddress", JStr (mint_contractAddress a));
        ("recipient", JStr (mint_to a));
        ("details",
         JObj [("tokenId", JStr (orElse (mint_tokenId a) "Generated by contract"));
               ("tokenURI", JStr (orElse (mint_tokenURI a) "N/A"));
               ("quantity", JStr (orElse (mint_quantity a) "1"));
               ("mainId", JStr (orElse (mint_mainId a) "N/A"));
               ("subId", JStr (orElse (mint_subId a) "N/A"));
               ("amount", JStr (orElse (mint_amount a) "N/A"))]);
        ("network", JStr (chainName (getChainConfig network)));
        ("wallet", JStr (name w));
        ("explorerUrl", JStr (explorerUrl network +++ "/tx/" +++ hash))].

(** [s.split(',').map(id => BigInt(id.trim()))] *)
Definition parseIdList (s : string) : Outcome (list Z) :=
  mapOutcome (fun piece => bigInt (trim piece)) (split "," s).

(** The [writeParams] of [mint_erc6960_batch] with the number of tokens,
    or the exception thrown on the way to them. *)
Definition batchPlan (a : BatchArgs) : Outcome (ChainRequest * nat) :=
  andThen (parseIdList (batch_mainIds a)) (fun mainIdArray =>
  andThen (parseIdList (batch_subIds a)) (fun subIdArray =>
  andThen (parseIdList (batch_amounts a)) (fun amountArray =>
  if negb (length mainIdArray =? length subIdArray)%nat
     || negb (length subIdArray =? length amountArray)%nat
  then Throw "MainIds, subIds, and amounts arrays must have the same length"
  else
    andThen (ensureAddress (batch_contractAddress a)) (fun address =>
    andThen (ensureAddress (batch_to a)) (fun to =>
    andThen (gasOf (batch_gasLimit a)) (fun gas =>
    Return (WriteContract address ERC6960_ABI "mintBatch"
                          [ArgAddress to; ArgUints mainIdArray; ArgUints subIdArray;
                           ArgUints amountArray; ArgBytes "0x"] gas,
            length mainIdArray))))))).

Definition batchPayload (a : BatchArgs) (w : Wallet) (tokenCount : nat)
  (hash : string) (r : Receipt) : Json :=
  let network := networkOr (batch_network a) in
  JObj [("success", JBool true);
        ("operation", JStr "Batch mint ERC-6960 tokens");
        ("transactionHash", JStr hash);
        ("blockNumber", JStr (blockNumber r));
        ("gasUsed", JStr (gasUsed r));
        ("status", JStr (statusText r));
        ("from", JStr (receiptFrom r));
        ("contractAddress", JStr (batch_contractAddress a));
        ("recipient", JStr (batch_to a));
        ("details",
         JObj [("mainIds", JStr (batch_mainIds a));
               ("subIds", JStr (batch_subIds a));
               ("amounts", JStr (batch_amounts a));
               ("tokenCount", JNum tokenCount)]);
        ("network", JStr (chainName (getChainConfig network)));
        ("wallet", JStr (name w));
        ("explorerUrl", JStr (explorerUrl network +++ "/tx/" +++ hash))].

(** The [writeParams] of [transfer_erc6960]: the sender is the public
    address of the current wallet. *)
Definition transferPlan (a : TransferArgs) (w : Wallet) : Outcome (ChainRequest * unit) :=
  andThen (ensureAddress (transfer_contractAddress a)) (fun address =>
  andThen (ensureAddress (publicAddress w)) (fun from =>
  andThen (ensureAddress (transfer_to a)) (fun to =>
  andThen (bigInt (transfer_mainId a)) (fun mainId =>
  andThen (bigInt (transfer_subId a)) (fun subId =>
  andThen (bigInt (transfer_amount a)) (fun amount =>
  andThen (gasOf (transfer_gasLimit a)) (fun gas =>
  Return (WriteContract address ERC6960_ABI "safeTransferFrom"
                        [ArgAddress from; ArgAddress to; ArgUint mainId;
                         ArgUint subId; ArgUint amount; ArgBytes "0x"] gas,
          tt)))))))).

Definition transferPayload (a : TransferArgs) (w : Wallet) (_ : unit)
  (hash : string) (r : Receipt) : Json :=
  let network := networkOr (transfer_network a) in
  JObj [("success", JBool true);
        ("operation", JStr "Transfer ERC-6960 token");
        ("transactionHash", JStr hash);
        ("blockNumber", JStr (blockNumber r));
        ("gasUsed", JStr (gasUsed r));
        ("status", JStr (statusText r));
        ("from", JStr (receiptFrom r));
        ("to", receiptToJson r);
        ("contractAddress", JStr (transfer_contractAddress a));
        ("details",
         JObj [("mainId", JStr (transfer_mainId a));
               ("subId", JStr (transfer_subId a));
               ("amount", JStr (transfer_amount a))]);
        ("network", JStr (chainName (getChainConfig network)));
        ("wallet", JStr (name w));
        ("explorerUrl", JStr (explorerUrl network +++ "/tx/" +++ hash))].

(** The [writeParams] of [mint_nft_with_active_wallet]; it passes no
    [gas]. *)
Definition simpleMintPlan (a : SimpleMintArgs) : Outcome (ChainRequest * unit) :=
  if truthy (simple_tokenURI a) then
    andThen (ensureAddress (simple_contractAddress a)) (fun address =>
    andThen (ensureAddress (simple_to a)) (fun to =>
    Return (WriteContract address ERC721_ABI "safeMint"
                          [ArgAddress to; ArgString (textOf (simple_tokenURI a))] None,
            tt)))
  else if truthy (simple_tokenId a) then
    andThen (ensureAddress (simple_contractAddress a)) (fun address =>
    andThen (ensureAddress (simple_to a)) (fun to =>
    andThen (bigInt (textOf (simple_tokenId a))) (fun tokenId =>
    Return (WriteContract address ERC721_ABI "mint"
                          [ArgAddress to; ArgUint tokenId] None,
            tt))))
  else Throw "Either tokenURI or tokenId required".

Definition simpleMintPayload (a : SimpleMintArgs) (w : Wallet) (_ : unit)
  (hash : string) (r : Receipt) : Json :=
  JObj [("success", JBool true);
        ("hash", JStr hash);
        ("wallet", JStr (name w));
        ("tokenId", JStr (orElse (simple_tokenId a) "Generated"));
        ("tokenURI", JStr (orElse (simple_tokenURI a) "N/A"));
        ("explorer",
         JStr (explorerUrl (networkOr (simple_network a)) +++ "/tx/" +++ hash))].

(** The parameters [send_eth] gives to [sendTransaction]. *)
Definition sendPlan (a : SendArgs) : Outcome (ChainRequest * unit) :=
  andThen (ensureAddress (send_to a)) (fun to =>
  andThen (parseEther (send_amount a)) (fun value =>
  andThen (gasOf (send_gasLimit a)) (fun gas =>
  Return (SendTransaction to value gas, tt)))).

Definition sendPayload (a : SendArgs) (w : Wallet) (_ : unit)
  (hash : string) (r : Receipt) : Json :=
  let network := networkOr (send_network a) in
  JObj [("success", JBool true);
        ("operation", JStr "Send ETH");
        ("transactionHash", JStr hash);
        ("blockNumber", JStr (blockNumber r));
        ("gasUsed", JStr (gasUsed r));
        ("status", JStr (statusText r));
        ("from", JStr (receiptFrom r));
        ("to", receiptToJson r);
        ("amount",
         JStr (send_amount a +++ " " +++ currencySymbol (getChainConfig network)));
        ("network", JStr (chainName (getChainConfig network)));
        ("wallet", JStr (name w));
        ("explorerUrl", JStr (explorerUrl network +++ "/tx/" +++ hash))].

(** [await walletClient.writeContract(writeParams)] or
    [await walletClient.sendTransaction(...)]: the request is entered in
    the history whether or not the call throws. *)
Definition awaitSubmit (sub : Submission) : W string :=
  fun w => (submit sub, mkWorld (server w) (submitted w ++ [sub])).

(** The frame the five transaction tools share: restore, the wallet
    gate, for [mint_nft_advanced] the tool-set check, the wallet client,
    the request, the receipt and the answer, all inside [try]. *)
Definition transactionTool {A : Type} (op : Operation) (network : Network)
  (plan : Wallet -> Outcome (ChainRequest * A))
  (payload : Wallet -> A -> string -> Receipt -> Json) : W ToolResponse :=
  tryCatchW
    (bindW (liftM restoreIfNoCurrent) (fun _ =>
     bindW (liftM (gets (fun s => getCurrentWallet (walletManager s)))) (fun current =>
     match current with
     | None => retW (TextJson (noWalletPayload op))
     | Some w =>
         bindW (if ensuresGoatTools op
                then bindW (liftM ensureGoatToolsForCurrentWallet) (fun _ => retW tt)
                else retW tt) (fun _ =>
         bindW (liftM createDynamicWalletClient) (fun walletClient =>
         bindW (liftOutcomeW (plan w)) (fun planned =>
         bindW (awaitSubmit (mkSubmission walletClient network (fst planned))) (fun hash =>
         bindW (liftOutcomeW (waitForTransactionReceipt network hash)) (fun receipt =>
         retW (TextJson (payload w (snd planned) hash receipt)))))))
     end)))
    (fun e => retW (errorResponse op e)).

Definition mint_nft_advanced_tool (a : MintArgs) : W ToolResponse :=
  transactionTool mint_nft_advanced (networkOr (mint_network a))
                  (fun _ => mintPlan a) (mintPayload a).

Definition mint_erc6960_batch_tool (a : BatchArgs) : W ToolResponse :=
  transactionTool mint_erc6960_batch (networkOr (batch_network a))
                  (fun _ => batchPlan a) (batchPayload a).

Definition transfer_erc6960_tool (a : TransferArgs) : W ToolResponse :=
  transactionTool transfer_erc6960 (networkOr (transfer_network a))
                  (transferPlan a) (transferPayload a).

Definition mint_nft_with_active_wallet_tool (a : SimpleMintArgs) : W ToolResponse :=
  transactionTool mint_nft_with_active_wallet (networkOr (simple_network a))
                  (fun _ => simpleMintPlan a) (simpleMintPayload a).

Definition send_eth_tool (a : SendArgs) : W ToolResponse :=
  transactionTool send_eth (networkOr (send_network a))
                  (fun _ => sendPlan a) (sendPayload a).

End TransactionTools.

Section TransactionNotions.
Context {collab : Collaborators} {chain : ChainClient}.

(** What the shared frame comes to for a wallet [cw] that is current:
    the answer, and the world that is left. *)
Definition transactionOutcome {A : Type} (op : Operation) (network : Network)
  (plan : Wallet -> Outcome (ChainRequest * A))
  (payload : Wallet -> A -> string -> Receipt -> Json)
  (cw : Wallet) (w : World) : ToolResponse * World :=
  let s1 := if ensuresGoatTools op
            then snd (ensureGoatToolsForCurrentWallet (server w))
            else server w in
  match plan cw with
  | Throw e => (errorResponse op e, mkWorld s1 (submitted w))
  | Return (req, a) =>
      let sub := mkSubmission (clientOf cw) network req in
      let w2 := mkWorld s1 (submitted w ++ [sub]) in
      match submit sub with
      | Throw e => (errorResponse op e, w2)
      | Return hash =>
          match waitForTransactionReceipt network hash with
          | Throw e => (errorResponse op e, w2)
          | Return r => (TextJson (payload cw a hash r), w2)
          end
      end
  end.

End TransactionNotions.

(* ================================================================== *)
(** * [mint_nft_with_confirmation] of [xdcmcpserveradvRef2.ts]

    In that file [ensureAddress] is a cast and throws nothing. *)

(** The parameters of [mint_nft_with_confirmation]. *)
Record ConfirmArgs : Type := mkConfirmArgs {
  confirm_contractAddress : string;
  confirm_to : string;
  confirm_tokenId : option string;
  confirm_tokenURI : option string;
  confirm_network : option Network;
  confirm_gasLimit : option string;
  confirm_confirmed : option bool
}.

(** [confirmed = false] *)
Definition confirmedOr (c : option bool) : bool :=
  match c with Some b => b | None => false end.

Section Confirmation.
Context {collab : Collaborators} {chain : ChainClient}.

(** The preview branch: the gas estimate, or [gasLimit || "50000"] when
    the estimate throws. *)
Definition confirmPreview (a : ConfirmArgs) (w : Wallet) : Json :=
  let network := networkOr (confirm_network a) in
  let estimatedGas :=
    match estimateGas network (confirm_contractAddress a) with
    | Return g => g
    | Throw _ => orElse (confirm_gasLimit a) "50000"
    end in
  JObj [("preview", JBool true);
        ("action", JStr "Mint NFT");
        ("details",
         JObj [("wallet", JStr (name w +++ " (" +++ publicAddress w +++ ")"));
               ("contractAddress", JStr (confirm_contractAddress a));
               ("recipient", JStr (confirm_to a));
               ("tokenId", JStr (orElse (confirm_tokenId a) "Generated by contract"));
               ("tokenURI", JStr (orElse (confirm_tokenURI a) "N/A"));
               ("network", JStr (chainName (getChainConfig network)));
               ("estimatedGas", JStr estimatedGas);
               ("gasLimit", JStr (orElse (confirm_gasLimit a) "Default"))]);
        ("confirmation",
         JStr "To proceed, call this function again with confirmed=true");
        ("note",
         JStr "This will mint the NFT immediately without further confirmation")].

Definition confirmPayload (a : ConfirmArgs) (w : Wallet) (hash : string)
  (r : Receipt) : Json :=
  let network := networkOr (confirm_network a) in
  JObj [("success", JBool true);
        ("confirmed", JBool true);
        ("transactionHash", JStr hash);
        ("blockNumber", JStr (blockNumber r));
        ("gasUsed", JStr (gasUsed r));
        ("status", JStr (statusText r));
        ("from", JStr (receiptFrom r));
        ("contractAddress", JStr (confirm_contractAddress a));
        ("recipient", JStr (confirm_to a));
        ("tokenId", JStr (orElse (confirm_tokenId a) "Generated by contract"));
        ("tokenURI", JStr (orElse (confirm_tokenURI a) "N/A"));
        ("network", JStr (chainName (getChainConfig network)));
        ("wallet", JStr (name w));
        ("explorerUrl", JStr (explorerUrl network +++ "/tx/" +++ hash))].

(** The request of the execute branch; [None] when neither a token URI
    nor a token id was given, in which case the handler returns a text
    and sends nothing. *)
Definition confirmPlan (a : ConfirmArgs) : Outcome (option ChainRequest) :=
  if truthy (confirm_tokenURI a) then
    andThen (gasOf (confirm_gasLimit a)) (fun gas =>
    Return (Some (WriteContract (confirm_contractAddress a) ERC721_ABI "safeMint"
                                [ArgAddress (confirm_to a);
                                 ArgString (textOf (confirm_tokenURI a))] gas)))
  else if truthy (confirm_tokenId a) then
    andThen (bigInt (textOf (confirm_tokenId a))) (fun tokenId =>
    andThen (gasOf (confirm_gasLimit a)) (fun gas =>
    Return (Some (WriteContract (confirm_contractAddress a) ERC721_ABI "mint"
                                [ArgAddress (confirm_to a); ArgUint tokenId] gas))))
  else Return None.

Definition mint_nft_with_confirmation (a : ConfirmArgs) : W ToolResponse :=
  let network := networkOr (confirm_network a) in
  tryCatchW
    (bindW (liftM restoreIfNoCurrent) (fun _ =>
     bindW (liftM (gets (fun s => getCurrentWallet (walletManager s)))) (fun current =>
     match current with
     | None => retW (TextJson (noWalletPayload mint_nft_advanced))
     | Some w =>
         bindW (liftM ensureGoatToolsForCurrentWallet) (fun goatReady =>
         if negb (confirmedOr (confirm_confirmed a)) then
           retW (TextJson (confirmPreview a w))
         else
           bindW (liftM createDynamicWalletClient) (fun walletClient =>
           bindW (liftOutcomeW (confirmPlan a)) (fun planned =>
           match planned with
           | None =>
               retW (TextPlain
                       "Error: Either tokenId or tokenURI must be provided for minting")
           | Some req =>
               bindW (awaitSubmit (mkSubmission walletClient network req)) (fun hash =>
               bindW (liftOutcomeW (waitForTransactionReceipt network hash))
                     (fun receipt =>
               retW (TextJson (confirmPayload a w hash receipt))))
           end)))
     end)))
    (fun e => retW (TextPlain ("Error minting NFT: " +++ e))).

End Confirmation.

(* ================================================================== *)
(** * A concrete chain *)

(** Decimal digits to a number; the stand-in for [BigInt] knows no other
    form.  [BigInt("")] is [0n]. *)
Fixpoint decimalValue (acc : Z) (s : string) : option Z :=
  match s with
  | EmptyString => Some acc
  | String c rest =>
      let n := nat_of_ascii c in
      if ((48 <=? n) && (n <=? 57))%nat
      then decimalValue (10 * acc + Z.of_nat (n - 48)) rest
      else None
  end.

Definition decimalBigInt (s : string) : Outcome Z :=
  match decimalValue 0 s with
  | Some z => Return z
  | None => Throw ("Cannot convert " +++ s +++ " to a BigInt")
  end.

(** A [trim] that knows the space only. *)
Fixpoint trimStart (s : string) : string :=
  match s with
  | String " " rest => trimStart rest
  | _ => s
  end.

Fixpoint trimEnd (s : string) : string :=
  match s with
  | EmptyString => EmptyString
  | String c rest =>
      match trimEnd rest with
      | EmptyString => if Ascii.eqb c " " then EmptyString else String c EmptyString
      | kept => String c kept
      end
  end.

Definition revertedReceipt : Receipt :=
  mkReceipt "1024" "21000" "reverted"
            "0x1111111111111111111111111111111111111111"
            (Some "0x2222222222222222222222222222222222222222").

(** A chain that takes every request and reverts it, and cannot estimate
    gas. *)
Definition revertingChain : ChainClient := {|
  bigInt := decimalBigInt;
  trim := fun s => trimEnd (trimStart s);
  parseEther := fun s =>
    match decimalValue 0 s with
    | Some z => Return (z * 10 ^ 18)%Z
    | None => Throw "invalid decimal number"
    end;
  submit := fun _ => Return "0xfeed";
  waitForTransactionReceipt := fun _ _ => Return revertedReceipt;
  estimateGas := fun _ _ => Throw "execution reverted"
|}.

(** The world of [sellerEnv] before any request. *)
Definition sellerWorld : World :=
  mkWorld (startServer (collab := online) sellerEnv) [].

(** A key of 64 hexadecimal digits without the prefix. *)
Definition bareKey : string :=
  "1111111111111111111111111111111111111111111111111111111111111111".

(* ================================================================== *)
(** * Facts about [JsMap] *)

Section JsMapFacts.
Variable V : Type.
Implicit Types (m : JsMap.t V) (k : string) (v : V).

Lemma JsMap_set_fresh : forall m k v,
  ~ In k (JsMap.keys m) -> JsMap.set k v m = m ++ [(k, v)].
Proof.
  induction m as [|[k' v'] m IH]; intros k v Hk; simpl in *.
  - reflexivity.
  - destruct (String.eqb k' k) eqn:E.
    + apply String.eqb_eq in E. tauto.
    + rewrite IH by tauto. reflexivity.
Qed.

Lemma JsMap_get_Some_In : forall m k v,
  JsMap.get k m = Some v -> In (k, v) m.
Proof.
  induction m as [|[k' v'] m IH]; intros k v H; simpl in *.
  - discriminate.
  - destruct (String.eqb k' k) eqn:E.
    + apply String.eqb_eq in E. inversion H. subst. now left.
    + right. now apply IH.
Qed.

Lemma JsMap_get_In : forall m k v,
  NoDup (JsMap.keys m) -> In (k, v) m -> JsMap.get k m = Some v.
Proof.
  induction m as [|[k' v'] m IH]; intros k v Hnd Hin; simpl in *.
  - contradiction.
  - inversion Hnd as [|? ? Hnotin Hnd']; subst.
    destruct Hin as [Heq|Hin].
    + inversion Heq; subst. now rewrite String.eqb_refl.
    + destruct (String.eqb k' k) eqn:E.
      * apply String.eqb_eq in E. subst.
        exfalso. apply Hnotin. unfold JsMap.keys.
        change k with (fst (k, v)). now apply in_map.
      * now apply IH.
Qed.

Lemma JsMap_values_In : forall m v,
  In v (JsMap.values m) -> exists k, In (k, v) m.
Proof.
  intros m v H. unfold JsMap.values in H. apply in_map_iff in H.
  destruct H as [[k v'] [Hv Hin]]. simpl in Hv. subst. now exists k.
Qed.

Lemma JsMap_In_values : forall m k v, In (k, v) m -> In v (JsMap.values m).
Proof.
  intros m k v H. unfold JsMap.values. change v with (snd (k, v)).
  now apply in_map.
Qed.
End JsMapFacts.

(* ================================================================== *)
(** * Facts about [loadWallets] *)

Section LoadFacts.
Context {collab : Collaborators}.
Variable env : Env.

Lemma walletOfSlot_accepted : forall c,
  isSome (walletOfSlot env c) = slotAccepted env c.
Proof.
  intros c. unfold walletOfSlot, slotAccepted, derivable.
  destruct (env (Config.env c)) as [key|]; [|reflexivity].
  destruct (passesValidation (Some key)); [|reflexivity].
  now destruct (privateKeyToAccount key).
Qed.

Lemma walletOfSlot_fields : forall c w, walletOfSlot env c = Some w ->
  id w = Config.id c /\ role w = Config.role c /\ provider w = Config.provider c
  /\ privateKeyToAccount (privateKey w) = Some (publicAddress w).
Proof.
  intros c w. unfold walletOfSlot.
  destruct (env (Config.env c)) as [key|]; [|discriminate].
  destruct (passesValidation (Some key)); [|discriminate].
  destruct (privateKeyToAccount key) eqn:E; [|discriminate].
  intros H. inversion H; subst; simpl. auto.
Qed.

Lemma acceptedWallets_ids : forall cs,
  map id (acceptedWallets env cs) = map Config.id (filter (slotAccepted env) cs).
Proof.
  induction cs as [|c cs IH]; simpl; [reflexivity|].
  rewrite <- walletOfSlot_accepted.
  destruct (walletOfSlot env c) as [w|] eqn:E; simpl.
  - destruct (walletOfSlot_fields _ E) as [-> _]. now rewrite IH.
  - exact IH.
Qed.

Lemma acceptedWallets_In : forall cs w, In w (acceptedWallets env cs) ->
  exists c, In c cs /\ walletOfSlot env c = Some w.
Proof.
  intros cs w H. unfold acceptedWallets in H. apply in_flat_map in H.
  destruct H as [c [Hc Hw]]. exists c. split; [assumption|].
  destruct (walletOfSlot env c); simpl in Hw; [|contradiction].
  destruct Hw as [->|[]]. reflexivity.
Qed.

(** What the loop leaves in its locals. *)
Lemma loadSlots_locals : forall cs st,
  loadedWallets (loadSlots env cs st) = loadedWallets st ++ acceptedWallets env cs
  /\ walletsLoaded (loadSlots env cs st)
     = walletsLoaded st + length (acceptedWallets env cs)
  /\ ld_wallets (loadSlots env cs st)
     = fold_left (fun m w => JsMap.set (id w) w m) (acceptedWallets env cs) (ld_wallets st).
Proof.
  induction cs as [|c cs IH]; intros st; simpl.
  - rewrite app_nil_r. auto.
  - destruct (IH (loadSlot env st c)) as (H1 & H2 & H3).
    unfold loadSlots in *. rewrite H1, H2, H3. clear IH H1 H2 H3.
    unfold loadSlot, walletOfSlot.
    destruct (env (Config.env c)) as [key|];
      [destruct (passesValidation (Some key));
       [destruct (privateKeyToAccount key)|]|];
      simpl; rewrite ?app_nil_r, <- ?app_assoc; simpl;
      repeat split; auto; lia.
Qed.

Lemma fold_set_fresh : forall (ws : list Wallet) (m : JsMap.t Wallet),
  NoDup (JsMap.keys m ++ map id ws) ->
  fold_left (fun m w => JsMap.set (id w) w m) ws m = m ++ map entry ws.
Proof.
  induction ws as [|w ws IH]; intros m Hnd; simpl.
  - now rewrite app_nil_r.
  - assert (Hfresh : ~ In (id w) (JsMap.keys m)).
    { intros Hin. apply NoDup_remove_2 in Hnd. apply Hnd.
      apply in_or_app. now left. }
    rewrite JsMap_set_fresh by assumption.
    rewrite IH.
    + rewrite <- app_assoc. reflexivity.
    + unfold JsMap.keys in *. rewrite map_app. simpl.
      rewrite <- app_assoc. simpl. exact Hnd.
Qed.

Lemma NoDup_filter_map : forall (f : Config.t -> bool) cs,
  NoDup (map Config.id cs) -> NoDup (map Config.id (filter f cs)).
Proof.
  induction cs as [|c cs IH]; simpl; intros Hnd; [constructor|].
  inversion Hnd as [|? ? Hnotin Hnd']; subst.
  destruct (f c); simpl; [|now apply IH].
  constructor; [|now apply IH].
  intros Hin. apply Hnotin. apply in_map_iff in Hin.
  destruct Hin as [c' [Hc' Hin]]. apply filter_In in Hin.
  apply in_map_iff. exists c'. tauto.
Qed.

Lemma configs_ids_NoDup : NoDup (map Config.id configs).
Proof.
  simpl. repeat constructor; simpl; intuition discriminate.
Qed.

Lemma configs_ids_nonempty : forall c, In c configs -> Config.id c <> "".
Proof.
  intros c H. simpl in H.
  repeat (destruct H as [<-|H]; [discriminate|]). contradiction.
Qed.

(** The registry after the loop: the accepted wallets, in slot order,
    each under its own id. *)
Lemma loaded_registry :
  let st := loadSlots env configs (mkLoad JsMap.empty [] 0 []) in
  loadedWallets st = acceptedWallets env configs
  /\ walletsLoaded st = length (acceptedWallets env configs)
  /\ ld_wallets st = map entry (acceptedWallets env configs).
Proof.
  destruct (loadSlots_locals configs (mkLoad JsMap.empty [] 0 [])) as (H1 & H2 & H3).
  cbn [loadedWallets walletsLoaded ld_wallets app Nat.add] in H1, H2, H3.
  cbv zeta. repeat split; try assumption.
  rewrite H3. rewrite fold_set_fresh; [reflexivity|].
  cbn [JsMap.keys JsMap.empty map app].
  rewrite acceptedWallets_ids. apply NoDup_filter_map, configs_ids_NoDup.
Qed.

Lemma selectDefault_wallets : forall st,
  wallets (fst (selectDefault st)) = ld_wallets st.
Proof.
  intros st. unfold selectDefault.
  repeat match goal with
         | |- context [match ?x with _ => _ end] => destruct x
         end; reflexivity.
Qed.

Lemma getInstance_selectDefault :
  getInstance env
  = fst (selectDefault (loadSlots env configs (mkLoad JsMap.empty [] 0 []))).
Proof.
  unfold getInstance, loadWallets. now destruct (selectDefault _).
Qed.

Lemma wallets_getInstance :
  wallets (getInstance env) = map entry (acceptedWallets env configs).
Proof.
  destruct loaded_registry as (_ & _ & H3).
  rewrite getInstance_selectDefault, selectDefault_wallets. exact H3.
Qed.

Lemma getAllWallets_getInstance :
  getAllWallets (getInstance env) = acceptedWallets env configs.
Proof.
  unfold getAllWallets, JsMap.values. rewrite wallets_getInstance.
  rewrite map_map. simpl. apply map_id.
Qed.

End LoadFacts.

Section ConsoleFacts.
Context {collab : Collaborators}.
Variable env : Env.

Lemma loadSlot_console : forall st c,
  filter isWarning (console (loadSlot env st c))
  = filter isWarning (console st)
    ++ (if slotUnderivable env c then [invalidKeyLine c] else [])
  /\ filter isNoPrivateKeyFound (console (loadSlot env st c))
     = filter isNoPrivateKeyFound (console st)
       ++ (if slotRejected env c then [noKeyLine c] else []).
Proof.
  intros st c. unfold loadSlot, slotUnderivable, slotRejected, derivable.
  destruct (env (Config.env c)) as [key|].
  - destruct (passesValidation (Some key)).
    + destruct (privateKeyToAccount key); cbn [console isSome negb andb];
        rewrite !filter_app; simpl; rewrite ?app_nil_r; auto.
    + cbn [console isSome negb andb]; rewrite !filter_app; simpl;
        rewrite ?app_nil_r; auto.
  - change (passesValidation None) with false.
    cbn [console isSome negb andb]; rewrite !filter_app; simpl;
      rewrite ?app_nil_r; auto.
Qed.

Lemma loadSlots_console : forall cs st,
  filter isWarning (console (loadSlots env cs st))
  = filter isWarning (console st)
    ++ map invalidKeyLine (filter (slotUnderivable env) cs)
  /\ filter isNoPrivateKeyFound (console (loadSlots env cs st))
     = filter isNoPrivateKeyFound (console st)
       ++ map noKeyLine (filter (slotRejected env) cs).
Proof.
  induction cs as [|c cs IH]; intros st.
  - simpl. rewrite !app_nil_r. auto.
  - change (loadSlots env (c :: cs) st) with (loadSlots env cs (loadSlot env st c)).
    destruct (IH (loadSlot env st c)) as [H1 H2].
    destruct (loadSlot_console st c) as [G1 G2].
    rewrite H1, H2, G1, G2. simpl.
    destruct (slotUnderivable env c), (slotRejected env c);
      simpl; rewrite <- ?app_assoc, ?app_nil_r; auto.
Qed.

Lemma selectDefault_console : forall st,
  exists extra,
    snd (selectDefault st) = console st ++ extra
    /\ filter isWarning extra = []
    /\ filter isNoPrivateKeyFound extra = [].
Proof.
  intros st. unfold selectDefault.
  destruct (find _ _) as [w|].
  - exists [CurrentSetToPriority (name w)]. auto.
  - destruct (0 <? walletsLoaded st)%nat.
    + destruct (filter _ (loadedWallets st)) as [|w ?].
      * destruct (hd_error _) as [w|].
        -- exists [CurrentSetToFallback (name w)]. auto.
        -- exists []. rewrite app_nil_r. auto.
      * exists [CurrentSetToFallback (name w)]. auto.
    + exists []. rewrite app_nil_r. auto.
Qed.

Lemma loadWallets_console :
  filter isWarning (snd (loadWallets env))
  = map invalidKeyLine (filter (slotUnderivable env) configs)
    ++ (if (length (acceptedWallets env configs) =? 0)%nat then [NoValidKeys] else [])
  /\ filter isNoPrivateKeyFound (snd (loadWallets env))
     = map noKeyLine (filter (slotRejected env) configs).
Proof.
  unfold loadWallets.
  destruct (loaded_registry env) as (_ & Hn & _). cbv zeta in Hn.
  destruct (loadSlots_console configs (mkLoad JsMap.empty [] 0 [])) as [H1 H2].
  cbn [console filter app] in H1, H2.
  destruct (selectDefault_console
              (loadSlots env configs (mkLoad JsMap.empty [] 0 [])))
    as (extra & He & Hw & Hk).
  destruct (selectDefault _) as [m out]. cbn [snd] in *. subst out.
  rewrite Hn.
  destruct (length (acceptedWallets env configs) =? 0)%nat;
    cbn [snd]; rewrite !filter_app, H1, H2, Hw, Hk; simpl;
    rewrite ?app_nil_r; auto.
Qed.

End ConsoleFacts.

(* ================================================================== *)
(** * The invariant of the wallet manager *)

Section ManagerInvariant.
Context {collab : Collaborators}.

Lemma selectDefault_current : forall st,
  (forall w, currentWallet (fst (selectDefault st)) = Some w ->
     In w (loadedWallets st)
     /\ lastActiveWalletId (fst (selectDefault st)) = Some (id w))
  /\ (currentWallet (fst (selectDefault st)) = None ->
      lastActiveWalletId (fst (selectDefault st)) = None).
Proof.
  intros st. unfold selectDefault.
  destruct (find _ _) as [p|] eqn:Ef.
  - split; cbn [fst currentWallet lastActiveWalletId]; [|discriminate].
    intros w H. inversion H; subst. split; [|reflexivity].
    now apply find_some in Ef.
  - destruct (0 <? walletsLoaded st)%nat; [|split; [discriminate|reflexivity]].
    destruct (filter _ (loadedWallets st)) as [|x xs] eqn:Es.
    + destruct (loadedWallets st) as [|y ys] eqn:El;
        cbn [hd_error fst currentWallet lastActiveWalletId];
        split; try discriminate; try reflexivity.
      intros w H. inversion H; subst. split; [now left|reflexivity].
    + split; cbn [fst currentWallet lastActiveWalletId]; [|discriminate].
      intros w H. inversion H; subst. split; [|reflexivity].
      assert (Hin : In w (filter (fun w => String.eqb (role w) "seller")
                                 (loadedWallets st)))
        by (rewrite Es; now left).
      now apply filter_In in Hin.
Qed.

Lemma wellFormed_getInstance : forall env, wellFormed (getInstance env).
Proof.
  intros env.
  assert (Hkeys : NoDup (JsMap.keys (wallets (getInstance env)))).
  { rewrite wallets_getInstance. unfold JsMap.keys. rewrite map_map.
    change (fun x => fst (entry x)) with id.
    rewrite acceptedWallets_ids. apply NoDup_filter_map, configs_ids_NoDup. }
  assert (Hent : forall k w, In (k, w) (wallets (getInstance env)) ->
            In w (acceptedWallets env configs) /\ id w = k).
  { intros k w Hin. rewrite wallets_getInstance in Hin.
    apply in_map_iff in Hin. destruct Hin as [w' [He Hin]].
    inversion He; subst. auto. }
  constructor.
  - exact Hkeys.
  - intros k w Hin. destruct (Hent _ _ Hin) as [Hadm Hid].
    apply acceptedWallets_In in Hadm. destruct Hadm as [c [Hc Hadm]].
    destruct (walletOfSlot_fields _ _ Hadm) as (Hi & _ & _ & Hd).
    repeat split; try assumption.
    subst k. rewrite Hi. now apply configs_ids_nonempty.
  - intros w Hcur. rewrite getInstance_selectDefault in Hcur.
    destruct (selectDefault_current
                (loadSlots env configs (mkLoad JsMap.empty [] 0 []))) as [Hsel _].
    destruct (Hsel _ Hcur) as [Hin Hlast].
    destruct (loaded_registry env) as (Hl & _ & _). cbv zeta in Hl.
    rewrite Hl in Hin. split.
    + apply JsMap_get_In; [exact Hkeys|].
      rewrite wallets_getInstance. apply in_map_iff. exists w. auto.
    + rewrite getInstance_selectDefault. exact Hlast.
  - rewrite getInstance_selectDefault.
    apply (selectDefault_current
             (loadSlots env configs (mkLoad JsMap.empty [] 0 []))).
Qed.

Lemma wellFormed_resolve : forall m k w,
  wellFormed m -> JsMap.get k (wallets m) = Some w ->
  id w = k /\ JsMap.get (id w) (wallets m) = Some w.
Proof.
  intros m k w Hwf Hget.
  destruct (wf_entries Hwf k w (JsMap_get_Some_In _ _ Hget)) as [Hid _].
  subst k. auto.
Qed.

Lemma wellFormed_switchWallet : forall walletId m,
  wellFormed m -> wellFormed (snd (switchWallet walletId m)).
Proof.
  intros walletId m Hwf. unfold switchWallet.
  destruct (JsMap.get walletId (wallets m)) as [wallet|] eqn:Hget;
    [|exact Hwf].
  destruct (wellFormed_resolve walletId Hwf Hget) as [Hid Hget'].
  constructor; cbn [snd wallets currentWallet lastActiveWalletId].
  - apply (wf_keys Hwf).
  - apply (wf_entries Hwf).
  - intros w H. inversion H; subst. auto.
  - discriminate.
Qed.

Lemma wellFormed_restoreLastActiveWallet : forall m,
  wellFormed m -> wellFormed (snd (restoreLastActiveWallet m)).
Proof.
  intros m Hwf. unfold restoreLastActiveWallet.
  destruct (lastActiveWalletId m) as [last|] eqn:Hlast; [|exact Hwf].
  destruct (negb (String.eqb last "") && JsMap.has last (wallets m));
    [|exact Hwf].
  destruct (JsMap.get last (wallets m)) as [wallet|] eqn:Hget; [|exact Hwf].
  destruct (wellFormed_resolve last Hwf Hget) as [Hid Hget'].
  constructor; cbn [snd wallets currentWallet lastActiveWalletId].
  - apply (wf_keys Hwf).
  - apply (wf_entries Hwf).
  - intros w H. inversion H; subst. auto.
  - discriminate.
Qed.

Lemma reachable_wellFormed : forall m, reachable m -> wellFormed m.
Proof.
  induction 1.
  - apply wellFormed_getInstance.
  - now apply wellFormed_switchWallet.
  - now apply wellFormed_restoreLastActiveWallet.
Qed.

(** A wallet listed by the registry resolves under its own id. *)
Lemma wellFormed_listed : forall m w,
  wellFormed m -> In w (getAllWallets m) ->
  JsMap.get (id w) (wallets m) = Some w
  /\ privateKeyToAccount (privateKey w) = Some (publicAddress w).
Proof.
  intros m w Hwf Hin. apply JsMap_values_In in Hin. destruct Hin as [k Hin].
  destruct (wf_entries Hwf k w Hin) as (Hid & _ & Hd). subst k.
  split; [|exact Hd]. apply JsMap_get_In; [apply (wf_keys Hwf)|exact Hin].
Qed.

(** With a wallet current, restoring gives back the same state. *)
Lemma restore_with_current : forall m w,
  wellFormed m -> currentWallet m = Some w ->
  restoreLastActiveWallet m = (true, m).
Proof.
  intros m w Hwf Hcur.
  destruct (wf_current Hwf Hcur) as [Hget Hlast].
  assert (Hne : id w <> "").
  { apply JsMap_get_Some_In in Hget. now apply (wf_entries Hwf) in Hget. }
  unfold restoreLastActiveWallet, JsMap.has. rewrite Hlast, Hget.
  apply String.eqb_neq in Hne. rewrite Hne. cbn [negb andb].
  destruct m; simpl in *. subst. reflexivity.
Qed.

End ManagerInvariant.

(* ================================================================== *)
(** * First elements of [find] and [filter] *)

Section FirstMatch.
Variable A : Type.
Variable f : A -> bool.

Lemma find_first : forall l1 x l2,
  f x = true -> (forall y, In y l1 -> f y = false) ->
  find f (l1 ++ x :: l2) = Some x.
Proof.
  induction l1 as [|y l1 IH]; intros x l2 Hx Hl1; simpl.
  - now rewrite Hx.
  - rewrite (Hl1 y) by now left. apply IH; [assumption|].
    intros z Hz. apply Hl1. now right.
Qed.

Lemma filter_first : forall l1 x l2,
  f x = true -> (forall y, In y l1 -> f y = false) ->
  filter f (l1 ++ x :: l2) = x :: filter f l2.
Proof.
  induction l1 as [|y l1 IH]; intros x l2 Hx Hl1; simpl.
  - now rewrite Hx.
  - rewrite (Hl1 y) by now left. apply IH; [assumption|].
    intros z Hz. apply Hl1. now right.
Qed.

Lemma find_absent : forall l,
  (forall y, In y l -> f y = false) -> find f l = None.
Proof.
  induction l as [|y l IH]; intros H; simpl; [reflexivity|].
  rewrite (H y) by now left. apply IH. intros z Hz. apply H. now right.
Qed.

Lemma filter_absent : forall l,
  (forall y, In y l -> f y = false) -> filter f l = [].
Proof.
  induction l as [|y l IH]; intros H; simpl; [reflexivity|].
  rewrite (H y) by now left. apply IH. intros z Hz. apply H. now right.
Qed.

Lemma find_In_first : forall l x,
  find f l = Some x ->
  exists l1 l2, l = l1 ++ x :: l2 /\ f x = true
                /\ forall y, In y l1 -> f y = false.
Proof.
  induction l as [|y l IH]; intros x H; simpl in H; [discriminate|].
  destruct (f y) eqn:Ey.
  - inversion H; subst. exists [], l. simpl. intuition.
  - destruct (IH _ H) as (l1 & l2 & -> & Hx & Hl1).
    exists (y :: l1), l2. simpl. repeat split; auto.
    intros z [<-|Hz]; auto.
Qed.

Lemma hd_filter_first : forall l x rest,
  filter f l = x :: rest ->
  exists l1 l2, l = l1 ++ x :: l2 /\ f x = true
                /\ forall y, In y l1 -> f y = false.
Proof.
  induction l as [|y l IH]; intros x rest H; simpl in H; [discriminate|].
  destruct (f y) eqn:Ey.
  - inversion H; subst. exists [], l. simpl. intuition.
  - destruct (IH _ _ H) as (l1 & l2 & -> & Hx & Hl1).
    exists (y :: l1), l2. simpl. repeat split; auto.
    intros z [<-|Hz]; auto.
Qed.
End FirstMatch.

(* ================================================================== *)
(** * The wallet manager: properties *)

Section ManagerProperties.
Context {collab : Collaborators}.

(** C5 (as amended).  After [loadWallets] the registry lists exactly the
    slots whose secret passes validation and whose address viem
    derives, in slot order and under the slot's id.  A slot whose secret
    fails validation is skipped with one [console.log] line; a slot whose
    key viem rejects is skipped with one [console.warn] line; the only
    other warning is the one for an empty registry.  The load returns a
    manager whatever the configuration. *)
Theorem C5_registry_lists_accepted_slots : forall env : Env,
  length (getAllWallets (getInstance env))
  = length (filter (slotAccepted env) configs)
  /\ map id (getAllWallets (getInstance env))
     = map Config.id (filter (slotAccepted env) configs)
  /\ filter isNoPrivateKeyFound (snd (loadWallets env))
     = map noKeyLine (filter (slotRejected env) configs)
  /\ filter isWarning (snd (loadWallets env))
     = map invalidKeyLine (filter (slotUnderivable env) configs)
       ++ (if (length (getAllWallets (getInstance env)) =? 0)%nat
           then [NoValidKeys] else []).
Proof.
  intros env. rewrite getAllWallets_getInstance.
  destruct (loadWallets_console env) as [Hw Hk].
  repeat split; try assumption.
  - rewrite <- (length_map id), acceptedWallets_ids. apply length_map.
  - apply acceptedWallets_ids.
Qed.

(** When viem accepts every key that passes validation, the registry
    has one wallet per slot that passes validation. *)
Lemma registry_size_when_derivable : forall env : Env,
  (forall c, In c configs ->
     passesValidation (env (Config.env c)) = true ->
     derivable (env (Config.env c)) = true) ->
  length (getAllWallets (getInstance env))
  = length (filter (fun c => passesValidation (env (Config.env c))) configs).
Proof.
  intros env H. rewrite getAllWallets_getInstance.
  rewrite <- (length_map id), acceptedWallets_ids, length_map.
  f_equal. apply filter_ext_in. intros c Hc. unfold slotAccepted.
  destruct (passesValidation (env (Config.env c))) eqn:E; [|reflexivity].
  now rewrite (H c Hc E).
Qed.

(** C6.  The wallet that is current after start-up, for any list of
    loaded wallets: the first one whose id is [catmm_seller]; failing
    that the first seller; failing that the first wallet; none when
    nothing was loaded.  Whenever a wallet is chosen,
    [lastActiveWalletId] is its id. *)
Theorem C6_default_selection :
  forall (registry : JsMap.t Wallet) (loaded : list Wallet)
         (out : list ConsoleEvent),
    let m := fst (selectDefault (mkLoad registry loaded (length loaded) out)) in
    (forall l1 w l2,
        loaded = l1 ++ w :: l2 -> id w = "catmm_seller" ->
        (forall x, In x l1 -> id x <> "catmm_seller") ->
        currentWallet m = Some w)
    /\ ((forall x, In x loaded -> id x <> "catmm_seller") ->
        forall l1 w l2,
          loaded = l1 ++ w :: l2 -> role w = "seller" ->
          (forall x, In x l1 -> role x <> "seller") ->
          currentWallet m = Some w)
    /\ ((forall x, In x loaded -> id x <> "catmm_seller" /\ role x <> "seller") ->
        currentWallet m = hd_error loaded)
    /\ (loaded = [] -> currentWallet m = None /\ lastActiveWalletId m = None)
    /\ (loaded <> [] ->
        exists w, currentWallet m = Some w /\ In w loaded
                  /\ lastActiveWalletId m = Some (id w)).
Proof.
  intros registry loaded out m. subst m. unfold selectDefault.
  cbn [loadedWallets walletsLoaded ld_wallets console].
  split; [|split; [|split; [|split]]].
  - intros l1 w l2 -> Hid Hl1.
    rewrite find_first; [reflexivity| |].
    + now apply String.eqb_eq.
    + intros y Hy. apply String.eqb_neq. now apply Hl1.
  - intros Hnone l1 w l2 -> Hrole Hl1.
    rewrite find_absent
      by (intros y Hy; apply String.eqb_neq; now apply Hnone).
    rewrite length_app. cbn [length].
    replace (0 <? length l1 + S (length l2))%nat with true
      by (symmetry; apply Nat.ltb_lt; lia).
    rewrite filter_first; [reflexivity| |].
    + now apply String.eqb_eq.
    + intros y Hy. apply String.eqb_neq. now apply Hl1.
  - intros Hnone.
    rewrite find_absent
      by (intros y Hy; apply String.eqb_neq; now apply Hnone).
    rewrite filter_absent
      by (intros y Hy; apply String.eqb_neq; now apply Hnone).
    destruct loaded as [|w rest]; reflexivity.
  - intros ->. split; reflexivity.
  - intros Hne.
    destruct (find (fun w => String.eqb (id w) "catmm_seller") loaded)
      as [p|] eqn:Ef.
    + exists p. apply find_some in Ef. cbn [fst currentWallet lastActiveWalletId].
      tauto.
    + destruct loaded as [|w rest]; [congruence|].
      cbn [length Nat.ltb Nat.leb].
      destruct (filter (fun w => String.eqb (role w) "seller") (w :: rest))
        as [|x xs] eqn:Es.
      * exists w. cbn [hd_error fst currentWallet lastActiveWalletId].
        repeat split. now left.
      * exists x. cbn [fst currentWallet lastActiveWalletId].
        repeat split.
        assert (Hin : In x (filter (fun w => String.eqb (role w) "seller")
                                   (w :: rest)))
          by (rewrite Es; now left).
        now apply filter_In in Hin.
Qed.

(** The locals the loop of [loadWallets] hands to the selection are of
    the shape C6 speaks of. *)
Lemma getInstance_default_selection : forall env : Env,
  exists registry out,
    getInstance env
    = fst (selectDefault (mkLoad registry (acceptedWallets env configs)
                                 (length (acceptedWallets env configs)) out)).
Proof.
  intros env. rewrite getInstance_selectDefault.
  destruct (loaded_registry env) as (H1 & H2 & _). cbv zeta in H1, H2.
  destruct (loadSlots env configs (mkLoad JsMap.empty [] 0 []))
    as [registry lw n out]. cbn [loadedWallets walletsLoaded] in H1, H2.
  subst. now exists registry, out.
Qed.

Lemma reachable_ids_nonempty : forall m,
  reachable m -> forall k, In k (JsMap.keys (wallets m)) -> k <> "".
Proof.
  intros m Hr k Hk. apply reachable_wellFormed in Hr.
  unfold JsMap.keys in Hk. apply in_map_iff in Hk.
  destruct Hk as [[k' w] [<- Hin]]. now apply (wf_entries Hr) in Hin.
Qed.


(** C9.  In a reachable state the current wallet, when there is one, is
    the registry's entry for its id, and [lastActiveWalletId] is that
    id; restoring then changes nothing. *)
Theorem C9_current_wallet_resolves : forall (m : WalletConfigManager) (w : Wallet),
  reachable m ->
  getCurrentWallet m = Some w ->
  In w (getAllWallets m)
  /\ JsMap.get (id w) (wallets m) = Some w
  /\ lastActiveWalletId m = Some (id w)
  /\ snd (restoreLastActiveWallet m) = m.
Proof.
  intros m w Hr Hcur. apply reachable_wellFormed in Hr.
  destruct (wf_current Hr Hcur) as [Hget Hlast].
  repeat split; try assumption.
  - apply JsMap_get_Some_In in Hget. now apply JsMap_In_values in Hget.
  - now rewrite (restore_with_current Hr Hcur).
Qed.

(** In a reachable state, restoring succeeds exactly when a wallet is
    already current. *)
Lemma reachable_restore_iff_current : forall m,
  reachable m ->
  (fst (restoreLastActiveWallet m) = true <-> currentWallet m <> None).
Proof.
  intros m Hr. apply reachable_wellFormed in Hr.
  destruct (currentWallet m) as [w|] eqn:Hcur.
  - rewrite (restore_with_current Hr Hcur). cbn [fst]. split; congruence.
  - unfold restoreLastActiveWallet. rewrite (wf_unset Hr Hcur). cbn [fst].
    split; [discriminate|congruence].
Qed.

End ManagerProperties.

(* ================================================================== *)
(** * The GOAT tool synchroniser: properties *)

Section SynchroniserProperties.
Context {collab : Collaborators}.

Lemma sameId_true : forall a b, sameId a b = true <-> a = Some b.
Proof.
  intros [x|] b; simpl.
  - rewrite String.eqb_eq. split; congruence.
  - split; discriminate.
Qed.

Lemma initializeGoatTools_unfold : forall forceReinit s w,
  getCurrentWallet (walletManager s) = Some w ->
  privateKeyToAccount (privateKey w) = Some (publicAddress w) ->
  initializeGoatTools forceReinit s
  = if alreadyBound forceReinit w s then (Return true, s) else rebuildFor w s.
Proof.
  intros forceReinit s w Hcur Hd.
  unfold initializeGoatTools, alreadyBound, rebuildFor, bind, gets, tryCatch,
    createWalletClientForWallet, awaitOnChainTools, registerAvailableTools,
    setGoatTools, setGoatToolsLastWalletId, modify, ret, throw, clientOf.
  rewrite Hcur.
  destruct (negb forceReinit && isSome (goatTools s)
            && sameId (goatToolsLastWalletId s) (id w)); [reflexivity|].
  rewrite Hd. cbn [walletManager goatTools goatToolsLastWalletId onChainCalls].
  destruct (getOnChainTools (onChainCalls s)
              {| accountKey := privateKey w; accountAddress := publicAddress w |})
    as [built|e]; cbn [walletManager goatTools goatToolsLastWalletId onChainCalls];
    [|reflexivity].
  destruct (registerGoatTools _ built); reflexivity.
Qed.

Lemma rebuildFor_spec : forall w s,
  exists ok s',
    rebuildFor w s = (Return ok, s')
    /\ onChainCalls s' = onChainCalls s ++ [clientOf w]
    /\ walletManager s' = walletManager s
    /\ match getOnChainTools (onChainCalls s) (clientOf w) with
       | Throw _ =>
           ok = false /\ goatTools s' = None /\ goatToolsLastWalletId s' = None
       | Return built =>
           if registerGoatTools (onChainCalls s ++ [clientOf w]) built
           then ok = true /\ goatTools s' = Some built
                /\ goatToolsLastWalletId s' = Some (id w)
           else ok = false /\ goatTools s' = None
                /\ goatToolsLastWalletId s' = None
       end.
Proof.
  intros w s. unfold rebuildFor.
  destruct (getOnChainTools (onChainCalls s) (clientOf w)) as [built|e].
  - destruct (registerGoatTools _ built); eexists; eexists;
      (split; [reflexivity|]); simpl; auto.
  - eexists; eexists; (split; [reflexivity|]); simpl; auto.
Qed.

Lemma reachable_current_derivable : forall m w,
  reachable m -> getCurrentWallet m = Some w ->
  privateKeyToAccount (privateKey w) = Some (publicAddress w).
Proof.
  intros m w Hr Hcur. apply reachable_wellFormed in Hr.
  destruct (wf_current Hr Hcur) as [Hget _].
  apply JsMap_get_Some_In in Hget. now apply (wf_entries Hr) in Hget.
Qed.

(** C2.  With a wallet [w] current in a reachable manager:
    [initializeGoatTools] without the force flag, on a tool set bound to
    [w], answers [true] and leaves the whole state, call history
    included, as it was.  In every other case it calls
    [getOnChainTools] once, with the client of [w]'s key; when the build
    or the registrations throw it answers [false] with both
    [goatTools] and [goatToolsLastWalletId] reset to [null]; the wallet
    manager is untouched either way. *)
Theorem C2_initializeGoatTools_memoised_fail_soft :
  forall (s : Server) (w : Wallet) (forceReinit : bool),
    reachable (walletManager s) ->
    getCurrentWallet (walletManager s) = Some w ->
    (forceReinit = false -> goatTools s <> None ->
     goatToolsLastWalletId s = Some (id w) ->
     initializeGoatTools forceReinit s = (Return true, s))
    /\ (forceReinit = true \/ goatTools s = None
        \/ goatToolsLastWalletId s <> Some (id w) ->
        exists ok s',
          initializeGoatTools forceReinit s = (Return ok, s')
          /\ onChainCalls s' = onChainCalls s ++ [clientOf w]
          /\ accountKey (clientOf w) = privateKey w
          /\ walletManager s' = walletManager s
          /\ match getOnChainTools (onChainCalls s) (clientOf w) with
             | Throw _ =>
                 ok = false /\ goatTools s' = None
                 /\ goatToolsLastWalletId s' = None
             | Return built =>
                 if registerGoatTools (onChainCalls s ++ [clientOf w]) built
                 then ok = true /\ goatTools s' = Some built
                      /\ goatToolsLastWalletId s' = Some (id w)
                 else ok = false /\ goatTools s' = None
                      /\ goatToolsLastWalletId s' = None
             end).
Proof.
  intros s w forceReinit Hr Hcur.
  pose proof (reachable_current_derivable Hr Hcur) as Hd.
  rewrite (initializeGoatTools_unfold forceReinit s Hcur Hd).
  unfold alreadyBound. split.
  - intros -> Htools Hlast.
    destruct (goatTools s); [|congruence].
    apply sameId_true in Hlast. now rewrite Hlast.
  - intros Hcase.
    assert (Hgate : negb forceReinit && isSome (goatTools s)
                    && sameId (goatToolsLastWalletId s) (id w) = false).
    { destruct Hcase as [->|[->|Hlast]].
      - reflexivity.
      - now rewrite andb_false_r.
      - destruct (sameId (goatToolsLastWalletId s) (id w)) eqn:E.
        + apply sameId_true in E. contradiction.
        + now rewrite andb_false_r. }
    rewrite Hgate.
    destruct (rebuildFor_spec w s) as (ok & s' & H1 & H2 & H3 & H4).
    exists ok, s'. repeat split; assumption.
Qed.

(** C10.  With no wallet current, [initializeGoatTools] answers [false]
    and resets [goatTools] and [goatToolsLastWalletId] to [null],
    whatever they held, without a call to the GOAT SDK. *)
Theorem C10_initializeGoatTools_without_wallet :
  forall (s : Server) (forceReinit : bool),
    getCurrentWallet (walletManager s) = None ->
    initializeGoatTools forceReinit s
    = (Return false, mkServer (walletManager s) None None (onChainCalls s)).
Proof.
  intros s forceReinit Hcur.
  unfold initializeGoatTools, bind, gets, setGoatTools,
    setGoatToolsLastWalletId, modify, ret.
  now rewrite Hcur.
Qed.

End SynchroniserProperties.

(* ================================================================== *)
(** * The switch handlers: properties *)

Section SwitchProperties.
Context {collab : Collaborators}.

Lemma append_inj_l : forall a x y, a +++ x = a +++ y -> x = y.
Proof.
  induction a as [|c a IH]; simpl; intros x y H; [assumption|].
  inversion H. now apply IH.
Qed.

Lemma append_empty_r : forall a, a +++ "" = a.
Proof. induction a as [|c a IH]; simpl; [reflexivity|now rewrite IH]. Qed.

(** The message of a switch is the bare one exactly when the wallet of
    the requested provider was found. *)
Lemma switchMessage_honoured : forall roleName requested target,
  switchMessage roleName requested target = "Switched to " +++ roleName +++ " wallet"
  <-> provider target = requested.
Proof.
  intros roleName requested target. unfold switchMessage.
  destruct (String.eqb (provider target) requested) eqn:E; cbn [negb].
  - apply String.eqb_eq in E. now rewrite append_empty_r.
  - apply String.eqb_neq in E. split; [|contradiction].
    intros H. apply append_inj_l, append_inj_l in H.
    rewrite <- (append_empty_r " wallet") in H at 2.
    apply append_inj_l in H. discriminate.
Qed.

Lemma switchTarget_eq : forall roleName p m,
  switchTarget roleName p m
  = match getWalletByRoleAndProvider roleName (providerName p) m with
    | Some w => Some w
    | None => hd_error (getWalletsByRole roleName m)
    end.
Proof. intros roleName [] m; reflexivity. Qed.

Lemma switchTarget_None : forall roleName p m,
  (forall w, In w (getAllWallets m) -> role w <> roleName) ->
  switchTarget roleName p m = None.
Proof.
  intros roleName p m H. rewrite switchTarget_eq.
  unfold getWalletByRoleAndProvider, getWalletsByRole.
  rewrite find_absent, filter_absent; [reflexivity| |].
  - intros y Hy. apply String.eqb_neq. now apply H.
  - intros y Hy. apply andb_false_iff. left.
    apply String.eqb_neq. now apply H.
Qed.

(** Where the target of a switch stands in the registry. *)
Lemma switchTarget_Some : forall roleName p m target,
  switchTarget roleName p m = Some target ->
  role target = roleName
  /\ exists l1 l2,
       getAllWallets m = l1 ++ target :: l2
       /\ ((provider target = providerName p
            /\ getWalletByRoleAndProvider roleName (providerName p) m = Some target
            /\ forall y, In y l1 ->
                 ~ (role y = roleName /\ provider y = providerName p))
           \/ (getWalletByRoleAndProvider roleName (providerName p) m = None
               /\ (forall y, In y (getAllWallets m) ->
                     ~ (role y = roleName /\ provider y = providerName p))
               /\ forall y, In y l1 -> role y <> roleName)).
Proof.
  intros roleName p m target. rewrite switchTarget_eq.
  unfold getWalletByRoleAndProvider, getWalletsByRole.
  destruct (find _ (getAllWallets m)) as [w|] eqn:Ef.
  - intros H. inversion H; subst.
    destruct (find_In_first _ _ Ef) as (l1 & l2 & Hl & Hw & Hl1).
    apply andb_true_iff in Hw. destruct Hw as [Hr Hp].
    apply String.eqb_eq in Hr, Hp. split; [assumption|].
    exists l1, l2. split; [assumption|]. left. repeat split; try assumption.
    intros y Hy [Hyr Hyp]. specialize (Hl1 y Hy).
    apply andb_false_iff in Hl1.
    destruct Hl1 as [Hf|Hf]; apply String.eqb_neq in Hf; contradiction.
  - intros H.
    destruct (filter _ (getAllWallets m)) as [|x rest] eqn:Es;
      [discriminate|].
    cbn [hd_error] in H. inversion H; subst.
    destruct (hd_filter_first _ _ Es) as (l1 & l2 & Hl & Hw & Hl1).
    apply String.eqb_eq in Hw. split; [assumption|].
    exists l1, l2. split; [assumption|]. right. repeat split.
    + intros y Hy [Hyr Hyp].
      pose proof (find_none _ _ Ef y Hy) as Hn. cbv beta in Hn.
      apply andb_false_iff in Hn.
      destruct Hn as [Hf|Hf]; apply String.eqb_neq in Hf; contradiction.
    + intros y Hy. apply String.eqb_neq. now apply Hl1.
Qed.

Lemma switchTarget_listed : forall roleName p m target,
  switchTarget roleName p m = Some target -> In target (getAllWallets m).
Proof.
  intros roleName p m target H.
  destruct (switchTarget_Some _ _ _ H) as (_ & l1 & l2 & -> & _).
  apply in_or_app. right. now left.
Qed.

(** A switch with a target: the handler commits the target, rebuilds the
    tool set for it and answers with the success payload. *)
Lemma switch_to_commits : forall s roleName instruction providerArg target,
  reachable (walletManager s) ->
  switchTarget roleName (requestedProvider providerArg) (walletManager s)
  = Some target ->
  switchWallet (id target) (walletManager s)
  = (true, walletManager (committed target s))
  /\ exists ok s',
      initializeGoatTools true (committed target s) = (Return ok, s')
      /\ switch_to roleName instruction providerArg s
         = (Return (TextJson
                      (switchSuccessPayload roleName
                         (providerName (requestedProvider providerArg)) target ok)),
            s')
      /\ walletManager s' = walletManager (committed target s)
      /\ onChainCalls s' = onChainCalls s ++ [clientOf target].
Proof.
  intros s roleName instruction providerArg target Hr Ht.
  pose proof (reachable_wellFormed Hr) as Hwf.
  destruct (wellFormed_listed target Hwf (switchTarget_listed _ _ _ Ht))
    as [Hget Hd].
  assert (Hsw : switchWallet (id target) (walletManager s)
                = (true, walletManager (committed target s))).
  { unfold switchWallet. now rewrite Hget. }
  split; [exact Hsw|].
  destruct (rebuildFor_spec target (committed target s))
    as (ok & s' & Hrb & Hcalls & Hwm & _).
  exists ok, s'.
  assert (Hinit : initializeGoatTools true (committed target s) = (Return ok, s')).
  { rewrite (@initializeGoatTools_unfold _ true (committed target s) target);
      [exact Hrb|reflexivity|exact Hd]. }
  repeat split; try assumption.
  unfold switch_to, tryCatch, bind, gets, callManager, ret.
  fold (requestedProvider providerArg). rewrite Ht, Hsw. cbn [negb].
  change (mkServer (walletManager (committed target s)) (goatTools s)
                   (goatToolsLastWalletId s) (onChainCalls s))
    with (committed target s).
  now rewrite Hinit.
Qed.

(** C1.  In a reachable state whose registry has a wallet of the role,
    a switch answers with the success payload for a target that is the
    first wallet of the role and of the requested provider, or, when
    the registry has none, the first wallet of the role.  The target
    becomes the current wallet and [lastActiveWalletId] its id, so
    [getCurrentWallet] returns a wallet of the role, and of the
    requested provider whenever the registry has one.  The answer is
    the JSON object with [success], [message], the target under
    [wallet] and the two readiness flags; its [message] is the bare
    one exactly when the requested provider was honoured, and names
    the requested and the chosen provider otherwise. *)
Theorem C1_switch_selects_and_commits :
  forall (s : Server) (roleName instruction : string)
         (providerArg : option ProviderChoice),
    let requested := providerName (requestedProvider providerArg) in
    let m := walletManager s in
    reachable m ->
    (exists w, In w (getAllWallets m) /\ role w = roleName) ->
    exists target ok s' message,
      switch_to roleName instruction providerArg s
      = (Return (TextJson
                   (JObj [("success", JBool true);
                          ("message", JStr message);
                          ("wallet", JObj [("name", JStr (name target));
                                           ("address", JStr (publicAddress target));
                                           ("role", JStr (role target));
                                           ("provider", JStr (provider target))]);
                          ("goatToolsReinitialized", JBool ok);
                          ("readyForOperations", JBool ok)])), s')
      /\ (forall w, getWalletByRoleAndProvider roleName requested m = Some w ->
             target = w)
      /\ (getWalletByRoleAndProvider roleName requested m = None ->
          hd_error (getWalletsByRole roleName m) = Some target)
      /\ (exists l1 l2,
             getAllWallets m = l1 ++ target :: l2
             /\ ((provider target = requested
                  /\ forall y, In y l1 ->
                       ~ (role y = roleName /\ provider y = requested))
                 \/ ((forall y, In y (getAllWallets m) ->
                        ~ (role y = roleName /\ provider y = requested))
                     /\ forall y, In y l1 -> role y <> roleName)))
      /\ currentWallet (walletManager s') = Some target
      /\ lastActiveWalletId (walletManager s') = Some (id target)
      /\ wallets (walletManager s') = wallets m
      /\ getCurrentWallet (walletManager s') = Some target
      /\ role target = roleName
      /\ ((exists w, In w (getAllWallets m) /\ role w = roleName
                     /\ provider w = requested) ->
          provider target = requested)
      /\ (provider target = requested ->
          message = "Switched to " +++ roleName +++ " wallet")
      /\ (provider target <> requested ->
          message = "Switched to " +++ roleName +++ " wallet"
                    +++ " (" +++ requested +++ " not available, using "
                    +++ provider target +++ ")")
      /\ (message = "Switched to " +++ roleName +++ " wallet"
          <-> provider target = requested).
Proof.
  intros s roleName instruction providerArg requested m Hr [w0 [Hw0 Hrole0]].
  destruct (switchTarget roleName (requestedProvider providerArg) m)
    as [target|] eqn:Ht.
  2:{ exfalso. rewrite switchTarget_eq in Ht.
      destruct (getWalletByRoleAndProvider _ _ m); [discriminate|].
      unfold getWalletsByRole in Ht.
      assert (Hin : In w0 (filter (fun w => String.eqb (role w) roleName)
                                  (getAllWallets m))).
      { apply filter_In. split; [assumption|]. now apply String.eqb_eq. }
      destruct (filter _ (getAllWallets m)); [contradiction|discriminate]. }
  destruct (switch_to_commits s roleName instruction providerArg Hr Ht)
    as (_ & ok & s' & _ & Hsw & Hwm & _).
  destruct (switchTarget_Some _ _ _ Ht) as (Hrole & l1 & l2 & Hl & Hcase).
  exists target, ok, s', (switchMessage roleName requested target).
  split; [exact Hsw|].
  rewrite Hwm. cbn [committed walletManager
    currentWallet lastActiveWalletId wallets getCurrentWallet].
  fold m. fold requested in Hcase.
  split.
  { intros w Hw. destruct Hcase as [(_ & Hf & _)|(Hf & _)]; congruence. }
  split.
  { intros Hnone. pose proof Ht as Ht'. rewrite switchTarget_eq in Ht'.
    fold requested in Ht'. now rewrite Hnone in Ht'. }
  split.
  { exists l1, l2. split; [assumption|]. tauto. }
  split; [reflexivity|]. split; [reflexivity|]. split; [reflexivity|].
  split; [reflexivity|]. split; [assumption|].
  split.
  { intros (w & Hw & Hwr & Hwp).
    destruct Hcase as [(Hp & _)|(_ & Hn & _)]; [assumption|].
    exfalso. apply (Hn w Hw). auto. }
  split.
  { intros Hp. now apply switchMessage_honoured. }
  split.
  { intros Hp. unfold switchMessage. apply String.eqb_neq in Hp.
    rewrite Hp. reflexivity. }
  apply switchMessage_honoured.
Qed.

(** C4.  When the registry has no wallet of the role, a switch answers
    with the error payload, whose [availableWallets] holds one object
    for every wallet of the registry, in the order of the registry,
    with the name, role, provider and address of that wallet; the
    state, [currentWallet] and [lastActiveWalletId] included, is the one
    before the call. *)
Theorem C4_switch_without_candidate :
  forall (s : Server) (roleName instruction : string)
         (providerArg : option ProviderChoice),
    (forall w, In w (getAllWallets (walletManager s)) -> role w <> roleName) ->
    switch_to roleName instruction providerArg s
    = (Return (TextJson
                 (JObj [("error", JStr ("No " +++ roleName +++ " wallet found"));
                        ("availableWallets",
                         JArr (map (fun w =>
                                      JObj [("name", JStr (name w));
                                            ("role", JStr (role w));
                                            ("provider", JStr (provider w));
                                            ("address", JStr (publicAddress w))])
                                   (getAllWallets (walletManager s))));
                        ("instruction", JStr instruction)])),
       s).
Proof.
  intros s roleName instruction providerArg Hnone.
  unfold switch_to, tryCatch, bind, gets, ret.
  fold (requestedProvider providerArg).
  now rewrite (switchTarget_None (requestedProvider providerArg) _ Hnone).
Qed.

Lemma ensureGoatTools_unfold : forall s w,
  getCurrentWallet (walletManager s) = Some w ->
  privateKeyToAccount (privateKey w) = Some (publicAddress w) ->
  ensureGoatToolsForCurrentWallet s
  = if isSome (goatTools s) && sameId (goatToolsLastWalletId s) (id w)
    then (Return true, s) else rebuildFor w s.
Proof.
  intros s w Hcur Hd.
  pose proof (initializeGoatTools_unfold true s Hcur Hd) as Hinit.
  cbn [alreadyBound negb andb] in Hinit.
  unfold ensureGoatToolsForCurrentWallet, bind, gets, ret. rewrite Hcur.
  destruct (isSome (goatTools s)), (sameId (goatToolsLastWalletId s) (id w));
    cbn [negb orb andb]; try exact Hinit; reflexivity.
Qed.

(** What a handler's [ensureGoatToolsForCurrentWallet] does after a
    switch to X: nothing when the rebuild of the switch bound the tool
    set to X, one more rebuild when that rebuild failed. *)
Lemma ensure_after_switch : forall s roleName instruction providerArg X,
  reachable (walletManager s) ->
  switchTarget roleName (requestedProvider providerArg) (walletManager s)
  = Some X ->
  exists ok s',
    switch_to roleName instruction providerArg s
    = (Return (TextJson (switchSuccessPayload roleName
                           (providerName (requestedProvider providerArg)) X ok)),
       s')
    /\ ensureGoatToolsForCurrentWallet s'
       = if ok then (Return true, s') else rebuildFor X s'.
Proof.
  intros s roleName instruction providerArg X Hr Ht.
  pose proof (reachable_wellFormed Hr) as Hwf.
  destruct (wellFormed_listed X Hwf (switchTarget_listed _ _ _ Ht)) as [_ Hd].
  destruct (switch_to_commits s roleName instruction providerArg Hr Ht)
    as (_ & ok & s' & Hinit & Hh & Hwm & _).
  exists ok, s'. split; [exact Hh|].
  assert (Hcur : getCurrentWallet (walletManager s') = Some X)
    by now rewrite Hwm.
  rewrite (ensureGoatTools_unfold s' Hcur Hd).
  rewrite (@initializeGoatTools_unfold _ true (committed X s) X) in Hinit;
    [|reflexivity|exact Hd].
  cbn [alreadyBound negb andb] in Hinit. unfold rebuildFor in Hinit.
  destruct (getOnChainTools _ _) as [built|e].
  - destruct (registerGoatTools _ built); inversion Hinit; subst;
      cbn [goatTools goatToolsLastWalletId isSome sameId andb];
      [now rewrite String.eqb_refl|reflexivity].
  - inversion Hinit; subst. reflexivity.
Qed.

End SwitchProperties.

(* ================================================================== *)
(** * The wallet-gated handlers: properties *)

Section HandlerProperties.
Context {collab : Collaborators}.

(** A handler closed by [catch (error) { return ... }] returns. *)
Lemma tryCatch_returns : forall (A : Type) (c : M A) (f : string -> A) s,
  exists a s', tryCatch c (fun e => ret (f e)) s = (Return a, s').
Proof.
  intros A c f s. unfold tryCatch, ret.
  destruct (c s) as [[a|e] s']; eauto.
Qed.

Lemma restore_failed_unchanged : forall m,
  currentWallet (snd (restoreLastActiveWallet m)) = None ->
  snd (restoreLastActiveWallet m) = m.
Proof.
  intros m. unfold restoreLastActiveWallet.
  destruct (lastActiveWalletId m) as [last|]; [|reflexivity].
  destruct (negb (String.eqb last "") && JsMap.has last (wallets m));
    [|reflexivity].
  destruct (JsMap.get last (wallets m)); [discriminate|reflexivity].
Qed.

Lemma restoreIfNoCurrent_afterRestore : forall s,
  restoreIfNoCurrent s = (Return tt, afterRestore s).
Proof.
  intros s. unfold restoreIfNoCurrent, afterRestore, bind, gets, callManager, ret.
  destruct (getCurrentWallet (walletManager s)); [reflexivity|].
  now destruct (restoreLastActiveWallet (walletManager s)).
Qed.

Lemma afterRestore_idempotent : forall s,
  afterRestore (afterRestore s) = afterRestore s.
Proof.
  intros s. unfold afterRestore.
  destruct (getCurrentWallet (walletManager s)) eqn:Hcur.
  - now rewrite Hcur.
  - cbn [walletManager goatTools goatToolsLastWalletId onChainCalls].
    destruct (getCurrentWallet (snd (restoreLastActiveWallet (walletManager s))))
      eqn:Hcur'; [reflexivity|].
    unfold getCurrentWallet in Hcur'.
    now rewrite !(restore_failed_unchanged _ Hcur').
Qed.

Lemma handle_unfold : forall op args s,
  handle op args s
  = match getCurrentWallet (walletManager (afterRestore s)) with
    | None => (Return (TextJson (noWalletPayload op)), afterRestore s)
    | Some w =>
        tryCatch (withWallet op args w) (fun e => ret (errorResponse op e))
                 (afterRestore s)
    end.
Proof.
  intros op args s. unfold handle, tryCatch, bind at 1.
  rewrite restoreIfNoCurrent_afterRestore. unfold bind, gets, ret.
  destruct (getCurrentWallet (walletManager (afterRestore s))); reflexivity.
Qed.

Lemma noWalletPayload_instructs : forall op,
  mentions "switch_to_seller" (noWalletPayload op) = true.
Proof. intros []; reflexivity. Qed.

(** C8.  A wallet-gated handler always returns a response.  It runs as
    if started in the state [afterRestore s]: the state itself when a
    wallet is current, the state after [restoreLastActiveWallet]
    otherwise.  When no wallet is current there, it answers with its
    no-wallet payload, which names [switch_to_seller], and does nothing
    else; when a wallet is current there, it runs its body for that
    wallet, and an exception of the body becomes the error response. *)
Theorem C8_handlers_restore_then_report :
  forall (op : Operation) (args : Json) (s : Server),
    (exists resp s', handle op args s = (Return resp, s'))
    /\ handle op args s = handle op args (afterRestore s)
    /\ (getCurrentWallet (walletManager s) = None ->
        walletManager (afterRestore s)
        = snd (restoreLastActiveWallet (walletManager s)))
    /\ (getCurrentWallet (walletManager (afterRestore s)) = None ->
        handle op args s
        = (Return (TextJson (noWalletPayload op)), afterRestore s)
        /\ mentions "switch_to_seller" (noWalletPayload op) = true)
    /\ (forall w,
          getCurrentWallet (walletManager (afterRestore s)) = Some w ->
          exists resp s',
            tryCatch (withWallet op args w) (fun e => ret (errorResponse op e))
                     (afterRestore s) = (Return resp, s')
            /\ handle op args s = (Return resp, s')).
Proof.
  intros op args s. split; [|split; [|split; [|split]]].
  - unfold handle. apply tryCatch_returns.
  - rewrite !handle_unfold. now rewrite afterRestore_idempotent.
  - intros Hcur. unfold afterRestore. now rewrite Hcur.
  - intros Hnone. rewrite handle_unfold, Hnone.
    split; [reflexivity|apply noWalletPayload_instructs].
  - intros w Hw. rewrite handle_unfold, Hw.
    destruct (tryCatch_returns (withWallet op args w) (errorResponse op)
                               (afterRestore s)) as (resp & s' & H).
    exists resp, s'. now rewrite H.
Qed.

Lemma reachable_afterRestore : forall s,
  reachable (walletManager s) -> afterRestore s = s.
Proof.
  intros s Hr. apply reachable_wellFormed in Hr. unfold afterRestore.
  destruct (getCurrentWallet (walletManager s)) eqn:Hcur; [reflexivity|].
  unfold restoreLastActiveWallet. rewrite (wf_unset Hr Hcur).
  now destruct s.
Qed.

Lemma bind_keeps_state : forall (A B : Type) (c : M A) (k : A -> M B),
  (forall a s, snd (k a s) = s) -> forall s, snd (bind c k s) = snd (c s).
Proof.
  intros A B c k Hk s. unfold bind.
  destruct (c s) as [[a|e] s1]; cbn [snd]; [apply Hk|reflexivity].
Qed.

Lemma tryCatch_keeps_state : forall (A : Type) (c : M A) (h : string -> M A),
  (forall e s, snd (h e s) = s) -> forall s, snd (tryCatch c h s) = snd (c s).
Proof.
  intros A c h Hh s. unfold tryCatch.
  destruct (c s) as [[a|e] s1]; cbn [snd]; [reflexivity|apply Hh].
Qed.

Lemma createDynamicWalletClient_keeps_state : forall s,
  snd (createDynamicWalletClient s) = s.
Proof.
  intros s. unfold createDynamicWalletClient, bind, gets, ret, throw.
  destruct (getCurrentWallet (walletManager s)) as [w|]; [|reflexivity].
  destruct (privateKeyToAccount (privateKey w)); reflexivity.
Qed.

(** What follows the wallet client in a transaction tool: the chain
    call and the answer. *)
Lemma transaction_tail_keeps_state : forall op args w s,
  snd ((walletClient <- createDynamicWalletClient ;;
        result <- liftOutcome (chainCall op args w) ;;
        ret (TextJson result)) s) = s.
Proof.
  intros op args w s. rewrite bind_keeps_state.
  - apply createDynamicWalletClient_keeps_state.
  - intros a s1. unfold bind, liftOutcome, ret.
    destruct (chainCall op args w); reflexivity.
Qed.

(** The state a wallet-gated handler leaves is the state it started its
    body in, or that state after [ensureGoatToolsForCurrentWallet]. *)
Lemma withWallet_state : forall op args w s,
  let s' := snd (tryCatch (withWallet op args w)
                          (fun e => ret (errorResponse op e)) s) in
  s' = s \/ s' = snd (ensureGoatToolsForCurrentWallet s).
Proof.
  intros op args w s. cbv zeta.
  rewrite tryCatch_keeps_state by reflexivity.
  destruct op; cbn [withWallet ensuresGoatTools].
  - right. apply bind_keeps_state. intros a s1. reflexivity.
  - right. apply bind_keeps_state. intros a s1. reflexivity.
  - right. rewrite bind_keeps_state.
    + apply bind_keeps_state. reflexivity.
    + intros a s1. apply transaction_tail_keeps_state.
  - left. rewrite bind_keeps_state; [reflexivity|].
    intros a s1. apply transaction_tail_keeps_state.
  - left. rewrite bind_keeps_state; [reflexivity|].
    intros a s1. apply transaction_tail_keeps_state.
  - left. rewrite bind_keeps_state; [reflexivity|].
    intros a s1. apply transaction_tail_keeps_state.
  - left. rewrite bind_keeps_state; [reflexivity|].
    intros a s1. apply transaction_tail_keeps_state.
Qed.

Lemma handle_state : forall op args s,
  reachable (walletManager s) ->
  snd (handle op args s) = s
  \/ snd (handle op args s) = snd (ensureGoatToolsForCurrentWallet s).
Proof.
  intros op args s Hr. rewrite handle_unfold, (reachable_afterRestore s Hr).
  destruct (getCurrentWallet (walletManager s)) as [w|]; [|now left].
  apply withWallet_state.
Qed.


End HandlerProperties.

(* ================================================================== *)
(** * The wallet manager: further properties *)

Section ManagerFurther.
Context {collab : Collaborators}.

(** X1.  Restoring twice is restoring once: the second call gives the
    answer and the state of the first. *)
Theorem X1_restore_twice : forall m : WalletConfigManager,
  restoreLastActiveWallet (snd (restoreLastActiveWallet m))
  = restoreLastActiveWallet m.
Proof.
  intros m. unfold restoreLastActiveWallet at 2.
  destruct (lastActiveWalletId m) as [last|] eqn:Hlast.
  - destruct (negb (String.eqb last "") && JsMap.has last (wallets m)) eqn:Hc.
    + destruct (JsMap.get last (wallets m)) as [w|] eqn:Hget.
      * cbn [snd]. unfold restoreLastActiveWallet.
        cbn [lastActiveWalletId wallets]. now rewrite Hlast, Hc, Hget.
      * cbn [snd]. unfold restoreLastActiveWallet. now rewrite Hlast, Hc, Hget.
    + cbn [snd]. unfold restoreLastActiveWallet. now rewrite Hlast, Hc.
  - cbn [snd]. unfold restoreLastActiveWallet. now rewrite Hlast.
Qed.

Lemma reachable_same_registry : forall m,
  reachable m -> exists env, wallets m = wallets (getInstance env).
Proof.
  induction 1 as [env|walletId m Hr [env IH]|m Hr [env IH]].
  - now exists env.
  - exists env. unfold switchWallet.
    now destruct (JsMap.get walletId (wallets m)).
  - exists env. unfold restoreLastActiveWallet.
    destruct (lastActiveWalletId m) as [last|]; [|assumption].
    destruct (negb (String.eqb last "") && JsMap.has last (wallets m));
      [|assumption].
    now destruct (JsMap.get last (wallets m)).
Qed.

Lemma reachable_getAllWallets : forall m,
  reachable m -> exists env, getAllWallets m = acceptedWallets env configs.
Proof.
  intros m Hr. destruct (reachable_same_registry Hr) as [env He].
  exists env. rewrite <- getAllWallets_getInstance.
  unfold getAllWallets. now rewrite He.
Qed.

Lemma JsMap_get_keys : forall (m : JsMap.t Wallet) k,
  JsMap.get k m <> None <-> In k (JsMap.keys m).
Proof.
  induction m as [|[k' v] m IH]; intros k; simpl.
  - split; [congruence|contradiction].
  - destruct (String.eqb k' k) eqn:E.
    + apply String.eqb_eq in E. split; [auto|discriminate].
    + apply String.eqb_neq in E. rewrite IH. split; [auto|].
      intros [H|H]; [contradiction|assumption].
Qed.

Lemma wellFormed_keys_ids : forall m,
  wellFormed m -> JsMap.keys (wallets m) = map id (getAllWallets m).
Proof.
  intros m Hwf. unfold JsMap.keys, getAllWallets, JsMap.values.
  rewrite map_map. apply map_ext_in. intros [k w] Hin. simpl.
  symmetry. now apply (wf_entries Hwf).
Qed.

(** X2.  In a reachable state [switchWallet(id)] succeeds exactly when a
    wallet of the registry has that id; it then makes that wallet
    current and records its id as last active.  When it fails the
    manager is as before. *)
Theorem X2_switchWallet_by_id : forall (m : WalletConfigManager) (walletId : string),
  reachable m ->
  (fst (switchWallet walletId m) = true
   <-> exists w, In w (getAllWallets m) /\ id w = walletId)
  /\ (fst (switchWallet walletId m) = false -> snd (switchWallet walletId m) = m)
  /\ (forall w, In w (getAllWallets m) -> id w = walletId ->
        switchWallet walletId m
        = (true, mkManager (wallets m) (Some w) (Some walletId))).
Proof.
  intros m walletId Hr. pose proof (reachable_wellFormed Hr) as Hwf.
  assert (Hres : forall w, In w (getAllWallets m) -> id w = walletId ->
                   JsMap.get walletId (wallets m) = Some w).
  { intros w Hw <-. now apply wellFormed_listed. }
  split; [|split].
  - unfold switchWallet.
    destruct (JsMap.get walletId (wallets m)) as [w|] eqn:Hget; cbn [fst].
    + split; [intros _|reflexivity]. exists w.
      destruct (wellFormed_resolve walletId Hwf Hget) as [Hid _].
      split; [|assumption].
      apply JsMap_get_Some_In in Hget. now apply JsMap_In_values in Hget.
    + split; [intros H; discriminate H|]. intros (w & Hw & Hid).
      discriminate (Hres w Hw Hid).
  - unfold switchWallet.
    destruct (JsMap.get walletId (wallets m)); [intros H; discriminate H|reflexivity].
  - intros w Hw Hid. unfold switchWallet. now rewrite (Hres w Hw Hid).
Qed.

Lemma acceptedWallets_slot : forall env cs w,
  In w (acceptedWallets env cs) ->
  exists c, In c cs /\ walletOfSlot env c = Some w.
Proof. intros env cs w H. now apply acceptedWallets_In. Qed.

Lemma walletOfSlot_shape : forall env c w,
  walletOfSlot env c = Some w ->
  w = mkWallet (Config.id c) (Config.name c) (Config.role c) (Config.provider c)
               (privateKey w) (publicAddress w) false (Config.name c +++ " wallet")
  /\ env (Config.env c) = Some (privateKey w)
  /\ matchesKeyPattern (privateKey w) = true
  /\ privateKeyToAccount (privateKey w) = Some (publicAddress w).
Proof.
  intros env c w. unfold walletOfSlot.
  destruct (env (Config.env c)) as [key|]; [|discriminate].
  destruct (passesValidation (Some key)) eqn:Hv; [|discriminate].
  destruct (privateKeyToAccount key) as [a|] eqn:Hd; [|discriminate].
  intros H. inversion H; subst; cbn [privateKey publicAddress].
  repeat split; try assumption.
  unfold passesValidation in Hv.
  apply andb_true_iff in Hv. tauto.
Qed.

Lemma matchesKeyPattern_length : forall pk,
  matchesKeyPattern pk = true -> String.length pk = 66 /\ String.prefix "0x" pk = true.
Proof.
  intros pk. unfold matchesKeyPattern.
  destruct pk as [|c0 [|c1 rest]];
    [intros H; discriminate H| |].
  - destruct c0 as [[] [] [] [] [] [] [] []]; intros H; discriminate H.
  - destruct c0 as [[] [] [] [] [] [] [] []]; try (intros H; discriminate H).
    destruct c1 as [[] [] [] [] [] [] [] []]; try (intros H; discriminate H).
    intros H. apply andb_true_iff in H. destruct H as [Hl _].
    apply Nat.eqb_eq in Hl. cbn [String.length]. rewrite Hl.
    split; [reflexivity|]. now destruct rest.
Qed.

(** X3.  Every wallet of a reachable registry was built from one of the
    eight slots: it carries the id, name, role and provider of the slot,
    is not flagged active, and its key is [0x] followed by 64
    hexadecimal digits, 66 characters in all, from which viem derives
    the stored address. *)
Theorem X3_registry_wallets_from_slots : forall (m : WalletConfigManager) (w : Wallet),
  reachable m ->
  In w (getAllWallets m) ->
  (exists c, In c configs
             /\ id w = Config.id c /\ name w = Config.name c
             /\ role w = Config.role c /\ provider w = Config.provider c
             /\ description w = Config.name c +++ " wallet")
  /\ isActive w = false
  /\ matchesKeyPattern (privateKey w) = true
  /\ String.length (privateKey w) = 66
  /\ privateKeyToAccount (privateKey w) = Some (publicAddress w).
Proof.
  intros m w Hr Hw. destruct (reachable_getAllWallets Hr) as [env He].
  rewrite He in Hw. apply acceptedWallets_In in Hw.
  destruct Hw as (c & Hc & Hslot).
  destruct (walletOfSlot_shape _ _ Hslot) as (Hshape & _ & Hkey & Hd).
  split; [|split; [|split; [|split]]]; try assumption.
  - exists c. split; [exact Hc|]. rewrite Hshape.
    cbn [id name role provider description]. auto.
  - now rewrite Hshape.
  - now apply matchesKeyPattern_length.
Qed.

Lemma acceptedWallets_pairs : forall env cs,
  map roleAndProvider (acceptedWallets env cs)
  = map (fun c => (Config.role c, Config.provider c)) (filter (slotAccepted env) cs).
Proof.
  intros env. induction cs as [|c cs IH]; simpl; [reflexivity|].
  rewrite <- walletOfSlot_accepted.
  destruct (walletOfSlot env c) as [w|] eqn:E; simpl.
  - destruct (walletOfSlot_fields _ _ E) as (_ & Hr & Hp & _).
    unfold roleAndProvider at 1. now rewrite Hr, Hp, IH.
  - exact IH.
Qed.

Lemma NoDup_map_filter : forall (A B : Type) (f : A -> B) (p : A -> bool) l,
  NoDup (map f l) -> NoDup (map f (filter p l)).
Proof.
  induction l as [|a l IH]; simpl; intros Hnd; [constructor|].
  inversion Hnd as [|? ? Hnotin Hnd']; subst.
  destruct (p a); simpl; [|now apply IH].
  constructor; [|now apply IH].
  intros Hin. apply Hnotin. apply in_map_iff in Hin.
  destruct Hin as [a' [Ha' Hin]]. apply filter_In in Hin.
  apply in_map_iff. exists a'. tauto.
Qed.

Lemma NoDup_map_inj : forall (A B : Type) (f : A -> B) l x y,
  NoDup (map f l) -> In x l -> In y l -> f x = f y -> x = y.
Proof.
  induction l as [|a l IH]; simpl; intros x y Hnd Hx Hy Hf; [contradiction|].
  inversion Hnd as [|? ? Hnotin Hnd']; subst.
  destruct Hx as [->|Hx], Hy as [->|Hy]; try reflexivity.
  - exfalso. apply Hnotin. rewrite Hf. now apply in_map.
  - exfalso. apply Hnotin. rewrite <- Hf. now apply in_map.
  - now apply IH.
Qed.

Lemma configs_pairs_NoDup :
  NoDup (map (fun c => (Config.role c, Config.provider c)) configs).
Proof.
  simpl. repeat constructor; simpl; intuition discriminate.
Qed.

(** X4.  No two wallets of a reachable registry share role and provider:
    [getWalletByRoleAndProvider] returns a wallet exactly when it is the
    wallet of the registry with that role and provider, not merely the
    first of several. *)
Theorem X4_role_and_provider_identify : forall (m : WalletConfigManager) (r p : string) (w : Wallet),
  reachable m ->
  (getWalletByRoleAndProvider r p m = Some w
   <-> In w (getAllWallets m) /\ role w = r /\ provider w = p)
  /\ (forall w', In w (getAllWallets m) -> In w' (getAllWallets m) ->
        role w' = role w -> provider w' = provider w -> w' = w).
Proof.
  intros m r p w Hr. destruct (reachable_getAllWallets Hr) as [env He].
  assert (Hnd : NoDup (map roleAndProvider (getAllWallets m))).
  { rewrite He, acceptedWallets_pairs.
    apply NoDup_map_filter, configs_pairs_NoDup. }
  assert (Huniq : forall a b, In a (getAllWallets m) -> In b (getAllWallets m) ->
            role b = role a -> provider b = provider a -> b = a).
  { intros a b Ha Hb Hro Hpr.
    apply (NoDup_map_inj roleAndProvider _ b a Hnd Hb Ha).
    unfold roleAndProvider. now rewrite Hro, Hpr. }
  split; [|intros w'; apply Huniq].
  unfold getWalletByRoleAndProvider. split.
  - intros Hf. apply find_some in Hf. destruct Hf as [Hin Hb].
    apply andb_true_iff in Hb. destruct Hb as [Hb1 Hb2].
    apply String.eqb_eq in Hb1, Hb2. auto.
  - intros (Hin & Hro & Hpr).
    destruct (find _ (getAllWallets m)) as [w'|] eqn:Hf.
    + apply find_some in Hf. destruct Hf as [Hin' Hb].
      apply andb_true_iff in Hb. destruct Hb as [Hb1 Hb2].
      apply String.eqb_eq in Hb1, Hb2. f_equal.
      apply Huniq; congruence.
    + exfalso. pose proof (find_none _ _ Hf w Hin) as Hn. cbv beta in Hn.
      subst r p. now rewrite !String.eqb_refl in Hn.
Qed.

End ManagerFurther.

(* ================================================================== *)
(** * The synchroniser and the running server: further properties *)

Section RunningServer.
Context {collab : Collaborators}.

Lemma reachable_current_listed : forall m w,
  reachable m -> getCurrentWallet m = Some w -> In w (getAllWallets m).
Proof.
  intros m w Hr Hcur. apply reachable_wellFormed in Hr.
  destruct (wf_current Hr Hcur) as [Hget _].
  apply JsMap_get_Some_In in Hget. now apply JsMap_In_values in Hget.
Qed.

Lemma initializeGoatTools_without_current : forall forceReinit s,
  getCurrentWallet (walletManager s) = None ->
  initializeGoatTools forceReinit s
  = (Return false, mkServer (walletManager s) None None (onChainCalls s)).
Proof.
  intros forceReinit s Hcur.
  unfold initializeGoatTools, bind, gets, setGoatTools,
    setGoatToolsLastWalletId, modify, ret.
  now rewrite Hcur.
Qed.

(** What any call of [initializeGoatTools] leaves, in a reachable
    manager. *)
Lemma initializeGoatTools_outcome : forall forceReinit s,
  reachable (walletManager s) ->
  exists ok s',
    initializeGoatTools forceReinit s = (Return ok, s')
    /\ walletManager s' = walletManager s
    /\ ok = isSome (goatTools s')
    /\ bindingConsistent s'
    /\ (onChainCalls s' = onChainCalls s
        \/ exists w, getCurrentWallet (walletManager s) = Some w
                     /\ onChainCalls s' = onChainCalls s ++ [clientOf w]).
Proof.
  intros forceReinit s Hr.
  destruct (getCurrentWallet (walletManager s)) as [w|] eqn:Hcur.
  - pose proof (reachable_current_derivable Hr Hcur) as Hd.
    rewrite (initializeGoatTools_unfold forceReinit s Hcur Hd).
    destruct (alreadyBound forceReinit w s) eqn:Hb.
    + exists true, s. unfold alreadyBound in Hb.
      apply andb_true_iff in Hb. destruct Hb as [Hb Hid].
      apply andb_true_iff in Hb. destruct Hb as [_ Htools].
      apply sameId_true in Hid. unfold bindingConsistent.
      destruct (goatTools s); [|discriminate Htools].
      repeat split; auto. now exists w.
    + destruct (rebuildFor_spec w s) as (ok & s' & H1 & H2 & H3 & H4).
      exists ok, s'. rewrite H1. split; [reflexivity|]. split; [exact H3|].
      assert (Hcur' : getCurrentWallet (walletManager s') = Some w)
        by now rewrite H3.
      unfold bindingConsistent.
      destruct (getOnChainTools (onChainCalls s) (clientOf w)) as [built|e].
      * destruct (registerGoatTools _ built);
          destruct H4 as (-> & -> & Hl); rewrite Hl;
          (split; [reflexivity|]); (split; [|right; now exists w]);
          [now exists w|reflexivity].
      * destruct H4 as (-> & -> & Hl). rewrite Hl.
        split; [reflexivity|]. split; [reflexivity|right; now exists w].
  - rewrite (initializeGoatTools_without_current forceReinit s Hcur).
    eexists; eexists; split; [reflexivity|].
    unfold bindingConsistent. cbn. auto.
Qed.

(** X5.  In a reachable manager [initializeGoatTools] always returns:
    its answer is [true] exactly when a tool set is bound afterwards, a
    tool set bound afterwards is bound to the current wallet, no wallet
    id stays recorded without a tool set, the wallet manager is
    untouched, and the GOAT SDK is called at most once, for the current
    wallet. *)
Theorem X5_initializeGoatTools_binds_current :
  forall (forceReinit : bool) (s : Server),
    reachable (walletManager s) ->
    exists ok s',
      initializeGoatTools forceReinit s = (Return ok, s')
      /\ walletManager s' = walletManager s
      /\ (ok = true <-> goatTools s' <> None)
      /\ (forall t, goatTools s' = Some t ->
            exists w, getCurrentWallet (walletManager s') = Some w
                      /\ goatToolsLastWalletId s' = Some (id w))
      /\ (goatTools s' = None -> goatToolsLastWalletId s' = None)
      /\ (onChainCalls s' = onChainCalls s
          \/ exists w, getCurrentWallet (walletManager s) = Some w
                       /\ onChainCalls s' = onChainCalls s ++ [clientOf w]).
Proof.
  intros forceReinit s Hr.
  destruct (initializeGoatTools_outcome forceReinit s Hr)
    as (ok & s' & H1 & H2 & H3 & H4 & H5).
  exists ok, s'. unfold bindingConsistent in H4.
  split; [exact H1|]. split; [exact H2|].
  destruct (goatTools s') as [t|]; cbn [isSome] in H3; subst ok.
  - split; [split; congruence|]. split; [intros t' _; exact H4|].
    split; [intros H; discriminate H|exact H5].
  - split; [split; [intros H; discriminate H|congruence]|].
    split; [intros t' H; discriminate H|]. split; [intros _; exact H4|exact H5].
Qed.

(** What [ensureGoatToolsForCurrentWallet] leaves, in a reachable
    manager. *)
Lemma ensureGoatTools_outcome : forall s,
  reachable (walletManager s) ->
  exists ok s',
    ensureGoatToolsForCurrentWallet s = (Return ok, s')
    /\ walletManager s' = walletManager s
    /\ (getCurrentWallet (walletManager s) = None -> ok = false /\ s' = s)
    /\ (getCurrentWallet (walletManager s) <> None ->
        ok = isSome (goatTools s') /\ bindingConsistent s')
    /\ (onChainCalls s' = onChainCalls s
        \/ exists w, getCurrentWallet (walletManager s) = Some w
                     /\ onChainCalls s' = onChainCalls s ++ [clientOf w]).
Proof.
  intros s Hr.
  destruct (getCurrentWallet (walletManager s)) as [w|] eqn:Hcur.
  - pose proof (reachable_current_derivable Hr Hcur) as Hd.
    rewrite (ensureGoatTools_unfold s Hcur Hd).
    destruct (isSome (goatTools s) && sameId (goatToolsLastWalletId s) (id w))
      eqn:Hb.
    + exists true, s. apply andb_true_iff in Hb. destruct Hb as [Htools Hid].
      apply sameId_true in Hid. unfold bindingConsistent.
      destruct (goatTools s); [|discriminate Htools].
      repeat split; auto; try congruence. now exists w.
    + pose proof (initializeGoatTools_unfold true s Hcur Hd) as Hinit.
      cbn [alreadyBound negb andb] in Hinit. rewrite <- Hinit.
      destruct (initializeGoatTools_outcome true s Hr)
        as (ok & s' & H1 & H2 & H3 & H4 & H5).
      rewrite Hcur in H5.
      exists ok, s'. rewrite H1. repeat split; auto; congruence.
  - exists false, s. unfold ensureGoatToolsForCurrentWallet, bind, gets, ret.
    rewrite Hcur. repeat split; auto; congruence.
Qed.

(** X6.  [ensureGoatToolsForCurrentWallet] in a reachable manager.
    Without a current wallet it answers [false] and touches nothing: a
    stale binding stays, where [initializeGoatTools] would drop it.  With
    a current wallet it answers [true] exactly when a tool set is bound
    afterwards, that tool set is bound to the current wallet, the GOAT
    SDK is called at most once, and a call that answered [true] makes
    the next call answer [true] without a change of state. *)
Theorem X6_ensureGoatTools_binds_current : forall s : Server,
  reachable (walletManager s) ->
  (getCurrentWallet (walletManager s) = None ->
   ensureGoatToolsForCurrentWallet s = (Return false, s))
  /\ (forall w, getCurrentWallet (walletManager s) = Some w ->
      exists ok s',
        ensureGoatToolsForCurrentWallet s = (Return ok, s')
        /\ walletManager s' = walletManager s
        /\ (ok = true <-> goatTools s' <> None)
        /\ (goatTools s' <> None -> goatToolsLastWalletId s' = Some (id w))
        /\ (goatTools s' = None -> goatToolsLastWalletId s' = None)
        /\ length (onChainCalls s') <= S (length (onChainCalls s))
        /\ (ok = true ->
            ensureGoatToolsForCurrentWallet s' = (Return true, s'))).
Proof.
  intros s Hr.
  destruct (ensureGoatTools_outcome s Hr)
    as (ok & s' & H1 & H2 & H3 & H4 & H5).
  split.
  - intros Hcur. destruct (H3 Hcur) as [-> ->]. exact H1.
  - intros w Hcur. exists ok, s'.
    destruct H4 as [Hok Hb]; [congruence|]. unfold bindingConsistent in Hb.
    assert (Hcur' : getCurrentWallet (walletManager s') = Some w)
      by now rewrite H2.
    assert (Hr' : reachable (walletManager s')) by now rewrite H2.
    pose proof (reachable_current_derivable Hr' Hcur') as Hd.
    split; [exact H1|]. split; [exact H2|].
    assert (Hlen : length (onChainCalls s') <= S (length (onChainCalls s))).
    { destruct H5 as [->|(w' & _ & ->)]; [lia|].
      rewrite length_app. simpl. lia. }
    destruct (goatTools s') as [t|] eqn:Ht; cbn [isSome] in Hok; subst ok.
    + destruct Hb as (w' & Hw' & Hl). rewrite Hcur' in Hw'.
      inversion Hw'; subst w'.
      repeat split; auto; try congruence.
      intros _. rewrite (ensureGoatTools_unfold s' Hcur' Hd), Ht, Hl.
      cbn [isSome sameId andb]. now rewrite String.eqb_refl.
    + repeat split; auto; try congruence; intros H; discriminate H.
Qed.

Lemma switch_to_without_target : forall s roleName instruction providerArg,
  switchTarget roleName (requestedProvider providerArg) (walletManager s) = None ->
  switch_to roleName instruction providerArg s
  = (Return (TextJson (switchErrorPayload roleName instruction (walletManager s))), s).
Proof.
  intros s roleName instruction providerArg Ht.
  unfold switch_to, tryCatch, bind, gets, ret.
  fold (requestedProvider providerArg). now rewrite Ht.
Qed.

Lemma healthy_calls_step : forall s s',
  reachable (walletManager s) -> callsForRegistry s ->
  walletManager s' = walletManager s
  \/ wallets (walletManager s') = wallets (walletManager s) ->
  (onChainCalls s' = onChainCalls s
   \/ exists w, In w (getAllWallets (walletManager s))
                /\ onChainCalls s' = onChainCalls s ++ [clientOf w]) ->
  callsForRegistry s'.
Proof.
  intros s s' Hr Hc Hwm Hcalls c Hin.
  assert (Hall : getAllWallets (walletManager s') = getAllWallets (walletManager s)).
  { unfold getAllWallets. destruct Hwm as [->| ->]; reflexivity. }
  rewrite Hall.
  destruct Hcalls as [Heq|(w & Hw & Heq)]; rewrite Heq in Hin.
  - now apply Hc.
  - apply in_app_or in Hin. destruct Hin as [Hin|[<-|[]]].
    + now apply Hc.
    + now exists w.
Qed.

Lemma healthy_switch_to : forall s roleName instruction providerArg,
  healthy s -> healthy (snd (switch_to roleName instruction providerArg s)).
Proof.
  intros s roleName instruction providerArg (Hr & Hb & Hc).
  destruct (switchTarget roleName (requestedProvider providerArg) (walletManager s))
    as [target|] eqn:Ht.
  - destruct (switch_to_commits s roleName instruction providerArg Hr Ht)
      as (Hsw & ok & s' & Hinit & Hh & Hwm & Hcalls).
    rewrite Hh. cbn [snd].
    assert (Hr' : reachable (walletManager (committed target s))).
    { replace (walletManager (committed target s))
        with (snd (switchWallet (id target) (walletManager s)))
        by now rewrite Hsw.
      now apply reach_switch. }
    destruct (initializeGoatTools_outcome true (committed target s) Hr')
      as (ok' & s'' & H1 & _ & _ & H4 & _).
    rewrite Hinit in H1. inversion H1; subst ok' s''.
    split; [now rewrite Hwm|]. split; [exact H4|].
    apply (@healthy_calls_step s s' Hr Hc).
    + right. now rewrite Hwm.
    + right. exists target. split; [|exact Hcalls].
      now apply (switchTarget_listed _ _ _ Ht).
  - rewrite (switch_to_without_target s roleName instruction providerArg Ht).
    cbn [snd]. now repeat split.
Qed.

Lemma healthy_ensure : forall s,
  healthy s -> healthy (snd (ensureGoatToolsForCurrentWallet s)).
Proof.
  intros s (Hr & Hb & Hc).
  destruct (ensureGoatTools_outcome s Hr) as (ok & s' & H1 & H2 & H3 & H4 & H5).
  rewrite H1. cbn [snd]. split; [now rewrite H2|]. split.
  - destruct (getCurrentWallet (walletManager s)) eqn:Hcur.
    + apply H4. congruence.
    + destruct (H3 eq_refl) as [_ ->]. exact Hb.
  - apply (@healthy_calls_step s s' Hr Hc); [now left|].
    destruct H5 as [H5|(w & Hw & H5)]; [now left|right].
    exists w. split; [|exact H5]. now apply reachable_current_listed.
Qed.

Lemma healthy_serve : forall r s, healthy s -> healthy (snd (serve r s)).
Proof.
  intros [p|p| |op args] s Hs; cbn [serve].
  - now apply healthy_switch_to.
  - now apply healthy_switch_to.
  - exact Hs.
  - destruct (handle_state op args s (proj1 Hs)) as [-> | ->];
      [exact Hs|now apply healthy_ensure].
Qed.

Lemma healthy_start : forall env, healthy (snd (runServerInit env)).
Proof.
  intros env. unfold runServerInit.
  assert (Hr : reachable (walletManager (startServer env)))
    by exact (reach_load env).
  destruct (initializeGoatTools_outcome false (startServer env) Hr)
    as (ok & s' & H1 & H2 & _ & H4 & H5).
  rewrite H1. cbn [snd]. split; [now rewrite H2|]. split; [exact H4|].
  apply (@healthy_calls_step (startServer env) s' Hr).
  - intros c [].
  - now left.
  - destruct H5 as [H5|(w & Hw & H5)]; [now left|right].
    exists w. split; [|exact H5]. now apply reachable_current_listed.
Qed.

(** X7.  Whatever requests a server has served since [runServer], its
    wallet manager is in a reachable state, its tool set, when it has
    one, is bound to the wallet that is current (and no wallet id is
    recorded when it has none), and every call it made to the GOAT SDK
    was made with the key of a wallet of the registry. *)
Theorem X7_running_server_invariant : forall s : Server,
  running s ->
  reachable (walletManager s)
  /\ (forall t, goatTools s = Some t ->
        exists w, getCurrentWallet (walletManager s) = Some w
                  /\ goatToolsLastWalletId s = Some (id w))
  /\ (goatTools s = None -> goatToolsLastWalletId s = None)
  /\ (forall c, In c (onChainCalls s) ->
        exists w, In w (getAllWallets (walletManager s))
                  /\ accountKey c = privateKey w
                  /\ accountAddress c = publicAddress w).
Proof.
  intros s Hrun.
  assert (Hs : healthy s).
  { induction Hrun; [apply healthy_start|now apply healthy_serve]. }
  destruct Hs as (Hr & Hb & Hc). unfold bindingConsistent in Hb.
  split; [exact Hr|].
  split; [|split].
  - intros t Ht. now rewrite Ht in Hb.
  - intros Ht. now rewrite Ht in Hb.
  - intros c Hin. destruct (Hc c Hin) as (w & Hw & ->). now exists w.
Qed.

End RunningServer.

(* ================================================================== *)
(** * [list_wallets], [ensurePrivateKey] and the empty configuration *)

Section ListingAndKeys.
Context {collab : Collaborators}.

Lemma NoDup_map_NoDup : forall (A B : Type) (f : A -> B) l,
  NoDup (map f l) -> NoDup l.
Proof.
  induction l as [|a l IH]; simpl; intros H; [constructor|].
  inversion H as [|? ? Hnotin Hnd]; subst. constructor; [|now apply IH].
  intros Hin. apply Hnotin. now apply in_map.
Qed.

Lemma filter_own_id : forall (l : list Wallet) w,
  NoDup (map id l) -> In w l ->
  filter (fun x => String.eqb (id w) (id x)) l = [w].
Proof.
  induction l as [|a l IH]; simpl; intros w Hnd Hin; [contradiction|].
  inversion Hnd as [|? ? Hnotin Hnd']; subst.
  destruct Hin as [->|Hin].
  - rewrite String.eqb_refl. f_equal. apply filter_absent.
    intros y Hy. apply String.eqb_neq. intros Heq. apply Hnotin.
    rewrite Heq. now apply in_map.
  - destruct (String.eqb (id w) (id a)) eqn:E.
    + apply String.eqb_eq in E. exfalso. apply Hnotin. rewrite <- E.
      now apply in_map.
    + now apply IH.
Qed.

Lemma reachable_ids_NoDup : forall m,
  reachable m -> NoDup (map id (getAllWallets m)).
Proof.
  intros m Hr. apply reachable_wellFormed in Hr.
  rewrite <- wellFormed_keys_ids by assumption. apply (wf_keys Hr).
Qed.

Lemma configs_providers : forall c, In c configs ->
  Config.provider c = "metamask" \/ Config.provider c = "crossmint"
  \/ Config.provider c = "civic"
  \/ (Config.provider c = "legacy" /\ Config.role c = "legacy").
Proof.
  intros c H. simpl in H.
  repeat (destruct H as [<-|H]; [cbn; tauto|]). contradiction.
Qed.

Lemma reachable_providers : forall m w,
  reachable m -> In w (getAllWallets m) ->
  provider w = "metamask" \/ provider w = "crossmint" \/ provider w = "civic"
  \/ (provider w = "legacy" /\ role w = "legacy").
Proof.
  intros m w Hr Hw. destruct (reachable_getAllWallets Hr) as [env He].
  rewrite He in Hw. apply acceptedWallets_In in Hw.
  destruct Hw as (c & Hc & Hslot).
  destruct (walletOfSlot_fields _ _ Hslot) as (_ & -> & -> & _).
  now apply configs_providers.
Qed.

Lemma providerCount_partition : forall ws : list Wallet,
  (forall w, In w ws ->
     provider w = "metamask" \/ provider w = "crossmint" \/ provider w = "civic"
     \/ provider w = "legacy") ->
  providerCount "metamask" ws + providerCount "crossmint" ws
  + providerCount "civic" ws + providerCount "legacy" ws = length ws.
Proof.
  unfold providerCount.
  induction ws as [|w ws IH]; intros H; [reflexivity|].
  assert (IH' := IH (fun x Hx => H x (or_intror Hx))).
  cbn [filter length].
  destruct (H w (or_introl eq_refl)) as [E|[E|[E|E]]]; rewrite E;
    cbn [String.eqb Ascii.eqb Bool.eqb andb length]; cbn; lia.
Qed.

Lemma length_le_1_of_all_equal : forall (A : Type) (l : list A),
  NoDup l -> (forall x y, In x l -> In y l -> x = y) -> length l <= 1.
Proof.
  intros A [|a [|b l]] Hnd Heq; simpl; try lia.
  exfalso. inversion Hnd as [|? ? Hnotin _]; subst. apply Hnotin.
  rewrite (Heq a b); simpl; auto.
Qed.

(** X8.  [list_wallets] in a reachable state answers with its payload
    and leaves the state alone.  In that payload exactly the current
    wallet is flagged active (no wallet when none is current),
    [currentWallet] is null exactly when no wallet is current, and the
    three provider counts add up to the total less the legacy wallet,
    of which there is at most one: [byProvider] does not count it. *)
Theorem X8_list_wallets_payload : forall s : Server,
  let m := walletManager s in
  let ws := getAllWallets m in
  reachable m ->
  list_wallets s = (Return (TextJson (listWalletsPayload m)), s)
  /\ filter (activeFlag (getCurrentWallet m)) ws
     = match getCurrentWallet m with Some w => [w] | None => [] end
  /\ (currentIdOrNull (getCurrentWallet m) = JNull <-> getCurrentWallet m = None)
  /\ providerCount "metamask" ws + providerCount "crossmint" ws
     + providerCount "civic" ws + providerCount "legacy" ws = length ws
  /\ providerCount "legacy" ws <= 1
  /\ listWalletsPayload m
     = JObj [("total", JNum (length ws));
             ("currentWallet",
              match getCurrentWallet m with
              | Some c => JStr (id c)
              | None => JNull
              end);
             ("wallets",
              JArr (map (fun w =>
                           JObj [("id", JStr (id w)); ("name", JStr (name w));
                                 ("role", JStr (role w));
                                 ("provider", JStr (provider w));
                                 ("address", JStr (publicAddress w));
                                 ("isActive",
                                  JBool match getCurrentWallet m with
                                        | Some c => String.eqb (id c) (id w)
                                        | None => false
                                        end)])
                        ws));
             ("byProvider",
              JObj [("metamask",
                     JNum (length (filter (fun w => String.eqb (provider w) "metamask")
                                          ws)));
                    ("crossmint",
                     JNum (length (filter (fun w => String.eqb (provider w) "crossmint")
                                          ws)));
                    ("civic",
                     JNum (length (filter (fun w => String.eqb (provider w) "civic")
                                          ws)))])].
Proof.
  intros s m ws Hr. pose proof (reachable_wellFormed Hr) as Hwf.
  pose proof (reachable_ids_NoDup Hr) as Hnd. fold ws in Hnd.
  split; [reflexivity|]. split; [|split; [|split; [|split]]]; cycle 4.
  { unfold listWalletsPayload. fold m. fold ws.
    destruct (getCurrentWallet m) as [c|] eqn:Hcur; [|reflexivity].
    destruct (wf_current Hwf Hcur) as [Hget _].
    apply JsMap_get_Some_In in Hget. apply (wf_entries Hwf) in Hget.
    destruct Hget as (_ & Hne & _). apply String.eqb_neq in Hne.
    cbn [currentIdOrNull]. rewrite Hne. reflexivity. }
  - destruct (getCurrentWallet m) as [w|] eqn:Hcur.
    + unfold activeFlag. cbn [option_map sameId].
      apply filter_own_id; [exact Hnd|].
      now apply (reachable_current_listed Hr).
    + apply filter_absent. reflexivity.
  - destruct (getCurrentWallet m) as [w|] eqn:Hcur; cbn [currentIdOrNull].
    + destruct (wf_current Hwf Hcur) as [Hget _].
      apply JsMap_get_Some_In in Hget. apply (wf_entries Hwf) in Hget.
      destruct Hget as (_ & Hne & _). apply String.eqb_neq in Hne.
      rewrite Hne. split; intros H; discriminate H.
    + tauto.
  - apply providerCount_partition. intros w Hw.
    destruct (reachable_providers w Hr Hw) as [H|[H|[H|[H _]]]]; auto.
  - unfold providerCount. apply length_le_1_of_all_equal.
    + apply NoDup_filter. now apply (NoDup_map_NoDup id).
    + intros x y Hx Hy. apply filter_In in Hx, Hy.
      destruct Hx as [Hx Hxp], Hy as [Hy Hyp].
      apply String.eqb_eq in Hxp, Hyp.
      assert (Hxr : role x = "legacy").
      { destruct (reachable_providers x Hr Hx) as [H|[H|[H|[_ H]]]];
          try (rewrite Hxp in H; discriminate H). exact H. }
      assert (Hyr : role y = "legacy").
      { destruct (reachable_providers y Hr Hy) as [H|[H|[H|[_ H]]]];
          try (rewrite Hyp in H; discriminate H). exact H. }
      destruct (reachable_getAllWallets Hr) as [env He].
      apply (NoDup_map_inj roleAndProvider ws x y); try assumption.
      * unfold ws. rewrite He, acceptedWallets_pairs.
        apply NoDup_map_filter, configs_pairs_NoDup.
      * unfold roleAndProvider. congruence.
Qed.

Lemma prefix_0x : forall pk,
  String.prefix "0x" pk = true <-> exists rest, pk = String "0" (String "x" rest).
Proof.
  intros pk. split.
  - destruct pk as [|c0 [|c1 rest]]; cbn -[ascii_dec].
    + intros H; discriminate H.
    + destruct (ascii_dec "0" c0); intros H; discriminate H.
    + destruct (ascii_dec "0" c0) as [<-|]; [|intros H; discriminate H].
      destruct (ascii_dec "x" c1) as [<-|]; [|intros H; discriminate H].
      intros _. now exists rest.
  - intros [rest ->]. cbn. now destruct rest.
Qed.

(** X9.  [ensurePrivateKey] returns a key that starts with [0x], leaves
    such a key as it is (so applying it twice is applying it once), and
    its result has the form [loadWallets] accepts exactly when the
    argument has it already or is 64 hexadecimal digits without the
    prefix. *)
Theorem X9_ensurePrivateKey_prefixes : forall pk : string,
  String.prefix "0x" (ensurePrivateKey pk) = true
  /\ ensurePrivateKey (ensurePrivateKey pk) = ensurePrivateKey pk
  /\ (String.prefix "0x" pk = true -> ensurePrivateKey pk = pk)
  /\ (matchesKeyPattern (ensurePrivateKey pk) = true
      <-> matchesKeyPattern pk = true
          \/ (String.length pk = 64 /\ allHex pk = true)).
Proof.
  intros pk.
  assert (Hpre : String.prefix "0x" (ensurePrivateKey pk) = true).
  { unfold ensurePrivateKey. destruct (String.prefix "0x" pk) eqn:E; [exact E|].
    apply prefix_0x. now exists pk. }
  split; [exact Hpre|]. split; [|split].
  - unfold ensurePrivateKey at 1. now rewrite Hpre.
  - intros H. unfold ensurePrivateKey. now rewrite H.
  - unfold ensurePrivateKey. destruct (String.prefix "0x" pk) eqn:E.
    + split; [now left|]. intros [H|[Hlen Hhex]]; [exact H|].
      apply prefix_0x in E. destruct E as [rest ->].
      cbn in Hhex. discriminate Hhex.
    + change ("0x" +++ pk) with (String "0" (String "x" pk)).
      cbn [matchesKeyPattern]. rewrite andb_true_iff, Nat.eqb_eq.
      split; [now right|]. intros [H|H]; [|exact H].
      apply matchesKeyPattern_length in H. destruct H as [_ H].
      rewrite H in E. discriminate E.
Qed.

Lemma no_slot_accepted_manager : forall env : Env,
  (forall c, In c configs -> slotAccepted env c = false) ->
  getInstance env = mkManager [] None None.
Proof.
  intros env H.
  assert (Hall : acceptedWallets env configs = []).
  { apply (map_eq_nil id). rewrite acceptedWallets_ids.
    now rewrite (filter_absent _ _ H). }
  pose proof (wallets_getInstance env) as Hw. rewrite Hall in Hw. cbn in Hw.
  pose proof (wellFormed_getInstance env) as Hwf.
  destruct (getInstance env) as [ws cur last]. cbn in Hw. subst ws.
  destruct cur as [w|].
  - destruct (wf_current Hwf (w := w) eq_refl) as [Hget _]. discriminate Hget.
  - pose proof (wf_unset Hwf eq_refl) as Hl. cbn in Hl. now subst last.
Qed.

(** X10.  When no slot of the configuration is accepted, the server
    starts without a wallet and without a call to the GOAT SDK, and
    stays as it started whatever is asked of it: every wallet-gated
    tool answers with its no-wallet payload, a switch answers that no
    wallet of the role was found and lists none, and [list_wallets]
    reports a total of zero. *)
Theorem X10_empty_configuration : forall env : Env,
  (forall c, In c configs -> slotAccepted env c = false) ->
  let s0 := mkServer (mkManager [] None None) None None [] in
  runServerInit env = (Return false, s0)
  /\ (forall op args,
        serve (Call op args) s0 = (Return (TextJson (noWalletPayload op)), s0))
  /\ (forall p,
        serve (SwitchToSeller p) s0
        = (Return (TextJson
                     (JObj [("error", JStr "No seller wallet found");
                            ("availableWallets", JArr []);
                            ("instruction",
                             JStr "Set seller wallet environment variables (CAT_MM_SELLER_WALLET_PRIVATE_KEY, CM_SELLER_WALLET_PRIVATE_KEY, or CVC_SELLER_WALLET_PRIVATE_KEY)")])),
           s0))
  /\ (forall p,
        serve (SwitchToBuyer p) s0
        = (Return (TextJson
                     (JObj [("error", JStr "No buyer wallet found");
                            ("availableWallets", JArr []);
                            ("instruction",
                             JStr "Set buyer wallet environment variables (CAT_MM_BUYER_WALLET_PRIVATE_KEY, CM_BUYER_WALLET_PRIVATE_KEY, or CVC_BUYER_WALLET_PRIVATE_KEY)")])),
           s0))
  /\ serve ListWallets s0
     = (Return (TextJson
                  (JObj [("total", JNum 0); ("currentWallet", JNull);
                         ("wallets", JArr []);
                         ("byProvider",
                          JObj [("metamask", JNum 0); ("crossmint", JNum 0);
                                ("civic", JNum 0)])])),
        s0).
Proof.
  intros env H s0.
  split; [|split; [|split; [|split]]].
  - unfold runServerInit, startServer.
    now rewrite (no_slot_accepted_manager env H).
  - intros op args. now destruct op.
  - intros [[]|]; reflexivity.
  - intros [[]|]; reflexivity.
  - reflexivity.
Qed.

End ListingAndKeys.

(* ================================================================== *)
(** * The transaction tools: properties *)

Section TransactionProperties.
Context {collab : Collaborators} {chain : ChainClient}.

Lemma liftM_restoreIfNoCurrent : forall w,
  reachable (walletManager (server w)) ->
  liftM restoreIfNoCurrent w = (Return tt, w).
Proof.
  intros w Hr. unfold liftM.
  rewrite restoreIfNoCurrent_afterRestore, (reachable_afterRestore _ Hr).
  now destruct w.
Qed.

Lemma liftM_createDynamicWalletClient : forall w cw,
  reachable (walletManager (server w)) ->
  getCurrentWallet (walletManager (server w)) = Some cw ->
  liftM createDynamicWalletClient w = (Return (clientOf cw), w).
Proof.
  intros w cw Hr Hcur. unfold liftM, createDynamicWalletClient, bind, gets, ret.
  rewrite Hcur, (reachable_current_derivable Hr Hcur). now destruct w.
Qed.

(** The shared frame, for a reachable manager. *)
Lemma transactionTool_unfold :
  forall (A : Type) op network (plan : Wallet -> Outcome (ChainRequest * A))
         payload w,
    reachable (walletManager (server w)) ->
    transactionTool op network plan payload w
    = match getCurrentWallet (walletManager (server w)) with
      | None => (Return (TextJson (noWalletPayload op)), w)
      | Some cw =>
          let '(resp, w') := transactionOutcome op network plan payload cw w in
          (Return resp, w')
      end.
Proof.
  intros A op network plan payload w Hr.
  unfold transactionTool, tryCatchW.
  unfold bindW at 1. rewrite (liftM_restoreIfNoCurrent w Hr).
  unfold bindW at 1. unfold liftM at 1, gets.
  replace (mkWorld (server w) (submitted w)) with w by now destruct w.
  destruct (getCurrentWallet (walletManager (server w))) as [cw|] eqn:Hcur;
    [|reflexivity].
  unfold transactionOutcome.
  destruct (ensureGoatTools_outcome (server w) Hr)
    as (ok & s1 & He & Hwm & _).
  assert (Hgate : forall e : bool,
            (if e
             then bindW (liftM ensureGoatToolsForCurrentWallet) (fun _ => retW tt)
             else retW tt) w
            = (Return tt,
               mkWorld (if e then snd (ensureGoatToolsForCurrentWallet (server w))
                        else server w) (submitted w))).
  { intros [|].
    - unfold bindW, liftM, retW. now rewrite He.
    - unfold retW. now destruct w. }
  unfold bindW at 1. rewrite Hgate.
  set (s2 := if ensuresGoatTools op
             then snd (ensureGoatToolsForCurrentWallet (server w))
             else server w).
  assert (Hwm2 : walletManager s2 = walletManager (server w)).
  { unfold s2. destruct (ensuresGoatTools op); [|reflexivity].
    rewrite He. exact Hwm. }
  unfold bindW at 1.
  rewrite (@liftM_createDynamicWalletClient (mkWorld s2 (submitted w)) cw);
    cbn [server]; try (rewrite Hwm2; assumption).
  unfold bindW at 1, liftOutcomeW.
  destruct (plan cw) as [[req a]|e]; [|reflexivity].
  unfold bindW at 1, awaitSubmit. cbn [fst snd server submitted].
  destruct (submit (mkSubmission (clientOf cw) network req)) as [hash|e];
    [|reflexivity].
  unfold bindW, retW.
  destruct (waitForTransactionReceipt network hash); reflexivity.
Qed.

(** With a current wallet and parameters that give a request, the frame
    hands over exactly that request. *)
Lemma transactionTool_submits :
  forall (A : Type) op network (plan : Wallet -> Outcome (ChainRequest * A))
         payload w,
    reachable (walletManager (server w)) ->
    exists resp w',
      transactionTool op network plan payload w = (Return resp, w')
      /\ (forall cw req a,
            getCurrentWallet (walletManager (server w)) = Some cw ->
            plan cw = Return (req, a) ->
            submitted w' = submitted w ++ [mkSubmission (clientOf cw) network req]).
Proof.
  intros A op network plan payload w Hr.
  rewrite (transactionTool_unfold op network plan payload w Hr).
  destruct (getCurrentWallet (walletManager (server w))) as [cw|] eqn:Hcur.
  - destruct (transactionOutcome op network plan payload cw w) as [resp w'] eqn:Ho.
    exists resp, w'. split; [reflexivity|].
    intros cw' req a Hcw Hplan. inversion Hcw; subst cw'.
    unfold transactionOutcome in Ho. rewrite Hplan in Ho.
    destruct (submit _) as [hash|e];
      [destruct (waitForTransactionReceipt network hash)|];
      inversion Ho; subst; reflexivity.
  - eexists; eexists; split; [reflexivity|]. intros; discriminate.
Qed.

(** X11.  The frame of the five transaction tools, in a reachable
    manager.  The handler always answers.  Without a current wallet it
    answers with the no-wallet payload and the world is untouched.  With
    a current wallet it hands a request to the wallet client exactly
    when the parameters give one, exactly once, signed with the key of
    the current wallet; when the parameters are rejected nothing is
    handed over and the answer is the error response.  The wallet
    manager stays as it was. *)
Theorem X11_transaction_frame :
  forall (A : Type) (op : Operation) (network : Network)
         (plan : Wallet -> Outcome (ChainRequest * A))
         (payload : Wallet -> A -> string -> Receipt -> Json) (w : World),
    reachable (walletManager (server w)) ->
    exists resp w',
      transactionTool op network plan payload w = (Return resp, w')
      /\ walletManager (server w') = walletManager (server w)
      /\ (getCurrentWallet (walletManager (server w)) = None ->
          resp = TextJson (noWalletPayload op) /\ w' = w)
      /\ (forall cw e,
            getCurrentWallet (walletManager (server w)) = Some cw ->
            plan cw = Throw e ->
            resp = errorResponse op e /\ submitted w' = submitted w)
      /\ (forall cw req a,
            getCurrentWallet (walletManager (server w)) = Some cw ->
            plan cw = Return (req, a) ->
            submitted w' = submitted w ++ [mkSubmission (clientOf cw) network req]
            /\ accountKey (signer (mkSubmission (clientOf cw) network req))
               = privateKey cw
            /\ (resp = match submit (mkSubmission (clientOf cw) network req) with
                       | Throw e => errorResponse op e
                       | Return hash =>
                           match waitForTransactionReceipt network hash with
                           | Throw e => errorResponse op e
                           | Return r => TextJson (payload cw a hash r)
                           end
                       end)).
Proof.
  intros A op network plan payload w Hr.
  rewrite (transactionTool_unfold op network plan payload w Hr).
  destruct (getCurrentWallet (walletManager (server w))) as [cw|] eqn:Hcur.
  - destruct (transactionOutcome op network plan payload cw w) as [resp w'] eqn:Ho.
    exists resp, w'. split; [reflexivity|].
    unfold transactionOutcome in Ho.
    destruct (ensureGoatTools_outcome (server w) Hr)
      as (ok & s1 & He & Hwm & _).
    assert (Hwm2 : walletManager
                     (if ensuresGoatTools op
                      then snd (ensureGoatToolsForCurrentWallet (server w))
                      else server w) = walletManager (server w)).
    { destruct (ensuresGoatTools op); [|reflexivity]. rewrite He. exact Hwm. }
    split; [|split; [|split]].
    + destruct (plan cw) as [[req a]|e].
      * destruct (submit _) as [hash|e];
          [destruct (waitForTransactionReceipt network hash)|];
          inversion Ho; subst; exact Hwm2.
      * inversion Ho; subst; exact Hwm2.
    + intros H; discriminate H.
    + intros cw' e Hcw Hplan. inversion Hcw; subst cw'.
      rewrite Hplan in Ho. inversion Ho; subst. auto.
    + intros cw' req a Hcw Hplan. inversion Hcw; subst cw'.
      rewrite Hplan in Ho.
      destruct (submit _) as [hash|e];
        [destruct (waitForTransactionReceipt network hash)|];
        inversion Ho; subst; auto.
  - exists (TextJson (noWalletPayload op)), w.
    split; [reflexivity|]. split; [reflexivity|].
    split; [auto|]. split; intros; discriminate.
Qed.

Lemma andThen_Return : forall (A B : Type) (o : Outcome A) (k : A -> Outcome B) b,
  andThen o k = Return b -> exists a, o = Return a /\ k a = Return b.
Proof.
  intros A B [a|e] k b H; cbn in H; [now exists a|discriminate H].
Qed.

Lemma ensureAddress_Return : forall x y,
  ensureAddress x = Return y -> y = x /\ String.prefix "0x" x = true.
Proof.
  intros x y. unfold ensureAddress.
  destruct (String.prefix "0x" x); intros H; inversion H; auto.
Qed.

Lemma gasOf_Return : forall g gas,
  gasOf g = Return gas ->
  (truthy g = false /\ gas = None)
  \/ (truthy g = true /\ exists n, bigInt (textOf g) = Return n /\ gas = Some n).
Proof.
  intros g gas. unfold gasOf. destruct (truthy g).
  - intros H. apply andThen_Return in H. destruct H as (n & Hn & H).
    inversion H; subst. right. split; [reflexivity|]. now exists n.
  - intros H. inversion H. now left.
Qed.

(** Peels the calls of a plan that returned, first to last. *)
Ltac peel H :=
  repeat match type of H with
         | andThen (ensureAddress _) _ = Return _ =>
             let a := fresh "a" in
             let Ha := fresh "Ha" in
             apply andThen_Return in H; destruct H as (a & Ha & H);
             apply ensureAddress_Return in Ha; destruct Ha as [-> Ha]
         | andThen _ _ = Return _ =>
             let a := fresh "v" in
             let Ha := fresh "Hv" in
             apply andThen_Return in H; destruct H as (a & Ha & H)
         end.

(** X12.  The parameters of [mint_nft_advanced].  With the standard
    ERC-721 (the default) a token URI or a token id is required, with
    ERC-721A a quantity or a token URI, with ERC-6960 all of main id, sub
    id and amount; an empty string counts as absent, and without them
    the handler throws before anything is sent.  When a request is
    built, the contract address and the recipient start with [0x], the
    request is a [writeContract] to that contract with the recipient as
    first argument, a token URI takes precedence over a token id and a
    quantity over a token URI, and [gas] is passed exactly when a gas
    limit was given. *)
Theorem X12_mint_parameters : forall a : MintArgs,
  let st := standardOr (mint_standard a) in
  (st = erc721 -> truthy (mint_tokenURI a) = false ->
   truthy (mint_tokenId a) = false ->
   mintPlan a = Throw "ERC-721 requires either tokenId or tokenURI")
  /\ (st = erc721a -> truthy (mint_quantity a) = false ->
      truthy (mint_tokenURI a) = false ->
      mintPlan a
      = Throw "ERC-721A requires either quantity for batch mint or tokenURI for single mint")
  /\ (st = erc6960 ->
      truthy (mint_mainId a) = false \/ truthy (mint_subId a) = false
      \/ truthy (mint_amount a) = false ->
      mintPlan a = Throw "ERC-6960 requires mainId, subId, and amount")
  /\ (forall req operation,
        mintPlan a = Return (req, operation) ->
        String.prefix "0x" (mint_contractAddress a) = true
        /\ String.prefix "0x" (mint_to a) = true
        /\ exists rest gas,
             req = WriteContract
                     (mint_contractAddress a)
                     (match st with
                      | erc721 => ERC721_ABI
                      | erc721a => ERC721A_ABI
                      | erc6960 => ERC6960_ABI
                      end)
                     (match st with
                      | erc721 => if truthy (mint_tokenURI a) then "safeMint" else "mint"
                      | erc721a => if truthy (mint_quantity a) then "mint" else "safeMint"
                      | erc6960 => "mint"
                      end)
                     (ArgAddress (mint_to a) :: rest) gas
             /\ (gas = None <-> truthy (mint_gasLimit a) = false)).
Proof.
  intros a st. subst st. unfold mintPlan.
  split; [|split; [|split]].
  - intros -> -> ->. reflexivity.
  - intros -> -> ->. reflexivity.
  - intros -> [-> | [-> | ->]]; rewrite ?orb_true_r; reflexivity.
  - intros req operation H.
    assert (Hgas : forall gas, gasOf (mint_gasLimit a) = Return gas ->
                     (gas = None <-> truthy (mint_gasLimit a) = false)).
    { intros gas Hg. apply gasOf_Return in Hg.
      destruct Hg as [[Ht ->]|(Ht & n & _ & ->)]; rewrite Ht;
        split; intros E; try reflexivity; discriminate E. }
    destruct (standardOr (mint_standard a)).
    + destruct (truthy (mint_tokenURI a)).
      * peel H. inversion H; subst. repeat split; try assumption.
        eexists; eexists; split; [reflexivity|]. now apply Hgas.
      * destruct (truthy (mint_tokenId a)); [|discriminate H].
        peel H. inversion H; subst. repeat split; try assumption.
        eexists; eexists; split; [reflexivity|]. now apply Hgas.
    + destruct (truthy (mint_quantity a)).
      * peel H. inversion H; subst. repeat split; try assumption.
        eexists; eexists; split; [reflexivity|]. now apply Hgas.
      * destruct (truthy (mint_tokenURI a)); [|discriminate H].
        peel H. inversion H; subst. repeat split; try assumption.
        eexists; eexists; split; [reflexivity|]. now apply Hgas.
    + destruct (negb (truthy (mint_mainId a)) || negb (truthy (mint_subId a))
                || negb (truthy (mint_amount a))); [discriminate H|].
      peel H. inversion H; subst. repeat split; try assumption.
      eexists; eexists; split; [reflexivity|]. now apply Hgas.
Qed.

Lemma split_nonempty : forall sep s, split sep s <> [].
Proof.
  intros sep [|c rest]; simpl; [discriminate|].
  destruct (Ascii.eqb c sep); [discriminate|].
  destruct (split sep rest); discriminate.
Qed.

Lemma length_split : forall sep s,
  length (split sep s) = S (occurrences sep s).
Proof.
  intros sep. induction s as [|c rest IH]; simpl; [reflexivity|].
  destruct (Ascii.eqb c sep); simpl; [now rewrite IH|].
  pose proof (split_nonempty sep rest) as Hne.
  destruct (split sep rest) as [|p ps]; [contradiction|]. exact IH.
Qed.

Lemma join_split : forall sep s, join sep (split sep s) = s.
Proof.
  intros sep. induction s as [|c rest IH]; [reflexivity|].
  cbn [split]. pose proof (split_nonempty sep rest) as Hne.
  destruct (Ascii.eqb c sep) eqn:E.
  - apply Ascii.eqb_eq in E. subst c.
    destruct (split sep rest) as [|p ps]; [contradiction|].
    cbn [join String.append]. cbn [join] in IH. now rewrite IH.
  - destruct (split sep rest) as [|p ps]; [contradiction|].
    destruct ps as [|q qs]; cbn [join String.append] in *; now rewrite IH.
Qed.

Lemma split_pieces_clean : forall sep s piece,
  In piece (split sep s) -> occurrences sep piece = 0.
Proof.
  intros sep. induction s as [|c rest IH]; intros piece Hin.
  - destruct Hin as [<-|[]]. reflexivity.
  - cbn [split] in Hin. pose proof (split_nonempty sep rest) as Hne.
    destruct (Ascii.eqb c sep) eqn:E.
    + destruct Hin as [<-|Hin]; [reflexivity|now apply IH].
    + destruct (split sep rest) as [|p ps]; [contradiction|].
      destruct Hin as [<-|Hin].
      * cbn [occurrences]. rewrite E. cbn. apply IH. now left.
      * apply IH. now right.
Qed.

(** [split] and [join] on one separator character: a string
    splits into one piece more than it has separators, never into none,
    no piece holds the separator, and joining the pieces gives the
    string back. *)
Lemma split_join_pieces : forall (sep : ascii) (s : string),
  length (split sep s) = S (occurrences sep s)
  /\ join sep (split sep s) = s
  /\ (forall piece, In piece (split sep s) -> occurrences sep piece = 0).
Proof.
  intros sep s. split; [apply length_split|].
  split; [apply join_split|apply split_pieces_clean].
Qed.

Lemma mapOutcome_length : forall (A B : Type) (f : A -> Outcome B) l bs,
  mapOutcome f l = Return bs -> length bs = length l.
Proof.
  intros A B f. induction l as [|a l IH]; intros bs H; cbn in H.
  - inversion H. reflexivity.
  - destruct (f a); [|discriminate H].
    destruct (mapOutcome f l) eqn:E; [|discriminate H].
    inversion H. cbn. f_equal. now apply IH.
Qed.

Lemma parseIdList_length : forall s ns,
  parseIdList s = Return ns -> length ns = S (occurrences "," s).
Proof.
  intros s ns H. unfold parseIdList in H.
  apply mapOutcome_length in H. now rewrite H, length_split.
Qed.

(** X13.  The parameters of [mint_erc6960_batch].  A request is built
    only when the three comma-separated lists have the same number of
    items; it is a [mintBatch] on the given contract whose three arrays
    each have one element more than [mainIds] has commas, the number
    reported as [tokenCount].  When every item converts and the numbers
    of items differ, the handler throws before anything is sent. *)
Theorem X13_batch_parameters : forall a : BatchArgs,
  (forall req tokenCount,
      batchPlan a = Return (req, tokenCount) ->
      tokenCount = S (occurrences "," (batch_mainIds a))
      /\ occurrences "," (batch_subIds a) = occurrences "," (batch_mainIds a)
      /\ occurrences "," (batch_amounts a) = occurrences "," (batch_mainIds a)
      /\ exists mainIds subIds amounts gas,
           req = WriteContract (batch_contractAddress a) ERC6960_ABI "mintBatch"
                   [ArgAddress (batch_to a); ArgUints mainIds; ArgUints subIds;
                    ArgUints amounts; ArgBytes "0x"] gas
           /\ length mainIds = tokenCount /\ length subIds = tokenCount
           /\ length amounts = tokenCount)
  /\ (forall mainIds subIds amounts,
        parseIdList (batch_mainIds a) = Return mainIds ->
        parseIdList (batch_subIds a) = Return subIds ->
        parseIdList (batch_amounts a) = Return amounts ->
        occurrences "," (batch_subIds a) <> occurrences "," (batch_mainIds a)
        \/ occurrences "," (batch_amounts a) <> occurrences "," (batch_subIds a) ->
        batchPlan a
        = Throw "MainIds, subIds, and amounts arrays must have the same length").
Proof.
  intros a. split.
  - intros req tokenCount H. unfold batchPlan in H.
    apply andThen_Return in H. destruct H as (ms & Hms & H).
    apply andThen_Return in H. destruct H as (ss & Hss & H).
    apply andThen_Return in H. destruct H as (ams & Hams & H).
    destruct (negb (length ms =? length ss)%nat
              || negb (length ss =? length ams)%nat) eqn:Hlen;
      [discriminate H|].
    apply orb_false_iff in Hlen. destruct Hlen as [H1 H2].
    apply negb_false_iff, Nat.eqb_eq in H1, H2.
    peel H. inversion H; subst.
    pose proof (parseIdList_length _ Hms) as Lm.
    pose proof (parseIdList_length _ Hss) as Ls.
    pose proof (parseIdList_length _ Hams) as La.
    repeat split; try lia.
    exists ms, ss, ams, v. repeat split; lia.
  - intros ms ss ams Hms Hss Hams Hdiff. unfold batchPlan.
    rewrite Hms, Hss, Hams. cbn [andThen].
    pose proof (parseIdList_length _ Hms) as Lm.
    pose proof (parseIdList_length _ Hss) as Ls.
    pose proof (parseIdList_length _ Hams) as La.
    replace (negb (length ms =? length ss)%nat
             || negb (length ss =? length ams)%nat) with true; [reflexivity|].
    symmetry. apply orb_true_iff.
    destruct Hdiff as [Hd|Hd]; [left|right];
      apply negb_true_iff, Nat.eqb_neq; lia.
Qed.

(** X14.  [transfer_erc6960] moves tokens of the current wallet only:
    whenever its parameters give a request, the request is a
    [safeTransferFrom] whose sender argument is the public address of
    the wallet the request is signed with, and contract, sender and
    recipient all start with [0x]. *)
Theorem X14_transfer_from_current_wallet :
  forall (a : TransferArgs) (w : World) (cw : Wallet) (req : ChainRequest),
    reachable (walletManager (server w)) ->
    getCurrentWallet (walletManager (server w)) = Some cw ->
    transferPlan a cw = Return (req, tt) ->
    (exists mainId subId amount gas,
        req = WriteContract (transfer_contractAddress a) ERC6960_ABI
                "safeTransferFrom"
                [ArgAddress (publicAddress cw); ArgAddress (transfer_to a);
                 ArgUint mainId; ArgUint subId; ArgUint amount; ArgBytes "0x"] gas
        /\ bigInt (transfer_mainId a) = Return mainId
        /\ bigInt (transfer_subId a) = Return subId
        /\ bigInt (transfer_amount a) = Return amount)
    /\ String.prefix "0x" (transfer_contractAddress a) = true
    /\ String.prefix "0x" (publicAddress cw) = true
    /\ String.prefix "0x" (transfer_to a) = true
    /\ exists resp w',
         transfer_erc6960_tool a w = (Return resp, w')
         /\ submitted w'
            = submitted w
              ++ [mkSubmission (clientOf cw) (networkOr (transfer_network a)) req]
         /\ accountAddress (clientOf cw) = publicAddress cw.
Proof.
  intros a w cw req Hr Hcur Hplan.
  pose proof Hplan as H. unfold transferPlan in H. peel H.
  inversion H; subst.
  split; [|split; [|split; [|split]]]; try assumption.
  - exists v, v0, v1, v2. auto.
  - destruct (transactionTool_submits transfer_erc6960 (networkOr (transfer_network a))
                (transferPlan a) (transferPayload a) w Hr)
      as (resp & w' & Hrun & Hsub).
    exists resp, w'. split; [exact Hrun|]. split; [|reflexivity].
    exact (Hsub cw _ tt Hcur Hplan).
Qed.

End TransactionProperties.

(* ================================================================== *)
(** * Answers that depend on the synchroniser and on the chain *)

Section Answers.
Context {collab : Collaborators} {chain : ChainClient}.

(** [get_current_wallet] with a wallet current. *)
Lemma get_current_wallet_outcome : forall args s w,
  reachable (walletManager s) ->
  getCurrentWallet (walletManager s) = Some w ->
  exists ok s',
    ensureGoatToolsForCurrentWallet s = (Return ok, s')
    /\ handle get_current_wallet args s
       = (Return (TextJson (currentWalletPayload w ok (goatToolsLastWalletId s'))), s')
    /\ sameId (goatToolsLastWalletId s') (id w) = ok
    /\ walletManager s' = walletManager s.
Proof.
  intros args s w Hr Hcur.
  destruct (ensureGoatTools_outcome s Hr) as (ok & s' & He & Hwm & _ & Hb & _).
  exists ok, s'. split; [exact He|].
  rewrite handle_unfold, (reachable_afterRestore s Hr), Hcur.
  cbn [withWallet]. unfold tryCatch, bind, gets, ret. rewrite He.
  split; [reflexivity|]. split; [|exact Hwm].
  destruct Hb as [Hok Hbind]; [congruence|]. unfold bindingConsistent in Hbind.
  destruct (goatTools s'); cbn [isSome] in Hok; subst ok.
  - destruct Hbind as (w' & Hw' & ->). rewrite Hwm, Hcur in Hw'.
    inversion Hw'; subst. cbn. apply String.eqb_refl.
  - now rewrite Hbind.
Qed.

(** X15.  In the answer of [get_current_wallet], in a reachable state
    with a wallet current, the fields [goatIntegration],
    [goatToolsWalletMatch] and [readyForOperations] always carry the same
    value: whether a tool set is bound to the reported wallet after the
    call.  The reported wallet is the current one. *)
Theorem X15_get_current_wallet_flags_agree :
  forall (args : Json) (s : Server) (w : Wallet),
    reachable (walletManager s) ->
    getCurrentWallet (walletManager s) = Some w ->
    exists ok s',
      handle get_current_wallet args s
      = (Return (TextJson
                   (JObj [("name", JStr (name w)); ("address", JStr (publicAddress w));
                          ("role", JStr (role w)); ("provider", JStr (provider w));
                          ("id", JStr (id w)); ("goatIntegration", JBool ok);
                          ("goatToolsWalletMatch", JBool ok);
                          ("readyForOperations", JBool ok)])),
         s')
      /\ (ok = true <-> goatTools s' <> None)
      /\ getCurrentWallet (walletManager s') = Some w.
Proof.
  intros args s w Hr Hcur.
  destruct (get_current_wallet_outcome args s Hr Hcur)
    as (ok & s' & He & Hh & Hsame & Hwm).
  exists ok, s'. rewrite Hh. unfold currentWalletPayload. rewrite Hsame.
  split; [reflexivity|]. split; [|now rewrite Hwm].
  destruct (ensureGoatTools_outcome s Hr) as (ok' & s'' & He' & _ & _ & Hb & _).
  rewrite He in He'. inversion He'; subst ok' s''.
  destruct Hb as [Hok _]; [congruence|]. rewrite Hok.
  destruct (goatTools s'); cbn; split; congruence.
Qed.

(** X16.  A switch followed by [get_current_wallet]: the second answer
    reports the wallet the first one switched to, and its readiness
    flags are [true] whenever the switch reported that the tool set was
    rebuilt, without another call to the GOAT SDK. *)
Theorem X16_switch_then_get_current_wallet :
  forall (s : Server) (roleName instruction : string)
         (providerArg : option ProviderChoice) (args : Json) (target : Wallet),
    reachable (walletManager s) ->
    switchTarget roleName (requestedProvider providerArg) (walletManager s)
    = Some target ->
    exists rebuilt s1 ok s2,
      switch_to roleName instruction providerArg s
      = (Return (TextJson (switchSuccessPayload roleName
                             (providerName (requestedProvider providerArg))
                             target rebuilt)), s1)
      /\ handle get_current_wallet args s1
         = (Return (TextJson (currentWalletPayload target ok (goatToolsLastWalletId s2))),
            s2)
      /\ sameId (goatToolsLastWalletId s2) (id target) = ok
      /\ (rebuilt = true -> ok = true /\ s2 = s1)
      /\ switchSuccessPayload roleName
           (providerName (requestedProvider providerArg)) target rebuilt
         = JObj [("success", JBool true);
                 ("message",
                  JStr ("Switched to " +++ roleName +++ " wallet"
                        +++ (if String.eqb (provider target)
                                  (providerName (requestedProvider providerArg))
                             then ""
                             else " (" +++ providerName (requestedProvider providerArg)
                                  +++ " not available, using "
                                  +++ provider target +++ ")")));
                 ("wallet", JObj [("name", JStr (name target));
                                  ("address", JStr (publicAddress target));
                                  ("role", JStr (role target));
                                  ("provider", JStr (provider target))]);
                 ("goatToolsReinitialized", JBool rebuilt);
                 ("readyForOperations", JBool rebuilt)]
      /\ currentWalletPayload target ok (goatToolsLastWalletId s2)
         = JObj [("name", JStr (name target));
                 ("address", JStr (publicAddress target));
                 ("role", JStr (role target));
                 ("provider", JStr (provider target));
                 ("id", JStr (id target));
                 ("goatIntegration", JBool ok);
                 ("goatToolsWalletMatch", JBool ok);
                 ("readyForOperations", JBool ok)].
Proof.
  intros s roleName instruction providerArg args target Hr Ht.
  destruct (ensure_after_switch s roleName instruction providerArg Hr Ht)
    as (rebuilt & s1 & Hsw & Hens).
  destruct (switch_to_commits s roleName instruction providerArg Hr Ht)
    as (Hcommit & rebuilt' & s1' & _ & Hsw' & Hwm & _).
  rewrite Hsw in Hsw'. inversion Hsw'; subst rebuilt' s1'.
  assert (Hr1 : reachable (walletManager s1)).
  { rewrite Hwm.
    replace (walletManager (committed target s))
      with (snd (switchWallet (id target) (walletManager s)))
      by now rewrite Hcommit.
    now apply reach_switch. }
  assert (Hcur1 : getCurrentWallet (walletManager s1) = Some target)
    by now rewrite Hwm.
  destruct (get_current_wallet_outcome args s1 Hr1 Hcur1)
    as (ok & s2 & He & Hh & Hsame & _).
  exists rebuilt, s1, ok, s2.
  split; [exact Hsw|]. split; [exact Hh|]. split; [exact Hsame|].
  split; [intros ->; rewrite Hens in He; now inversion He|].
  split.
  - unfold switchSuccessPayload, switchMessage.
    now destruct (String.eqb (provider target)
                    (providerName (requestedProvider providerArg))).
  - unfold currentWalletPayload. now rewrite Hsame.
Qed.

(** X17.  [send_eth] with a wallet current in a reachable manager.  A
    recipient that does not start with [0x] is refused in the answer
    and nothing is sent.  With a recipient, an amount and a gas limit
    that are accepted, one [sendTransaction] is handed to the wallet
    client, signed by the current wallet; when hash and receipt arrive,
    the answer is the payload, its [success] is [true] whatever the
    status of the receipt, and its [status] is ["Success"] exactly when
    the receipt says [success]. *)
Theorem X17_send_eth :
  forall (a : SendArgs) (w : World) (cw : Wallet),
    reachable (walletManager (server w)) ->
    getCurrentWallet (walletManager (server w)) = Some cw ->
    (String.prefix "0x" (send_to a) = false ->
     send_eth_tool a w
     = (Return (TextPlain ("Error sending ETH: Invalid address format: "
                           +++ send_to a +++ ". Address must start with 0x")),
        w))
    /\ (forall value gas hash r,
          String.prefix "0x" (send_to a) = true ->
          parseEther (send_amount a) = Return value ->
          gasOf (send_gasLimit a) = Return gas ->
          let sub := mkSubmission (clientOf cw) (networkOr (send_network a))
                                  (SendTransaction (send_to a) value gas) in
          submit sub = Return hash ->
          waitForTransactionReceipt (networkOr (send_network a)) hash = Return r ->
          send_eth_tool a w
          = (Return (TextJson (sendPayload a cw tt hash r)),
             mkWorld (server w) (submitted w ++ [sub]))
          /\ field "success" (sendPayload a cw tt hash r) = Some (JBool true)
          /\ (field "status" (sendPayload a cw tt hash r) = Some (JStr "Success")
              <-> status r = "success")
          /\ (status r <> "success" ->
              field "status" (sendPayload a cw tt hash r) = Some (JStr "Failed"))).
Proof.
  intros a w cw Hr Hcur. split.
  - intros Hto. unfold send_eth_tool.
    rewrite (transactionTool_unfold send_eth (networkOr (send_network a))
               (fun _ => sendPlan a) (sendPayload a) w Hr), Hcur.
    unfold transactionOutcome, sendPlan, ensureAddress. rewrite Hto.
    cbn. now destruct w.
  - intros value gas hash r Hto Hval Hgas sub Hsub Hwait.
    split; [|split; [|split]].
    + unfold send_eth_tool.
      rewrite (transactionTool_unfold send_eth (networkOr (send_network a))
                 (fun _ => sendPlan a) (sendPayload a) w Hr), Hcur.
      unfold transactionOutcome, sendPlan, ensureAddress.
      rewrite Hto. cbn [andThen]. rewrite Hval. cbn [andThen]. rewrite Hgas.
      cbn [andThen ensuresGoatTools]. fold sub. rewrite Hsub, Hwait. reflexivity.
    + reflexivity.
    + cbn. unfold statusText. destruct (String.eqb (status r) "success") eqn:E.
      * apply String.eqb_eq in E. tauto.
      * apply String.eqb_neq in E. split; [intros H; discriminate H|contradiction].
    + intros Hne. cbn. unfold statusText. apply String.eqb_neq in Hne.
      now rewrite Hne.
Qed.

Lemma confirmation_unfold : forall (a : ConfirmArgs) w cw,
  reachable (walletManager (server w)) ->
  getCurrentWallet (walletManager (server w)) = Some cw ->
  let s1 := snd (ensureGoatToolsForCurrentWallet (server w)) in
  let network := networkOr (confirm_network a) in
  mint_nft_with_confirmation a w
  = if negb (confirmedOr (confirm_confirmed a))
    then (Return (TextJson (confirmPreview a cw)), mkWorld s1 (submitted w))
    else match confirmPlan a with
         | Throw e =>
             (Return (TextPlain ("Error minting NFT: " +++ e)),
              mkWorld s1 (submitted w))
         | Return None =>
             (Return (TextPlain
                        "Error: Either tokenId or tokenURI must be provided for minting"),
              mkWorld s1 (submitted w))
         | Return (Some req) =>
             let sub := mkSubmission (clientOf cw) network req in
             (Return match submit sub with
                     | Throw e => TextPlain ("Error minting NFT: " +++ e)
                     | Return hash =>
                         match waitForTransactionReceipt network hash with
                         | Throw e => TextPlain ("Error minting NFT: " +++ e)
                         | Return r => TextJson (confirmPayload a cw hash r)
                         end
                     end,
              mkWorld s1 (submitted w ++ [sub]))
         end.
Proof.
  intros a w cw Hr Hcur s1 network.
  unfold mint_nft_with_confirmation, tryCatchW.
  unfold bindW at 1. rewrite (liftM_restoreIfNoCurrent w Hr).
  unfold bindW at 1. unfold liftM at 1, gets.
  replace (mkWorld (server w) (submitted w)) with w by now destruct w.
  rewrite Hcur.
  destruct (ensureGoatTools_outcome (server w) Hr)
    as (ok & s1' & He & Hwm & _).
  assert (Hs1 : s1 = s1') by (unfold s1; now rewrite He). subst s1'.
  unfold bindW at 1. unfold liftM at 1. rewrite He.
  destruct (negb (confirmedOr (confirm_confirmed a))); [reflexivity|].
  unfold bindW at 1.
  rewrite (@liftM_createDynamicWalletClient _ (mkWorld s1 (submitted w)) cw);
    cbn [server]; try (rewrite Hwm; assumption).
  unfold bindW at 1, liftOutcomeW.
  destruct (confirmPlan a) as [[req|]|e]; try reflexivity.
  unfold bindW at 1, awaitSubmit. cbn [server submitted]. fold network.
  destruct (submit (mkSubmission (clientOf cw) network req)) as [hash|e];
    [|reflexivity].
  unfold bindW, retW, liftOutcomeW.
  destruct (waitForTransactionReceipt network hash); reflexivity.
Qed.

(** X18.  [mint_nft_with_confirmation] with a wallet current in a
    reachable manager.  Unless [confirmed] is [true] the handler answers
    with the preview and hands nothing to the wallet client; the gas
    figure of the preview is the estimate, or the gas limit, or
    ["50000"], in that order.  With [confirmed] and neither a token URI
    nor a token id it answers with a text and hands nothing over.  With
    [confirmed] and a token URI it hands over one [safeMint], signed by
    the current wallet, when no gas limit is given or the gas limit
    converts; when [BigInt(gasLimit)] throws, it answers with the error
    text and hands nothing over. *)
Theorem X18_confirmation_gate :
  forall (a : ConfirmArgs) (w : World) (cw : Wallet),
    reachable (walletManager (server w)) ->
    getCurrentWallet (walletManager (server w)) = Some cw ->
    let network := networkOr (confirm_network a) in
    (confirmedOr (confirm_confirmed a) = false ->
     fst (mint_nft_with_confirmation a w) = Return (TextJson (confirmPreview a cw))
     /\ submitted (snd (mint_nft_with_confirmation a w)) = submitted w
     /\ exists details,
          field "details" (confirmPreview a cw) = Some details
          /\ field "estimatedGas" details
             = Some (JStr match estimateGas network (confirm_contractAddress a) with
                          | Return g => g
                          | Throw _ => orElse (confirm_gasLimit a) "50000"
                          end))
    /\ (confirmedOr (confirm_confirmed a) = true ->
        truthy (confirm_tokenURI a) = false ->
        truthy (confirm_tokenId a) = false ->
        fst (mint_nft_with_confirmation a w)
        = Return (TextPlain
                    "Error: Either tokenId or tokenURI must be provided for minting")
        /\ submitted (snd (mint_nft_with_confirmation a w)) = submitted w)
    /\ (forall gas,
          confirmedOr (confirm_confirmed a) = true ->
          truthy (confirm_tokenURI a) = true ->
          gasOf (confirm_gasLimit a) = Return gas ->
          submitted (snd (mint_nft_with_confirmation a w))
          = submitted w
            ++ [mkSubmission (clientOf cw) network
                  (WriteContract (confirm_contractAddress a) ERC721_ABI "safeMint"
                     [ArgAddress (confirm_to a);
                      ArgString (textOf (confirm_tokenURI a))] gas)])
    /\ (confirmedOr (confirm_confirmed a) = true ->
        truthy (confirm_tokenURI a) = true ->
        let safeMint gas :=
          mkSubmission (clientOf cw) network
            (WriteContract (confirm_contractAddress a) ERC721_ABI "safeMint"
               [ArgAddress (confirm_to a);
                ArgString (textOf (confirm_tokenURI a))] gas) in
        (truthy (confirm_gasLimit a) = false ->
         submitted (snd (mint_nft_with_confirmation a w))
         = submitted w ++ [safeMint None])
        /\ (forall g,
              truthy (confirm_gasLimit a) = true ->
              bigInt (textOf (confirm_gasLimit a)) = Return g ->
              submitted (snd (mint_nft_with_confirmation a w))
              = submitted w ++ [safeMint (Some g)])
        /\ (forall e,
              truthy (confirm_gasLimit a) = true ->
              bigInt (textOf (confirm_gasLimit a)) = Throw e ->
              fst (mint_nft_with_confirmation a w)
              = Return (TextPlain ("Error minting NFT: " +++ e))
              /\ submitted (snd (mint_nft_with_confirmation a w)) = submitted w)).
Proof.
  intros a w cw Hr Hcur network.
  rewrite (confirmation_unfold a w Hr Hcur). cbv zeta.
  split; [|split; [|split]]; cycle 3.
  { intros -> Huri. cbn [negb]. unfold confirmPlan, gasOf. rewrite Huri.
    split; [|split].
    - intros ->. reflexivity.
    - intros g -> ->. reflexivity.
    - intros e -> ->. split; reflexivity. }
  - intros ->. cbn [negb fst snd submitted]. split; [reflexivity|].
    split; [reflexivity|]. eexists. split; reflexivity.
  - intros -> Huri Hid. cbn [negb]. unfold confirmPlan. rewrite Huri, Hid.
    split; reflexivity.
  - intros gas -> Huri Hgas. cbn [negb]. unfold confirmPlan.
    rewrite Huri, Hgas. reflexivity.
Qed.

(** X19.  [get_wallet_info] with a wallet current in a reachable
    manager always answers with the wallet's payload, never with an
    error text: when the address is refused or the balance cannot be
    fetched, the payload carries a note in place of the balance.  Its
    three readiness flags agree, as in [get_current_wallet]. *)
Theorem X19_get_wallet_info_survives_chain_errors :
  forall (args : Json) (s : Server) (w : Wallet),
    reachable (walletManager s) ->
    getCurrentWallet (walletManager s) = Some w ->
    let chainConfig := getChainConfig (networkOf args) in
    let balance := match ensureAddress (publicAddress w) with
                   | Return a => getBalance a
                   | Throw e => Throw e
                   end in
    exists ok s' payload,
      handle get_wallet_info args s = (Return (TextJson payload), s')
      /\ payload = walletInfoPayload w chainConfig balance ok (goatToolsLastWalletId s')
      /\ field "source" payload = Some (JStr "Managed Wallet")
      /\ field "address" payload = Some (JStr (publicAddress w))
      /\ field "goatIntegration" payload = Some (JBool ok)
      /\ field "goatToolsWalletMatch" payload = Some (JBool ok)
      /\ field "readyForOperations" payload = Some (JBool ok)
      /\ match balance with
         | Return b =>
             field "balance" payload
             = Some (JStr (b +++ " " +++ currencySymbol chainConfig))
             /\ field "note" payload = None
         | Throw _ =>
             field "balance" payload = None
             /\ field "note" payload
                = Some (JStr "Could not fetch balance - network might be unavailable")
         end.
Proof.
  intros args s w Hr Hcur chainConfig balance.
  destruct (ensureGoatTools_outcome s Hr) as (ok & s' & He & Hwm & _ & Hb & _).
  assert (Hsame : sameId (goatToolsLastWalletId s') (id w) = ok).
  { destruct Hb as [Hok Hbind]; [congruence|]. unfold bindingConsistent in Hbind.
    destruct (goatTools s'); cbn [isSome] in Hok; subst ok.
    - destruct Hbind as (w' & Hw' & ->). rewrite Hwm, Hcur in Hw'.
      inversion Hw'; subst. cbn. apply String.eqb_refl.
    - now rewrite Hbind. }
  exists ok, s', (walletInfoPayload w chainConfig balance ok (goatToolsLastWalletId s')).
  split.
  - rewrite handle_unfold, (reachable_afterRestore s Hr), Hcur.
    cbn [withWallet]. unfold tryCatch, bind, gets, ret. now rewrite He.
  - split; [reflexivity|]. unfold walletInfoPayload. rewrite Hsame.
    destruct balance as [b|e]; cbn; repeat split; reflexivity.
Qed.

End Answers.

(* ================================================================== *)
(** * Concrete runs *)

(** C1 on [mixedEnv]: MetaMask is asked for, only the Crossmint seller
    exists; the switch falls back to it and the message says so. *)
Lemma C1_witness :
  let s := startServer (collab := online) mixedEnv in
  reachable (collab := online) (walletManager s)
  /\ (exists w, In w (getAllWallets (walletManager s)) /\ role w = "seller")
  /\ exists ok s',
       switch_to_seller (collab := online) (Some metamask) s
       = (Return (TextJson
                    (JObj [("success", JBool true);
                           ("message",
                            JStr "Switched to seller wallet (metamask not available, using crossmint)");
                           ("wallet",
                            JObj [("name", JStr (name crossmintSeller));
                                  ("address", JStr (publicAddress crossmintSeller));
                                  ("role", JStr "seller");
                                  ("provider", JStr "crossmint")]);
                           ("goatToolsReinitialized", JBool ok);
                           ("readyForOperations", JBool ok)])), s')
       /\ getCurrentWallet (walletManager s') = Some crossmintSeller
       /\ lastActiveWalletId (walletManager s') = Some "cm_seller".
Proof.
  intros s.
  assert (Hr : reachable (collab := online) (walletManager s))
    by exact (reach_load mixedEnv).
  assert (Hw : exists w, In w (getAllWallets (walletManager s)) /\ role w = "seller").
  { exists crossmintSeller. split; [|reflexivity]. vm_compute. tauto. }
  split; [exact Hr|]. split; [exact Hw|].
  destruct (@C1_switch_selects_and_commits online s "seller"
              "Set seller wallet environment variables (CAT_MM_SELLER_WALLET_PRIVATE_KEY, CM_SELLER_WALLET_PRIVATE_KEY, or CVC_SELLER_WALLET_PRIVATE_KEY)"
              (Some metamask) Hr Hw)
    as (target & ok & s' & message & Hresp & _ & Hfallback & _ & Hcur & Hlast & _
        & Hget & _ & _ & _ & Hother & _).
  assert (Ht : target = crossmintSeller).
  { specialize (Hfallback eq_refl). vm_compute in Hfallback.
    injection Hfallback as <-. reflexivity. }
  subst target.
  assert (Hm : message
               = "Switched to seller wallet (metamask not available, using crossmint)").
  { rewrite Hother; [reflexivity|discriminate]. }
  subst message. exists ok, s'.
  split; [exact Hresp|]. split; [exact Hget|exact Hlast].
Defined.

(** C2 on the server of [sellerEnv] before any build: the unforced call
    builds once, for the MetaMask seller. *)
Lemma C2_witness :
  let s := startServer (collab := online) sellerEnv in
  reachable (collab := online) (walletManager s)
  /\ getCurrentWallet (walletManager s) = Some metamaskSeller
  /\ exists ok s',
       initializeGoatTools (collab := online) false s = (Return ok, s')
       /\ onChainCalls s' = [clientOf metamaskSeller]
       /\ walletManager s' = walletManager s.
Proof.
  intros s.
  assert (Hr : reachable (collab := online) (walletManager s))
    by exact (reach_load sellerEnv).
  assert (Hc : getCurrentWallet (walletManager s) = Some metamaskSeller)
    by reflexivity.
  split; [exact Hr|]. split; [exact Hc|].
  destruct (@C2_initializeGoatTools_memoised_fail_soft online s metamaskSeller
              false Hr Hc) as [_ Hrebuild].
  destruct (Hrebuild (or_intror (or_introl eq_refl)))
    as (ok & s' & Hinit & Hcalls & _ & Hwm & _).
  exists ok, s'. split; [exact Hinit|]. split; [exact Hcalls|exact Hwm].
Defined.



(** C4 on [buyerEnv]: no seller, the payload lists the one buyer. *)
Lemma C4_witness :
  let s := startServer (collab := online) buyerEnv in
  (forall w, In w (getAllWallets (walletManager s)) -> role w <> "seller")
  /\ switch_to_seller (collab := online) None s
     = (Return (TextJson
                  (JObj [("error", JStr "No seller wallet found");
                         ("availableWallets",
                          JArr [JObj [("name", JStr (name metamaskBuyer));
                                      ("role", JStr "buyer");
                                      ("provider", JStr "metamask");
                                      ("address", JStr (publicAddress metamaskBuyer))]]);
                         ("instruction",
                          JStr "Set seller wallet environment variables (CAT_MM_SELLER_WALLET_PRIVATE_KEY, CM_SELLER_WALLET_PRIVATE_KEY, or CVC_SELLER_WALLET_PRIVATE_KEY)")])),
        s).
Proof.
  intros s.
  assert (Hnone : forall w, In w (getAllWallets (walletManager s)) ->
                    role w <> "seller").
  { intros w Hw. vm_compute in Hw. destruct Hw as [<-|[]]. discriminate. }
  split; [exact Hnone|].
  exact (@C4_switch_without_candidate online s "seller"
           "Set seller wallet environment variables (CAT_MM_SELLER_WALLET_PRIVATE_KEY, CM_SELLER_WALLET_PRIVATE_KEY, or CVC_SELLER_WALLET_PRIVATE_KEY)"
           None Hnone).
Defined.

(** C5 as stated fails: the zero key passes validation, viem rejects it,
    and the slot is not loaded. *)
Lemma C5_counterexample_zero_key :
  length (filter (fun c => passesValidation (zeroKeyEnv (Config.env c))) configs) = 1
  /\ length (getAllWallets (getInstance (collab := online) zeroKeyEnv)) = 0
  /\ deriveAddress zeroKey = None.
Proof. repeat split; reflexivity. Qed.

(** C6 on a buyer followed by a seller: the seller is chosen. *)
Lemma C6_witness :
  let loaded := [metamaskBuyer; crossmintSeller] in
  let m := fst (selectDefault (mkLoad (map entry loaded) loaded (length loaded) [])) in
  (forall x, In x loaded -> id x <> "catmm_seller")
  /\ currentWallet m = Some crossmintSeller
  /\ lastActiveWalletId m = Some "cm_seller".
Proof.
  intros loaded m.
  assert (Hnone : forall x, In x loaded -> id x <> "catmm_seller").
  { intros x [<-|[<-|[]]]; discriminate. }
  destruct (@C6_default_selection (map entry loaded) loaded [])
    as (_ & Hseller & _ & _ & Hlast).
  assert (Hcur : currentWallet m = Some crossmintSeller).
  { apply (Hseller Hnone [metamaskBuyer] crossmintSeller []).
    - reflexivity.
    - reflexivity.
    - intros x [<-|[]]. discriminate. }
  split; [exact Hnone|]. split; [exact Hcur|].
  destruct Hlast as (w & Hw & _ & Hl); [discriminate|].
  fold m in Hw, Hl. rewrite Hcur in Hw. inversion Hw; subst w. exact Hl.
Defined.



(** C8 on an empty configuration: [send_eth] reports that no wallet is
    active. *)
Lemma C8_witness :
  let s := startServer (collab := offline) noEnv in
  getCurrentWallet (walletManager (afterRestore s)) = None
  /\ handle (collab := offline) send_eth JNull s
     = (Return (TextJson
                  (JObj [("error", JStr "No active wallet");
                         ("instruction",
                          JStr "Use switch_to_seller or switch_to_buyer to activate a wallet")])),
        s).
Proof.
  intros s.
  assert (Hnone : getCurrentWallet (walletManager (afterRestore s)) = None)
    by reflexivity.
  split; [exact Hnone|].
  destruct (@C8_handlers_restore_then_report offline send_eth JNull s)
    as (_ & _ & _ & Hreport & _).
  exact (proj1 (Hreport Hnone)).
Defined.

(** C9 on the manager of [sellerEnv]. *)
Lemma C9_witness :
  let m := getInstance (collab := online) sellerEnv in
  reachable (collab := online) m
  /\ getCurrentWallet m = Some metamaskSeller
  /\ In metamaskSeller (getAllWallets m)
  /\ JsMap.get "catmm_seller" (wallets m) = Some metamaskSeller
  /\ lastActiveWalletId m = Some "catmm_seller"
  /\ snd (restoreLastActiveWallet m) = m.
Proof.
  intros m.
  assert (Hr : reachable (collab := online) m) by exact (reach_load sellerEnv).
  assert (Hc : getCurrentWallet m = Some metamaskSeller) by reflexivity.
  split; [exact Hr|]. split; [exact Hc|].
  exact (@C9_current_wallet_resolves online m metamaskSeller Hr Hc).
Defined.

(** C10 on [orphanedTools]: the binding is dropped. *)
Lemma C10_witness :
  getCurrentWallet (walletManager orphanedTools) = None
  /\ goatTools orphanedTools = Some demoTools
  /\ initializeGoatTools (collab := online) false orphanedTools
     = (Return false,
        mkServer (walletManager orphanedTools) None None
                 [clientOf metamaskSeller]).
Proof.
  assert (Hnone : getCurrentWallet (walletManager orphanedTools) = None)
    by reflexivity.
  split; [exact Hnone|]. split; [reflexivity|].
  exact (@C10_initializeGoatTools_without_wallet online orphanedTools false Hnone).
Defined.

(** X2 on [mixedEnv]: the buyer is switched to by id. *)
Lemma X2_witness :
  let m := getInstance (collab := online) mixedEnv in
  reachable (collab := online) m
  /\ switchWallet "catmm_buyer" m
     = (true, mkManager (wallets m) (Some metamaskBuyer) (Some "catmm_buyer"))
  /\ fst (switchWallet "cvc_buyer" m) = false.
Proof.
  intros m.
  assert (Hr : reachable (collab := online) m) by exact (reach_load mixedEnv).
  split; [exact Hr|].
  destruct (@X2_switchWallet_by_id online m "catmm_buyer" Hr) as (_ & _ & Hset).
  split; [|reflexivity].
  apply Hset; [vm_compute; tauto|reflexivity].
Defined.

(** X3 on [sellerEnv]: the one wallet comes from the first slot. *)
Lemma X3_witness :
  let m := getInstance (collab := online) sellerEnv in
  reachable (collab := online) m
  /\ In metamaskSeller (getAllWallets m)
  /\ String.length (privateKey metamaskSeller) = 66
  /\ matchesKeyPattern (privateKey metamaskSeller) = true.
Proof.
  intros m.
  assert (Hr : reachable (collab := online) m) by exact (reach_load sellerEnv).
  assert (Hw : In metamaskSeller (getAllWallets m)) by (vm_compute; tauto).
  split; [exact Hr|]. split; [exact Hw|].
  destruct (@X3_registry_wallets_from_slots online m metamaskSeller Hr Hw)
    as (_ & _ & Hkey & Hlen & _).
  split; [exact Hlen|exact Hkey].
Defined.

(** X4 on [mixedEnv]: the Crossmint seller is the one seller of that
    provider. *)
Lemma X4_witness :
  let m := getInstance (collab := online) mixedEnv in
  reachable (collab := online) m
  /\ (In crossmintSeller (getAllWallets m) /\ role crossmintSeller = "seller"
      /\ provider crossmintSeller = "crossmint")
  /\ getWalletByRoleAndProvider "seller" "crossmint" m = Some crossmintSeller.
Proof.
  intros m.
  assert (Hr : reachable (collab := online) m) by exact (reach_load mixedEnv).
  assert (Hw : In crossmintSeller (getAllWallets m) /\ role crossmintSeller = "seller"
               /\ provider crossmintSeller = "crossmint").
  { split; [vm_compute; tauto|split; reflexivity]. }
  split; [exact Hr|]. split; [exact Hw|].
  destruct (@X4_role_and_provider_identify online m "seller" "crossmint"
              crossmintSeller Hr) as [Hiff _].
  now apply Hiff.
Defined.

(** X5 on [sellerEnv] with the GOAT SDK out of reach: the start-up call
    answers [false] and binds nothing. *)
Lemma X5_witness :
  let s := startServer (collab := offline) sellerEnv in
  reachable (collab := offline) (walletManager s)
  /\ exists s',
       initializeGoatTools (collab := offline) false s = (Return false, s')
       /\ goatTools s' = None /\ goatToolsLastWalletId s' = None.
Proof.
  intros s.
  assert (Hr : reachable (collab := offline) (walletManager s))
    by exact (reach_load sellerEnv).
  split; [exact Hr|].
  destruct (@X5_initializeGoatTools_binds_current offline false s Hr)
    as (ok & s' & Hinit & _ & Hok & _ & Hnone & _).
  assert (Hs' : snd (initializeGoatTools (collab := offline) false s) = s')
    by now rewrite Hinit.
  assert (Ht : goatTools s' = None) by (rewrite <- Hs'; reflexivity).
  assert (Hfalse : ok = false).
  { destruct ok; [|reflexivity]. exfalso. now apply (proj1 Hok). }
  subst ok. exists s'. split; [exact Hinit|]. split; [exact Ht|now apply Hnone].
Defined.

(** X6 on [sellerEnv]: the first call builds, the second finds the tool
    set bound. *)
Lemma X6_witness :
  let s := startServer (collab := online) sellerEnv in
  reachable (collab := online) (walletManager s)
  /\ getCurrentWallet (walletManager s) = Some metamaskSeller
  /\ exists ok s',
       ensureGoatToolsForCurrentWallet (collab := online) s = (Return ok, s')
       /\ (goatTools s' <> None ->
           goatToolsLastWalletId s' = Some "catmm_seller").
Proof.
  intros s.
  assert (Hr : reachable (collab := online) (walletManager s))
    by exact (reach_load sellerEnv).
  assert (Hc : getCurrentWallet (walletManager s) = Some metamaskSeller)
    by reflexivity.
  split; [exact Hr|]. split; [exact Hc|].
  destruct (@X6_ensureGoatTools_binds_current online s Hr) as [_ Hwith].
  destruct (Hwith metamaskSeller Hc) as (ok & s' & He & _ & _ & Hb & _).
  exists ok, s'. split; [exact He|exact Hb].
Defined.

(** X7 on [mixedEnv] after a switch to the Crossmint seller. *)
Lemma X7_witness :
  let s := snd (serve (collab := online) (SwitchToSeller (Some crossmint))
                      (snd (runServerInit (collab := online) mixedEnv))) in
  running (collab := online) s
  /\ reachable (collab := online) (walletManager s)
  /\ (goatTools s = None -> goatToolsLastWalletId s = None).
Proof.
  intros s.
  assert (Hrun : running (collab := online) s)
    by exact (running_serve _ (running_start mixedEnv)).
  split; [exact Hrun|].
  destruct (@X7_running_server_invariant online s Hrun) as (Hr & _ & Hnone & _).
  split; [exact Hr|exact Hnone].
Defined.

(** X8 on [mixedEnv]: two wallets, the seller flagged. *)
Lemma X8_witness :
  let s := startServer (collab := online) mixedEnv in
  reachable (collab := online) (walletManager s)
  /\ filter (activeFlag (getCurrentWallet (walletManager s)))
            (getAllWallets (walletManager s)) = [crossmintSeller]
  /\ providerCount "legacy" (getAllWallets (walletManager s)) <= 1.
Proof.
  intros s.
  assert (Hr : reachable (collab := online) (walletManager s))
    by exact (reach_load mixedEnv).
  split; [exact Hr|].
  destruct (@X8_list_wallets_payload online s Hr) as (_ & Hflag & _ & _ & Hleg & _).
  split; [exact Hflag|exact Hleg].
Defined.

(** X9 on a key without prefix. *)
Lemma X9_witness :
  (String.length bareKey = 64 /\ allHex bareKey = true)
  /\ matchesKeyPattern (ensurePrivateKey bareKey) = true
  /\ ensurePrivateKey (ensurePrivateKey bareKey) = ensurePrivateKey bareKey.
Proof.
  assert (H : String.length bareKey = 64 /\ allHex bareKey = true)
    by (split; reflexivity).
  split; [exact H|].
  destruct (X9_ensurePrivateKey_prefixes bareKey) as (_ & Hidem & _ & Hiff).
  split; [|exact Hidem]. apply Hiff. now right.
Defined.

(** X10 on [zeroKeyEnv]: the one key present is rejected by viem. *)
Lemma X10_witness :
  (forall c, In c configs -> slotAccepted (collab := online) zeroKeyEnv c = false)
  /\ runServerInit (collab := online) zeroKeyEnv
     = (Return false, mkServer (mkManager [] None None) None None []).
Proof.
  assert (H : forall c, In c configs ->
                slotAccepted (collab := online) zeroKeyEnv c = false).
  { intros c Hc. simpl in Hc.
    repeat (destruct Hc as [<-|Hc]; [reflexivity|]). contradiction. }
  split; [exact H|].
  exact (proj1 (@X10_empty_configuration online zeroKeyEnv H)).
Defined.

(** X11 on [sellerWorld]: a transfer whose amount does not convert is
    refused and nothing is handed over. *)
Lemma X11_witness :
  let a := mkTransferArgs "0xc0ffee" "0xbeef" "1" "2" "many" None None in
  reachable (collab := online) (walletManager (server sellerWorld))
  /\ getCurrentWallet (walletManager (server sellerWorld)) = Some metamaskSeller
  /\ exists resp w',
       transfer_erc6960_tool (collab := online) (chain := revertingChain) a sellerWorld
       = (Return resp, w')
       /\ resp = TextPlain "Error transferring ERC-6960 token: Cannot convert many to a BigInt"
       /\ submitted w' = [].
Proof.
  intros a.
  assert (Hr : reachable (collab := online) (walletManager (server sellerWorld)))
    by exact (reach_load sellerEnv).
  assert (Hc : getCurrentWallet (walletManager (server sellerWorld))
               = Some metamaskSeller) by reflexivity.
  split; [exact Hr|]. split; [exact Hc|].
  destruct (@X11_transaction_frame online revertingChain unit transfer_erc6960
              testnet (transferPlan (chain := revertingChain) a)
              (transferPayload a) sellerWorld Hr)
    as (resp & w' & Hrun & _ & _ & Hthrow & _).
  exists resp, w'. split; [exact Hrun|].
  exact (Hthrow metamaskSeller "Cannot convert many to a BigInt" Hc eq_refl).
Defined.

(** X12 on an ERC-6960 mint without an amount. *)
Lemma X12_witness :
  let a := mkMintArgs "0xc0ffee" "0xbeef" None None None (Some "1") (Some "2")
                      (Some "") (Some erc6960) None None in
  truthy (mint_amount a) = false
  /\ mintPlan (chain := revertingChain) a
     = Throw "ERC-6960 requires mainId, subId, and amount".
Proof.
  intros a.
  assert (H : truthy (mint_amount a) = false) by reflexivity.
  split; [exact H|].
  destruct (@X12_mint_parameters revertingChain a) as (_ & _ & H6960 & _).
  apply H6960; [reflexivity|]. right. right. exact H.
Defined.

(** X13 on three main ids against two sub ids. *)
Lemma X13_witness :
  let a := mkBatchArgs "0xc0ffee" "0xbeef" "1, 2, 3" "10,20" "5,5,5" None None in
  parseIdList (chain := revertingChain) (batch_mainIds a) = Return [1; 2; 3]%Z
  /\ occurrences "," (batch_subIds a) <> occurrences "," (batch_mainIds a)
  /\ batchPlan (chain := revertingChain) a
     = Throw "MainIds, subIds, and amounts arrays must have the same length".
Proof.
  intros a.
  assert (Hm : parseIdList (chain := revertingChain) (batch_mainIds a)
               = Return [1; 2; 3]%Z) by reflexivity.
  assert (Hd : occurrences "," (batch_subIds a) <> occurrences "," (batch_mainIds a))
    by (vm_compute; discriminate).
  split; [exact Hm|]. split; [exact Hd|].
  destruct (@X13_batch_parameters revertingChain a) as [_ Hmismatch].
  apply (Hmismatch [1; 2; 3]%Z [10; 20]%Z [5; 5; 5]%Z);
    [reflexivity|reflexivity|reflexivity|now left].
Defined.

(** X14 on [sellerWorld]: the seller's own address is the sender. *)
Lemma X14_witness :
  let a := mkTransferArgs "0xc0ffee" "0xbeef" "1" "2" "30" None (Some "90000") in
  let req := WriteContract "0xc0ffee" ERC6960_ABI "safeTransferFrom"
               [ArgAddress (publicAddress metamaskSeller); ArgAddress "0xbeef";
                ArgUint 1%Z; ArgUint 2%Z; ArgUint 30%Z; ArgBytes "0x"]
               (Some 90000%Z) in
  reachable (collab := online) (walletManager (server sellerWorld))
  /\ getCurrentWallet (walletManager (server sellerWorld)) = Some metamaskSeller
  /\ transferPlan (chain := revertingChain) a metamaskSeller = Return (req, tt)
  /\ String.prefix "0x" (publicAddress metamaskSeller) = true
  /\ exists resp w',
       transfer_erc6960_tool (collab := online) (chain := revertingChain) a sellerWorld
       = (Return resp, w')
       /\ submitted w' = [mkSubmission (clientOf metamaskSeller)
                                       testnet req].
Proof.
  intros a req.
  assert (Hr : reachable (collab := online) (walletManager (server sellerWorld)))
    by exact (reach_load sellerEnv).
  assert (Hc : getCurrentWallet (walletManager (server sellerWorld))
               = Some metamaskSeller) by reflexivity.
  assert (Hp : transferPlan (chain := revertingChain) a metamaskSeller
               = Return (req, tt)) by reflexivity.
  split; [exact Hr|]. split; [exact Hc|]. split; [exact Hp|].
  destruct (@X14_transfer_from_current_wallet online revertingChain a sellerWorld
              metamaskSeller req Hr Hc Hp)
    as (_ & _ & Hfrom & _ & resp & w' & Hrun & Hsub & _).
  split; [exact Hfrom|]. exists resp, w'. split; [exact Hrun|exact Hsub].
Defined.

(** X15 on [sellerEnv] with the GOAT SDK out of reach: all three flags
    are [false]. *)
Lemma X15_witness :
  let s := startServer (collab := offline) sellerEnv in
  reachable (collab := offline) (walletManager s)
  /\ getCurrentWallet (walletManager s) = Some metamaskSeller
  /\ exists ok s',
       fst (handle (collab := offline) get_current_wallet JNull s)
       = Return (TextJson (currentWalletPayload metamaskSeller ok
                             (goatToolsLastWalletId s')))
       /\ (ok = true <-> goatTools s' <> None).
Proof.
  intros s.
  assert (Hr : reachable (collab := offline) (walletManager s))
    by exact (reach_load sellerEnv).
  assert (Hc : getCurrentWallet (walletManager s) = Some metamaskSeller)
    by reflexivity.
  split; [exact Hr|]. split; [exact Hc|].
  destruct (@X15_get_current_wallet_flags_agree offline JNull s metamaskSeller Hr Hc)
    as (ok & s' & Hh & Hok & _).
  exists ok, s'. split; [|exact Hok].
  rewrite Hh.
  assert (Hlast : goatToolsLastWalletId s' = None).
  { replace s' with (snd (handle (collab := offline) get_current_wallet JNull s))
      by now rewrite Hh.
    reflexivity. }
  assert (Hfalse : ok = false).
  { destruct ok; [|reflexivity]. exfalso.
    assert (Ht : goatTools s' = None).
    { replace s' with (snd (handle (collab := offline) get_current_wallet JNull s))
        by now rewrite Hh.
      reflexivity. }
    now apply (proj1 Hok). }
  subst ok. rewrite Hlast. reflexivity.
Defined.

(** X16 on [mixedEnv]: switch to the buyer, then ask. *)
Lemma X16_witness :
  let s := startServer (collab := online) mixedEnv in
  reachable (collab := online) (walletManager s)
  /\ switchTarget "buyer" (requestedProvider None) (walletManager s)
     = Some metamaskBuyer
  /\ exists rebuilt s1 ok s2,
       fst (switch_to (collab := online) "buyer" "" None s)
       = Return (TextJson (switchSuccessPayload "buyer" "metamask"
                             metamaskBuyer rebuilt))
       /\ snd (switch_to (collab := online) "buyer" "" None s) = s1
       /\ fst (handle (collab := online) get_current_wallet JNull s1)
          = Return (TextJson (currentWalletPayload metamaskBuyer ok
                                (goatToolsLastWalletId s2)))
       /\ (rebuilt = true -> ok = true /\ s2 = s1).
Proof.
  intros s.
  assert (Hr : reachable (collab := online) (walletManager s))
    by exact (reach_load mixedEnv).
  assert (Ht : switchTarget "buyer" (requestedProvider None) (walletManager s)
               = Some metamaskBuyer) by reflexivity.
  split; [exact Hr|]. split; [exact Ht|].
  destruct (@X16_switch_then_get_current_wallet online s "buyer" "" None JNull
              metamaskBuyer Hr Ht)
    as (rebuilt & s1 & ok & s2 & Hsw & Hh & _ & Himp & _).
  exists rebuilt, s1, ok, s2. rewrite Hsw, Hh.
  split; [reflexivity|]. split; [reflexivity|]. split; [reflexivity|exact Himp].
Defined.

(** X17 on [sellerWorld] with a chain that reverts: the answer still
    says [success]. *)
Lemma X17_witness :
  let a := mkSendArgs "0xbeef" "2" None None in
  let sub := mkSubmission (clientOf metamaskSeller) testnet
               (SendTransaction "0xbeef" 2000000000000000000%Z None) in
  reachable (collab := online) (walletManager (server sellerWorld))
  /\ getCurrentWallet (walletManager (server sellerWorld)) = Some metamaskSeller
  /\ status revertedReceipt <> "success"
  /\ send_eth_tool (collab := online) (chain := revertingChain) a sellerWorld
     = (Return (TextJson (sendPayload a metamaskSeller tt "0xfeed" revertedReceipt)),
        mkWorld (server sellerWorld) [sub])
  /\ field "success" (sendPayload a metamaskSeller tt "0xfeed" revertedReceipt)
     = Some (JBool true)
  /\ field "status" (sendPayload a metamaskSeller tt "0xfeed" revertedReceipt)
     = Some (JStr "Failed").
Proof.
  intros a sub.
  assert (Hr : reachable (collab := online) (walletManager (server sellerWorld)))
    by exact (reach_load sellerEnv).
  assert (Hc : getCurrentWallet (walletManager (server sellerWorld))
               = Some metamaskSeller) by reflexivity.
  assert (Hst : status revertedReceipt <> "success") by discriminate.
  split; [exact Hr|]. split; [exact Hc|]. split; [exact Hst|].
  destruct (@X17_send_eth online revertingChain a sellerWorld metamaskSeller Hr Hc)
    as [_ Hsend].
  destruct (Hsend 2000000000000000000%Z None "0xfeed" revertedReceipt
              eq_refl eq_refl eq_refl eq_refl eq_refl)
    as (Hrun & Hsucc & _ & Hfail).
  split; [exact Hrun|]. split; [exact Hsucc|exact (Hfail Hst)].
Defined.

(** X18 on [sellerWorld]: without [confirmed] nothing is handed over, and
    with the estimate failing and no gas limit the preview shows
    ["50000"]; with [confirmed], a token URI and a gas limit that does
    not convert, the answer is the error text and nothing is handed
    over. *)
Lemma X18_witness :
  let a := mkConfirmArgs "0xc0ffee" "0xbeef" None (Some "ipfs://one") None None None in
  let b := mkConfirmArgs "0xc0ffee" "0xbeef" None (Some "ipfs://one") None
                         (Some "abc") (Some true) in
  reachable (collab := online) (walletManager (server sellerWorld))
  /\ getCurrentWallet (walletManager (server sellerWorld)) = Some metamaskSeller
  /\ confirmedOr (confirm_confirmed a) = false
  /\ fst (mint_nft_with_confirmation (collab := online) (chain := revertingChain)
            a sellerWorld)
     = Return (TextJson (confirmPreview (chain := revertingChain) a metamaskSeller))
  /\ submitted (snd (mint_nft_with_confirmation (collab := online)
                       (chain := revertingChain) a sellerWorld)) = []
  /\ (exists details,
       field "details" (confirmPreview (chain := revertingChain) a metamaskSeller)
       = Some details
       /\ field "estimatedGas" details = Some (JStr "50000"))
  /\ fst (mint_nft_with_confirmation (collab := online) (chain := revertingChain)
            b sellerWorld)
     = Return (TextPlain "Error minting NFT: Cannot convert abc to a BigInt")
  /\ submitted (snd (mint_nft_with_confirmation (collab := online)
                       (chain := revertingChain) b sellerWorld)) = [].
Proof.
  intros a b.
  assert (Hr : reachable (collab := online) (walletManager (server sellerWorld)))
    by exact (reach_load sellerEnv).
  assert (Hc : getCurrentWallet (walletManager (server sellerWorld))
               = Some metamaskSeller) by reflexivity.
  assert (Hn : confirmedOr (confirm_confirmed a) = false) by reflexivity.
  split; [exact Hr|]. split; [exact Hc|]. split; [exact Hn|].
  destruct (@X18_confirmation_gate online revertingChain a sellerWorld
              metamaskSeller Hr Hc) as [Hpreview _].
  destruct (Hpreview Hn) as (Hfst & Hsub & details & Hd & Hgas).
  split; [exact Hfst|]. split; [exact Hsub|].
  split; [exists details; split; [exact Hd|exact Hgas]|].
  destruct (@X18_confirmation_gate online revertingChain b sellerWorld
              metamaskSeller Hr Hc) as (_ & _ & _ & Hmint).
  destruct (Hmint eq_refl eq_refl) as (_ & _ & Hbad).
  exact (Hbad "Cannot convert abc to a BigInt" eq_refl eq_refl).
Defined.

(** X19 on [sellerEnv] with the chain out of reach: the payload carries
    the note. *)
Lemma X19_witness :
  let s := startServer (collab := offline) sellerEnv in
  reachable (collab := offline) (walletManager s)
  /\ getCurrentWallet (walletManager s) = Some metamaskSeller
  /\ exists s' payload,
       handle (collab := offline) get_wallet_info JNull s
       = (Return (TextJson payload), s')
       /\ field "address" payload = Some (JStr (publicAddress metamaskSeller))
       /\ field "balance" payload = None
       /\ field "note" payload
          = Some (JStr "Could not fetch balance - network might be unavailable").
Proof.
  intros s.
  assert (Hr : reachable (collab := offline) (walletManager s))
    by exact (reach_load sellerEnv).
  assert (Hc : getCurrentWallet (walletManager s) = Some metamaskSeller)
    by reflexivity.
  split; [exact Hr|]. split; [exact Hc|].
  destruct (@X19_get_wallet_info_survives_chain_errors offline JNull s
              metamaskSeller Hr Hc)
    as (ok & s' & payload & Hh & _ & _ & Haddr & _ & _ & _ & Hbal).
  exists s', payload. split; [exact Hh|]. split; [exact Haddr|].
  cbv zeta in Hbal. exact Hbal.
Defined.
